(** * OneSip: reservation intake, notification trigger, admin console, auth gateway

    A shallow embedding of the JavaScript of the OneSip restaurant site:
    - [public/js/reservations.js] (the reservation form, two variants),
    - [functions/index.js] (the [sendReservationEmails] trigger),
    - the admin dashboard script ([applyFilters], [showReservationDetails],
      [updateReservationStatus]),
    - the authentication service ([getUserData], [onAuthStateChanged]).

    Strings are sequences of code units; the model keeps the code units below
    256 (Latin-1), which is what Rocq's [string] offers.  The document store,
    the mail provider and the clock are the platform: their answers are inputs
    of the handlers. *)

From Stdlib Require Import ZArith Lia Bool Ascii.
From stdpp Require Import gmap strings list fin_maps.

Local Open Scope Z_scope.

(* ===================================================================== *)
(** * JavaScript strings *)
(* ===================================================================== *)

Module JS.

(** Thrown values of this program are [Error] objects; [message] is a
    string (the empty string when none was given). *)
Record Error := mkError { message : string }.

(** Truthiness of a string: every string but the empty one. *)
Definition truthy (s : string) : bool :=
  match s with
  | EmptyString => false
  | String _ _ => true
  end.

(** The class [\d]: the ten ASCII digits. *)
Definition isDigit (c : ascii) : bool :=
  let n := nat_of_ascii c in (48 <=? n)%nat && (n <=? 57)%nat.

(** The class [[6-9]]. *)
Definition is6to9 (c : ascii) : bool :=
  let n := nat_of_ascii c in (54 <=? n)%nat && (n <=? 57)%nat.

(** WhiteSpace and LineTerminator code units below 256: TAB, LF, VT, FF,
    CR, SP and NBSP. *)
Definition isWhiteSpace (c : ascii) : bool :=
  let n := nat_of_ascii c in
  ((9 <=? n)%nat && (n <=? 13)%nat) || (n =? 32)%nat || (n =? 160)%nat.

Fixpoint all (p : ascii -> bool) (s : string) : bool :=
  match s with
  | EmptyString => true
  | String c s' => p c && all p s'
  end.

(** [s.replace(/\D/g, '')] *)
Fixpoint removeNonDigits (s : string) : string :=
  match s with
  | EmptyString => EmptyString
  | String c s' =>
      if isDigit c then String c (removeNonDigits s') else removeNonDigits s'
  end.

(** [s.slice(0, n)] *)
Fixpoint sliceTo (n : nat) (s : string) : string :=
  match n, s with
  | S n', String c s' => String c (sliceTo n' s')
  | _, _ => EmptyString
  end.

Fixpoint trimStart (s : string) : string :=
  match s with
  | EmptyString => EmptyString
  | String c s' => if isWhiteSpace c then trimStart s' else s
  end.

Fixpoint trimEnd (s : string) : string :=
  match s with
  | EmptyString => EmptyString
  | String c s' =>
      match trimEnd s' with
      | EmptyString => if isWhiteSpace c then EmptyString else String c EmptyString
      | t => String c t
      end
  end.

(** [s.trim()] *)
Definition trim (s : string) : string := trimEnd (trimStart s).

(** [s.toLowerCase()] on code units below 256: [A-Z] and the capital
    letters U+00C0..U+00DE (but the sign U+00D7) move up by 32, each
    letter by itself.  Beyond these code units the lower case of a letter
    can depend on its neighbours (the final sigma); no statement below
    relies on letters being mapped one by one. *)
Definition lowerChar (c : ascii) : ascii :=
  let n := nat_of_ascii c in
  if ((65 <=? n)%nat && (n <=? 90)%nat)
     || ((192 <=? n)%nat && (n <=? 222)%nat && negb (n =? 215)%nat)
  then ascii_of_nat (n + 32) else c.

Fixpoint toLowerCase (s : string) : string :=
  match s with
  | EmptyString => EmptyString
  | String c s' => String (lowerChar c) (toLowerCase s')
  end.

Fixpoint startsWith (p s : string) : bool :=
  match p, s with
  | EmptyString, _ => true
  | String a p', String b s' => if ascii_dec a b then startsWith p' s' else false
  | String _ _, EmptyString => false
  end.

(** [s.includes(q)] *)
Fixpoint includes (s q : string) : bool :=
  startsWith q s ||
  match s with
  | EmptyString => false
  | String _ s' => includes s' q
  end.

(** The phone pattern of the form: one of 6..9, then nine digits, and
    nothing else (no flag: [^] and [$] are the two ends of the input). *)
Definition phoneRegex_test (s : string) : bool :=
  match s with
  | EmptyString => false
  | String c rest =>
      is6to9 c && (String.length rest =? 9)%nat && all isDigit rest
  end.

End JS.

(* ===================================================================== *)
(** * Dates *)
(* ===================================================================== *)

Module JSDate.

Definition msPerDay : Z := 86400000.

(** The clock of the browser: the current time value (milliseconds since
    the epoch, UTC), the offset of local time from UTC in force now, and
    the offset in force at the midnight that began the local day (the two
    differ on the days the clocks are changed), in milliseconds. *)
Record Clock := mkClock { now : Z; LocalTZA : Z; midnightTZA : Z }.

Definition digit (c : ascii) : option Z :=
  if JS.isDigit c then Some (Z.of_nat (nat_of_ascii c) - 48) else None.

Definition isLeapYear (y : Z) : bool :=
  (y mod 4 =? 0) && (negb (y mod 100 =? 0) || (y mod 400 =? 0)).

Definition DayFromYear (y : Z) : Z :=
  365 * (y - 1970) + (y - 1969) / 4 - (y - 1901) / 100 + (y - 1601) / 400.

Definition DaysInMonth (y m : Z) : Z :=
  if m =? 2 then (if isLeapYear y then 29 else 28)
  else if (m =? 4) || (m =? 6) || (m =? 9) || (m =? 11) then 30
  else 31.

(** Days of the year before the first of month [m] (1..12). *)
Fixpoint daysBefore (y : Z) (k : nat) : Z :=
  match k with
  | O => 0
  | S k' => daysBefore y k' + DaysInMonth y (Z.of_nat k)
  end.

(** Day number of the calendar date [y]-[m]-[d]. *)
Definition MakeDay (y m d : Z) : Z :=
  DayFromYear y + daysBefore y (Z.to_nat (m - 1)) + (d - 1).

(** [new Date(s).getTime()] for the value of a date input: the date-only
    form [YYYY-MM-DD] is UTC midnight of that day; the empty string is an
    invalid date ([None], the time value NaN).  The browser keeps the
    value of a date input to these two forms.  What an engine makes of
    any other string (a day the month lacks among them) is left to it by
    ECMA-262; such a string is taken as invalid here. *)
Definition parse (s : string) : option Z :=
  match s with
  | String y1 (String y2 (String y3 (String y4 (String "-"
      (String m1 (String m2 (String "-"
        (String d1 (String d2 EmptyString))))))))) =>
      match digit y1, digit y2, digit y3, digit y4,
            digit m1, digit m2, digit d1, digit d2 with
      | Some a, Some b, Some c, Some e, Some f, Some g, Some h, Some i =>
          let y := 1000 * a + 100 * b + 10 * c + e in
          let m := 10 * f + g in
          let d := 10 * h + i in
          if (1 <=? m) && (m <=? 12) && (1 <=? d) && (d <=? DaysInMonth y m)
          then Some (MakeDay y m d * msPerDay)
          else None
      | _, _, _, _, _, _, _, _ => None
      end
  | _ => None
  end.

(** [d = new Date(); d.setHours(0, 0, 0, 0); d.getTime()]: the local day
    is read with the offset in force now, and its midnight is turned
    into a time value with the offset in force at that midnight. *)
Definition localDay (c : Clock) : Z := (now c + LocalTZA c) / msPerDay.
Definition localMidnight (c : Clock) : Z := localDay c * msPerDay - midnightTZA c.

(** [a < b] on two dates: false as soon as one is invalid. *)
Definition lt (a b : option Z) : bool :=
  match a, b with
  | Some x, Some y => x <? y
  | _, _ => false
  end.

End JSDate.

(* ===================================================================== *)
(** * The document store *)
(* ===================================================================== *)

Module Firestore.

(** A timestamp field of a write: the sentinel
    [FieldValue.serverTimestamp()], which the server replaces by the time
    of the commit, or a fixed time. *)
Inductive FieldValue :=
| serverTimestamp
| timestamp (t : Z).

Definition resolve (commit : Z) (v : FieldValue) : Z :=
  match v with
  | serverTimestamp => commit
  | timestamp t => t
  end.

(** A document of the collection [reservations]; [T] is the type of its
    timestamp fields: [FieldValue] in the object a client writes, a time
    value in the stored document.  [None] is [null] or an absent field. *)
Record Reservation (T : Type) := mkReservation {
  customerName : string;
  customerPhone : string;
  customerEmail : option string;
  partySize : string;
  reservationDate : string;
  reservationTime : string;
  specialRequests : option string;
  status : string;
  createdAt : T;
  updatedAt : T;
  emailError : option string;
  emailErrorTimestamp : option T
}.
Arguments mkReservation {T}.
Arguments customerName {T}.
Arguments customerPhone {T}.
Arguments customerEmail {T}.
Arguments partySize {T}.
Arguments reservationDate {T}.
Arguments reservationTime {T}.
Arguments specialRequests {T}.
Arguments status {T}.
Arguments createdAt {T}.
Arguments updatedAt {T}.
Arguments emailError {T}.
Arguments emailErrorTimestamp {T}.

(** The stored form of a written document. *)
Definition stored (commit : Z) (d : Reservation FieldValue) : Reservation Z :=
  {| customerName := customerName d; customerPhone := customerPhone d;
     customerEmail := customerEmail d; partySize := partySize d;
     reservationDate := reservationDate d;
     reservationTime := reservationTime d;
     specialRequests := specialRequests d;
     status := status d;
     createdAt := resolve commit (createdAt d);
     updatedAt := resolve commit (updatedAt d);
     emailError := emailError d;
     emailErrorTimestamp := resolve commit <$> emailErrorTimestamp d |}.

(** The two objects this program passes to [update]. *)
Inductive Patch :=
| StatusPatch (newStatus : string) (updatedAt' : FieldValue)
| EmailErrorPatch (emailError' : string) (emailErrorTimestamp' : FieldValue).

(** [update] merges the given fields into the document and leaves the
    others as they are. *)
Definition applyPatch (commit : Z) (p : Patch) (r : Reservation Z) :
    Reservation Z :=
  match p with
  | StatusPatch s u =>
      {| customerName := customerName r; customerPhone := customerPhone r;
         customerEmail := customerEmail r; partySize := partySize r;
         reservationDate := reservationDate r;
         reservationTime := reservationTime r;
         specialRequests := specialRequests r;
         status := s;
         createdAt := createdAt r;
         updatedAt := resolve commit u;
         emailError := emailError r;
         emailErrorTimestamp := emailErrorTimestamp r |}
  | EmailErrorPatch m ts =>
      {| customerName := customerName r; customerPhone := customerPhone r;
         customerEmail := customerEmail r; partySize := partySize r;
         reservationDate := reservationDate r;
         reservationTime := reservationTime r;
         specialRequests := specialRequests r;
         status := status r;
         createdAt := createdAt r;
         updatedAt := updatedAt r;
         emailError := Some m;
         emailErrorTimestamp := Some (resolve commit ts) |}
  end.

(** What the platform answers to a write: it commits at a server time, or
    it rejects (security rules, network) with an error. *)
Inductive Answer :=
| Commit (t : Z)
| Reject (e : JS.Error).

Definition notFound : JS.Error :=
  JS.mkError "No document to update".

(** [collection.add(data)]: the client library draws the identifier [id]
    of the new document and writes the document under it. *)
Definition add (a : Answer) (id : string) (d : Reservation FieldValue)
    (db : gmap string (Reservation Z)) :
    JS.Error + gmap string (Reservation Z) :=
  match a with
  | Reject e => inl e
  | Commit t => inr (<[id := stored t d]> db)
  end.

(** [doc(id).update(patch)]: fails when the platform rejects or when no
    document has this identifier; the collection is then unchanged. *)
Definition update (a : Answer) (id : string) (p : Patch)
    (db : gmap string (Reservation Z)) :
    JS.Error + gmap string (Reservation Z) :=
  match a with
  | Reject e => inl e
  | Commit t =>
      match db !! id with
      | None => inl notFound
      | Some r => inr (<[id := applyPatch t p r]> db)
      end
  end.

(** [doc(id).delete()] *)
Definition delete (a : Answer) (id : string)
    (db : gmap string (Reservation Z)) :
    JS.Error + gmap string (Reservation Z) :=
  match a with
  | Reject e => inl e
  | Commit _ => inr (base.delete id db)
  end.

End Firestore.

(* ===================================================================== *)
(** * Reservation intake: the form of the reservations page *)
(* ===================================================================== *)

Module Intake.
Import Firestore.

(** The values of the fields of [#reservation-form]. *)
Record Form := mkForm {
  customer_name : string;
  customer_phone : string;
  customer_email : string;
  party_size : string;
  reservation_date : string;
  reservation_time : string;
  special_requests : string
}.

(** The [input] listener of [#customer-phone]. *)
Definition phoneInput (raw : string) : string :=
  let value := JS.removeNonDigits raw in
  if (10 <? String.length value)%nat then JS.sliceTo 10 value else value.

(** [s || null] *)
Definition orNull (s : string) : option string :=
  if JS.truthy s then Some s else None.

Definition formData (f : Form) : Reservation FieldValue :=
  {| customerName := JS.trim (customer_name f);
     customerPhone := JS.trim (customer_phone f);
     customerEmail := orNull (JS.trim (customer_email f));
     partySize := party_size f;
     reservationDate := reservation_date f;
     reservationTime := reservation_time f;
     specialRequests := orNull (JS.trim (special_requests f));
     status := "pending";
     createdAt := serverTimestamp;
     updatedAt := serverTimestamp;
     emailError := None;
     emailErrorTimestamp := None |}.

(** What the page finds around it: the clock, and the global [firebase]:
    [None] when the global is not defined, else [firebase.apps.length]. *)
Record Env := mkEnv { clock : JSDate.Clock; firebase : option nat }.

Definition phoneError : JS.Error :=
  JS.mkError "Please enter a valid 10-digit Indian phone number".
Definition dateError : JS.Error :=
  JS.mkError "Please select a future date".
Definition notInitialized : JS.Error :=
  JS.mkError "Firebase is not initialized. Please check your configuration.".
Definition referenceError : JS.Error :=
  JS.mkError "firebase is not defined".

(** The phone check of the handler. *)
Definition phoneOk (d : Reservation FieldValue) : bool :=
  JS.phoneRegex_test (customerPhone d).

(** The date check of the handler: [selectedDate < todayDate] throws. *)
Definition dateOk (c : JSDate.Clock) (d : Reservation FieldValue) : bool :=
  negb (JSDate.lt (JSDate.parse (reservationDate d))
                  (Some (JSDate.localMidnight c))).

(** The two checks on what the visitor entered. *)
Definition validation (c : JSDate.Clock) (f : Form) : bool :=
  phoneOk (formData f) && dateOk c (formData f).

(** The body of [try] up to the call of [add]: the object is built (which
    reads [firebase.firestore]), then the three checks run in order. *)
Inductive Checked :=
| Throw (e : JS.Error)
| Proceed (d : Reservation FieldValue).

Definition check (env : Env) (f : Form) : Checked :=
  match firebase env with
  | None => Throw referenceError
  | Some apps =>
      let d := formData f in
      if negb (phoneOk d) then Throw phoneError
      else if negb (dateOk (clock env) d) then Throw dateError
      else if (apps =? 0)%nat then Throw notInitialized
      else Proceed d
  end.

(** The two versions of the script differ after a successful write:
    [InlineMessage] ([public/js/reservations.js]) shows a message and
    starts a timer; [SuccessView] calls [showSuccessUI]. *)
Inductive Variant := InlineMessage | SuccessView.

Inductive Widget :=
| FormWidget
| SuccessWidget (d : Reservation FieldValue).

(** Callbacks given to [setTimeout], with their delays: 3000, 400, 200. *)
Inductive Timer :=
| ReEnable
| ReplaceWidget (d : Reservation FieldValue)
| Animate.

Record Page := mkPage {
  form : Form;
  defaults : Form;                (* what [reset()] restores *)
  submitDisabled : bool;
  submitText : string;
  messageText : string;
  messageClass : string;
  messageHidden : bool;           (* [messageDiv.style.display = 'none'] *)
  bookingWidget : option Widget;  (* [None]: no [.booking-widget] *)
  iconAnimated : bool;
  awaiting : option (Reservation FieldValue); (* the pending [add] *)
  timers : list Timer
}.

(** The page, the collection, and the writes sent so far. *)
Record World := mkWorld {
  page : Page;
  db : gmap string (Reservation Z);
  calls : list (Reservation FieldValue)
}.

(** The marks U+2717 and U+2713 lie outside the code units of the model;
    they stand here as their UTF-8 bytes.  No code reads them. *)
Definition crossMark : string := "✗ ".
Definition successMessage : string :=
  "✓ Reservation request submitted successfully! We will contact you shortly to confirm.".
Definition fallbackMessage : string :=
  "An error occurred. Please try again or call us directly.".

(** Assignments to the elements of the page. *)
Definition setSubmit (disabled : bool) (text : string) (p : Page) : Page :=
  {| form := form p; defaults := defaults p;
     submitDisabled := disabled; submitText := text;
     messageText := messageText p; messageClass := messageClass p;
     messageHidden := messageHidden p; bookingWidget := bookingWidget p;
     iconAnimated := iconAnimated p; awaiting := awaiting p;
     timers := timers p |}.

Definition setMessage (text class : string) (p : Page) : Page :=
  {| form := form p; defaults := defaults p;
     submitDisabled := submitDisabled p; submitText := submitText p;
     messageText := text; messageClass := class;
     messageHidden := messageHidden p; bookingWidget := bookingWidget p;
     iconAnimated := iconAnimated p; awaiting := awaiting p;
     timers := timers p |}.

Definition hideMessage (p : Page) : Page :=
  {| form := form p; defaults := defaults p;
     submitDisabled := submitDisabled p; submitText := submitText p;
     messageText := messageText p; messageClass := messageClass p;
     messageHidden := true; bookingWidget := bookingWidget p;
     iconAnimated := iconAnimated p; awaiting := awaiting p;
     timers := timers p |}.

Definition setForm (f : Form) (p : Page) : Page :=
  {| form := f; defaults := defaults p;
     submitDisabled := submitDisabled p; submitText := submitText p;
     messageText := messageText p; messageClass := messageClass p;
     messageHidden := messageHidden p; bookingWidget := bookingWidget p;
     iconAnimated := iconAnimated p; awaiting := awaiting p;
     timers := timers p |}.

Definition setWidget (wd : Widget) (p : Page) : Page :=
  {| form := form p; defaults := defaults p;
     submitDisabled := submitDisabled p; submitText := submitText p;
     messageText := messageText p; messageClass := messageClass p;
     messageHidden := messageHidden p; bookingWidget := Some wd;
     iconAnimated := iconAnimated p; awaiting := awaiting p;
     timers := timers p |}.

Definition setIconAnimated (p : Page) : Page :=
  {| form := form p; defaults := defaults p;
     submitDisabled := submitDisabled p; submitText := submitText p;
     messageText := messageText p; messageClass := messageClass p;
     messageHidden := messageHidden p; bookingWidget := bookingWidget p;
     iconAnimated := true; awaiting := awaiting p;
     timers := timers p |}.

(** The listener is suspended on the promise of [add] ([Some d]), or
    resumed ([None]). *)
Definition await (o : option (Reservation FieldValue)) (p : Page) : Page :=
  {| form := form p; defaults := defaults p;
     submitDisabled := submitDisabled p; submitText := submitText p;
     messageText := messageText p; messageClass := messageClass p;
     messageHidden := messageHidden p; bookingWidget := bookingWidget p;
     iconAnimated := iconAnimated p; awaiting := o;
     timers := timers p |}.

Definition setTimers (ts : list Timer) (p : Page) : Page :=
  {| form := form p; defaults := defaults p;
     submitDisabled := submitDisabled p; submitText := submitText p;
     messageText := messageText p; messageClass := messageClass p;
     messageHidden := messageHidden p; bookingWidget := bookingWidget p;
     iconAnimated := iconAnimated p; awaiting := awaiting p;
     timers := ts |}.

(** [setTimeout(t, ..)] *)
Definition setTimeout (t : Timer) (p : Page) : Page :=
  setTimers (timers p ++ [t]) p.

(** [reservationForm.reset()] *)
Definition reset (p : Page) : Page := setForm (defaults p) p.

(** The [catch] block. *)
Definition errorMessage (e : JS.Error) : string :=
  if JS.truthy (JS.message e) then JS.message e else fallbackMessage.

Definition catch (e : JS.Error) (p : Page) : Page :=
  setSubmit false "Reserve Table"
    (setMessage (crossMark +:+ errorMessage e)
                "form-message form-message-error" p).

(** The first statements of the listener. *)
Definition begin (p : Page) : Page :=
  setMessage "" "form-message" (setSubmit true "Submitting..." p).

(** The listener of [submit], up to the first suspension. *)
Definition onSubmit (env : Env) (w : World) : World :=
  let p := begin (page w) in
  match check env (form p) with
  | Throw e => {| page := catch e p; db := db w; calls := calls w |}
  | Proceed d =>
      {| page := await (Some d) p; db := db w; calls := calls w ++ [d] |}
  end.

(** After [add] resolved, in [public/js/reservations.js]. *)
Definition successInline (p : Page) : Page :=
  setTimeout ReEnable
    (reset
       (setMessage successMessage "form-message form-message-success" p)).

(** [showSuccessUI]: the function returns at once when the page has no
    [.booking-widget]; else it starts the timer that replaces the
    content of the widget. *)
Definition showSuccessUI (reservationData : Reservation FieldValue)
    (p : Page) : Page :=
  match bookingWidget p with
  | None => p
  | Some _ => setTimeout (ReplaceWidget reservationData) p
  end.

(** After [add] resolved, in the version with [showSuccessUI]. *)
Definition successView (d : Reservation FieldValue) (p : Page) : Page :=
  reset (showSuccessUI d (hideMessage p)).

Definition success (v : Variant) (d : Reservation FieldValue) (p : Page) : Page :=
  match v with
  | InlineMessage => successInline p
  | SuccessView => successView d p
  end.

(** The rest of the listener, once the promise of [add] is settled: [id]
    is the identifier the client library drew for the document. *)
Definition onSettled (v : Variant) (id : string) (a : Answer) (w : World) : World :=
  match awaiting (page w) with
  | None => w
  | Some d =>
      let p := await None (page w) in
      match add a id d (db w) with
      | inr db' => {| page := success v d p; db := db'; calls := calls w |}
      | inl e => {| page := catch e p; db := db w; calls := calls w |}
      end
  end.

(** A timer fires. *)
Definition fire (t : Timer) (p : Page) : Page :=
  match t with
  | ReEnable => setSubmit false "Reserve Table" p
  | ReplaceWidget d => setTimeout Animate (setWidget (SuccessWidget d) p)
  | Animate =>
      match bookingWidget p with
      | Some (SuccessWidget _) => setIconAnimated p
      | _ => p
      end
  end.

Definition dropTimer (n : nat) (p : Page) : Page :=
  setTimers (base.delete n (timers p)) p.

(** The visitor fills the form; the phone goes through its listener. *)
Definition fill (f : Form) (p : Page) : Page :=
  setForm {| customer_name := customer_name f;
             customer_phone := phoneInput (customer_phone f);
             customer_email := customer_email f;
             party_size := party_size f;
             reservation_date := reservation_date f;
             reservation_time := reservation_time f;
             special_requests := special_requests f |} p.

(** The page as loaded. *)
Definition load (dflt : Form) (widget : bool) : Page :=
  {| form := dflt; defaults := dflt;
     submitDisabled := false;
     submitText := "Reserve Table";
     messageText := "";
     messageClass := "form-message";
     messageHidden := false;
     bookingWidget := if widget then Some FormWidget else None;
     iconAnimated := false;
     awaiting := None;
     timers := [] |}.

(** What can happen to the page.  A form whose submit button is disabled
    is not submitted by the browser.  [Reload] is
    [makeAnotherReservation] (or any other reset of the page). *)
Inductive Event :=
| Fill (f : Form)
| Submit
| Settled (id : string) (a : Answer)
| Fire (n : nat)
| Reload.

Definition step (v : Variant) (env : Env) (e : Event) (w : World) : World :=
  match e with
  | Fill f => {| page := fill f (page w); db := db w; calls := calls w |}
  | Submit => if submitDisabled (page w) then w else onSubmit env w
  | Settled id a => onSettled v id a w
  | Fire n =>
      match timers (page w) !! n with
      | Some t => {| page := fire t (dropTimer n (page w));
                     db := db w; calls := calls w |}
      | None => w
      end
  | Reload =>
      {| page := load (defaults (page w))
                      (bool_decide (is_Some (bookingWidget (page w))));
         db := db w; calls := calls w |}
  end.

Definition run (v : Variant) (env : Env) (es : list Event) (w : World) : World :=
  foldl (fun w e => step v env e w) w es.

End Intake.

(* ===================================================================== *)
(** * Notification trigger: [sendReservationEmails] *)
(* ===================================================================== *)

Module Trigger.
Import Firestore.

Definition FROM_EMAIL : string := "noreply@onesip.co.in".
Definition MANAGER_EMAILS : list string :=
  ["biswas31@yahoo.com"; "neilbiswas13@gmail.com"].
Definition RESTAURANT_NAME : string := "One Sip".

(** The two renderings ([text], [html]) of a message are fixed by its
    template and by what is put in it; the message keeps these. *)
Inductive Body :=
| ManagerBody (reservation : Reservation Z) (reservationId : string)
| CustomerBody (reservation : Reservation Z).

(** [to] of the customer message is [reservation.customerEmail]. *)
Record Msg := mkMsg {
  to : option string;
  from : string;
  subject : string;
  body : Body
}.

(** The subject of the staff message starts with U+1F37D U+FE0F, kept as
    its UTF-8 bytes. *)
Definition sendManagerNotification (managerEmail : string)
    (reservation : Reservation Z) (reservationId : string) : Msg :=
  {| to := Some managerEmail;
     from := FROM_EMAIL;
     subject := "🍽️ New Reservation - " +:+ customerName reservation;
     body := ManagerBody reservation reservationId |}.

Definition sendCustomerConfirmation (reservation : Reservation Z) : Msg :=
  {| to := customerEmail reservation;
     from := FROM_EMAIL;
     subject := "Reservation Request Received - " +:+ RESTAURANT_NAME;
     body := CustomerBody reservation |}.

(** [reservation.customerEmail ? ... : ...]: [null] and the empty string
    are falsy. *)
Definition present (o : option string) : bool :=
  match o with
  | Some s => JS.truthy s
  | None => false
  end.

(** The messages handed to [sgMail.send], in the order of the array given
    to [Promise.all] (the resolved promise that stands for a missing
    customer message sends nothing). *)
Definition messages (reservation : Reservation Z) (reservationId : string) :
    list Msg :=
  map (fun email => sendManagerNotification email reservation reservationId)
      MANAGER_EMAILS
  ++ (if present (customerEmail reservation)
      then [sendCustomerConfirmation reservation] else []).

(** The mail provider: what [sgMail.send] answers to each message ([None]:
    accepted), and the order in which the promises settle, as positions
    in the array. *)
Record Mail := mkMail {
  send : Msg -> option JS.Error;
  settleOrder : list nat
}.

(** [Promise.all]: fulfilled when every promise is; else rejected with the
    reason of the promise that rejects first (a position the order does
    not list settles after the listed ones). *)
Definition firstRejection (order : list nat) (outcomes : list (option JS.Error)) :
    option JS.Error :=
  match omap (fun i => mjoin (outcomes !! i)) order with
  | e :: _ => Some e
  | [] => head (omap id outcomes)
  end.

Definition Promise_all (m : Mail) (msgs : list Msg) : option JS.Error :=
  firstRejection (settleOrder m) (map (send m) msgs).

(** The event of the platform: [event.data] (the snapshot of the created
    document, if any) and [event.params.reservationId]. *)
Record Event := mkEvent {
  data : option (Reservation Z);
  reservationId : string
}.

Inductive Result :=
| ReturnedUndefined
| ReturnedSuccess                (* [{ success: true }] *)
| Thrown (e : JS.Error).

Record Outcome := mkOutcome {
  result : Result;
  sent : list Msg;                        (* calls of [sgMail.send] *)
  updates : list (string * Patch);        (* calls of [snap.ref.update] *)
  db' : gmap string (Reservation Z)
}.

Definition sendReservationEmails (m : Mail) (a : Answer) (ev : Event)
    (db : gmap string (Reservation Z)) : Outcome :=
  match data ev with
  | None => {| result := ReturnedUndefined; sent := []; updates := []; db' := db |}
  | Some reservation =>
      let msgs := messages reservation (reservationId ev) in
      match Promise_all m msgs with
      | None =>
          {| result := ReturnedSuccess; sent := msgs; updates := []; db' := db |}
      | Some error =>
          let patch := EmailErrorPatch (JS.message error) serverTimestamp in
          match update a (reservationId ev) patch db with
          | inr db1 =>
              {| result := Thrown (JS.mkError
                             ("Failed to send emails: " +:+ JS.message error));
                 sent := msgs;
                 updates := [(reservationId ev, patch)];
                 db' := db1 |}
          | inl e =>
              {| result := Thrown e;
                 sent := msgs;
                 updates := [(reservationId ev, patch)];
                 db' := db |}
          end
      end
  end.

End Trigger.

(* ===================================================================== *)
(** * Admin console *)
(* ===================================================================== *)

Module Admin.
Import Firestore.

(** An element of [allReservations]: [{ id: doc.id, ...doc.data() }]. *)
Record Row := mkRow { id : string; doc : Reservation Z }.

(** The values of [#filter-status], [#filter-date] and [#search-input]. *)
Record Filters := mkFilters {
  filter_status : string;
  filter_date : string;
  search_input : string
}.

Inductive Action :=
| UpdateStatus (reservationId newStatus : string)
| DeleteReservation (reservationId : string).

(** A button of the modal and the call in its [onclick]. *)
Record Control := mkControl { label : string; onclick : Action }.

Record Console := mkConsole {
  allReservations : list Row;
  filteredReservations : list Row;
  listeners : nat;                  (* calls of [onSnapshot] *)
  modal : option (list Control);    (* [None]: the modal is hidden *)
  alerts : list string
}.

(** The callback of [applyFilters]' [filter]. *)
Definition keep (fl : Filters) (reservation : Row) : bool :=
  let statusFilter := filter_status fl in
  let dateFilter := filter_date fl in
  let searchQuery := JS.toLowerCase (search_input fl) in
  if negb (bool_decide (statusFilter = "all"))
     && negb (bool_decide (status (doc reservation) = statusFilter))
  then false
  else if JS.truthy dateFilter
          && negb (bool_decide (reservationDate (doc reservation) = dateFilter))
  then false
  else if JS.truthy searchQuery then
    let searchText :=
      JS.toLowerCase (customerName (doc reservation) +:+ " "
                      +:+ customerPhone (doc reservation)) in
    if negb (JS.includes searchText searchQuery) then false else true
  else true.

Definition applyFilters (fl : Filters) (c : Console) : Console :=
  {| allReservations := allReservations c;
     filteredReservations := List.filter (keep fl) (allReservations c);
     listeners := listeners c;
     modal := modal c;
     alerts := alerts c |}.

(** [loadReservations]: one subscription to the collection. *)
Definition loadReservations (c : Console) : Console :=
  {| allReservations := allReservations c;
     filteredReservations := filteredReservations c;
     listeners := S (listeners c);
     modal := modal c;
     alerts := alerts c |}.

(** The callback of [onSnapshot]: the documents of the snapshot, in its
    order, replace both lists. *)
Definition onSnapshot (snapshot : list Row) (c : Console) : Console :=
  {| allReservations := snapshot;
     filteredReservations := snapshot;
     listeners := listeners c;
     modal := modal c;
     alerts := alerts c |}.

(** The buttons of [.modal-actions]. *)
Definition modalActions (reservation : Row) : list Control :=
  (if bool_decide (status (doc reservation) = "pending")
   then [mkControl "Confirm" (UpdateStatus (id reservation) "confirmed")]
   else [])
  ++ (if bool_decide (status (doc reservation) <> "cancelled")
      then [mkControl "Cancel" (UpdateStatus (id reservation) "cancelled")]
      else [])
  ++ [mkControl "Delete" (DeleteReservation (id reservation))].

Definition showReservationDetails (reservationId : string) (c : Console) :
    Console :=
  match List.find (fun r => bool_decide (id r = reservationId))
                  (allReservations c) with
  | None => c
  | Some reservation =>
      {| allReservations := allReservations c;
         filteredReservations := filteredReservations c;
         listeners := listeners c;
         modal := Some (modalActions reservation);
         alerts := alerts c |}
  end.

Inductive Write :=
| Update (reservationId : string) (patch : Patch)
| Delete (reservationId : string).

(** The console, the collection, and the writes sent so far. *)
Record World := mkWorld {
  console : Console;
  db : gmap string (Reservation Z);
  writes : list Write
}.

Definition closeAndAlert (hide : bool) (text : string) (c : Console) : Console :=
  {| allReservations := allReservations c;
     filteredReservations := filteredReservations c;
     listeners := listeners c;
     modal := if hide then None else modal c;
     alerts := alerts c ++ [text] |}.

Definition updateReservationStatus (a : Answer) (reservationId newStatus : string)
    (w : World) : World :=
  let patch := StatusPatch newStatus serverTimestamp in
  match update a reservationId patch (db w) with
  | inr db1 =>
      {| console := closeAndAlert true
                      ("Reservation " +:+ newStatus +:+ " successfully!")
                      (console w);
         db := db1;
         writes := writes w ++ [Update reservationId patch] |}
  | inl error =>
      {| console := closeAndAlert false
                      ("Error updating reservation: " +:+ JS.message error)
                      (console w);
         db := db w;
         writes := writes w ++ [Update reservationId patch] |}
  end.

(** [deleteReservation]: nothing happens unless the operator accepts the
    [confirm] dialog. *)
Definition deleteReservation (accepted : bool) (a : Answer)
    (reservationId : string) (w : World) : World :=
  if negb accepted then w
  else
    match delete a reservationId (db w) with
    | inr db1 =>
        {| console := closeAndAlert true "Reservation deleted successfully!"
                        (console w);
           db := db1;
           writes := writes w ++ [Delete reservationId] |}
    | inl error =>
        {| console := closeAndAlert false
                        ("Error deleting reservation: " +:+ JS.message error)
                        (console w);
           db := db w;
           writes := writes w ++ [Delete reservationId] |}
    end.

(** A click on a button of the modal; [accepted] is the answer to the
    [confirm] dialog, should one open. *)
Definition click (accepted : bool) (a : Answer) (ctl : Control) (w : World) :
    World :=
  match onclick ctl with
  | UpdateStatus reservationId newStatus =>
      updateReservationStatus a reservationId newStatus w
  | DeleteReservation reservationId =>
      deleteReservation accepted a reservationId w
  end.


End Admin.

(* ===================================================================== *)
(** * Authentication service *)
(* ===================================================================== *)

Module Auth.

(** Values of the fields of a profile and of the object given to the
    callback. *)
Inductive Value :=
| VString (s : string)
| VNull
| VBool (b : bool)
| VTimestamp (t : Z)
| VArray (l : list string)
| VPreferences (emailNotifications smsNotifications : bool).

(** The user of the identity provider. *)
Record User := mkUser {
  uid : string;
  email : option string;
  displayName : option string
}.

Definition ofNullable (o : option string) : Value :=
  match o with
  | Some s => VString s
  | None => VNull
  end.

(** What the platform answers to [doc(uid).get()]. *)
Inductive Read :=
| Served
| Refused (e : JS.Error).

(** The object [getUserData] returns; an absent property is [None]. *)
Record UserData := mkUserData {
  success : bool;
  data : option (gmap string Value);
  error : option string
}.

Definition getUserData (users : gmap string (gmap string Value)) (r : Read)
    (uid : string) : UserData :=
  match r with
  | Refused _ =>
      {| success := false; data := None; error := Some "Failed to fetch user data" |}
  | Served =>
      match users !! uid with
      | Some d => {| success := true; data := Some d; error := None |}
      | None =>
          {| success := false; data := None; error := Some "User data not found" |}
      end
  end.

(** The argument of the callback. *)
Record AuthState := mkAuthState {
  isAuthenticated : bool;
  user : option (gmap string Value)
}.

(** [{ uid: .., email: .., displayName: .., ...data }]: the properties of
    [data] come last and win; spreading [undefined] adds nothing. *)
Definition merged (u : User) (data : option (gmap string Value)) :
    gmap string Value :=
  default ∅ data
  ∪ <["uid" := VString (uid u)]>
      (<["email" := ofNullable (email u)]>
         (<["displayName" := ofNullable (displayName u)]> ∅)).

(** The listener that [onAuthStateChanged] registers: the calls of
    [callback] it makes for one change of the authentication state. *)
Definition onAuthStateChanged (users : gmap string (gmap string Value))
    (r : Read) (u : option User) : list AuthState :=
  match u with
  | Some user' =>
      let userData := getUserData users r (uid user') in
      [ {| isAuthenticated := true;
           user := Some (merged user' (data userData)) |} ]
  | None => [ {| isAuthenticated := false; user := None |} ]
  end.

End Auth.

(* ===================================================================== *)
(** * What the specification says, in its own words *)
(* ===================================================================== *)

Module Spec.

(** [q] occurs in [s]. *)
Definition substring (q s : string) : Prop :=
  exists pre post, s = pre +:+ q +:+ post.

(** [q] occurs in [s], the case of letters apart. *)
Definition substring_ci (q s : string) : Prop :=
  substring (JS.toLowerCase q) (JS.toLowerCase s).

(** A submission fails with [e]: a check of the listener throws, or the
    platform rejects the write the listener waits for. *)
Inductive fails (env : Intake.Env) (w : Intake.World) :
    Intake.Event -> JS.Error -> Prop :=
| fails_check e :
    Intake.submitDisabled (Intake.page w) = false ->
    Intake.check env (Intake.form (Intake.page w)) = Intake.Throw e ->
    fails env w Intake.Submit e
| fails_add d id e :
    Intake.awaiting (Intake.page w) = Some d ->
    fails env w (Intake.Settled id (Firestore.Reject e)) e.

Definition isReload (e : Intake.Event) : bool :=
  match e with Intake.Reload => true | _ => false end.
Definition isSettled (e : Intake.Event) : bool :=
  match e with Intake.Settled _ _ => true | _ => false end.
Definition isSubmit (e : Intake.Event) : bool :=
  match e with Intake.Submit => true | _ => false end.

(** No timer that would enable the submit button is pending. *)
Definition noReEnable (w : Intake.World) : Prop :=
  Intake.ReEnable ∉ Intake.timers (Intake.page w).

(** The state after a successful submission: button disabled, nothing
    awaited, no timer that would enable the button. *)
Definition held (w : Intake.World) : Prop :=
  Intake.submitDisabled (Intake.page w) = true
  /\ Intake.awaiting (Intake.page w) = None
  /\ noReEnable w.

(** The state between [submit] and the answer of the platform. *)
Definition sending (w : Intake.World) : Prop :=
  Intake.submitDisabled (Intake.page w) = true
  /\ is_Some (Intake.awaiting (Intake.page w))
  /\ noReEnable w.

(** The filter of the admin console as the specification words it: the
    text searched is the name followed by the phone. *)
Definition included_as_specified (fl : Admin.Filters) (r : Admin.Row) : Prop :=
  (Admin.filter_status fl = "all"
   \/ Firestore.status (Admin.doc r) = Admin.filter_status fl)
  /\ (Admin.filter_date fl = ""
      \/ Firestore.reservationDate (Admin.doc r) = Admin.filter_date fl)
  /\ (Admin.search_input fl = ""
      \/ substring_ci (Admin.search_input fl)
           (Firestore.customerName (Admin.doc r)
            +:+ Firestore.customerPhone (Admin.doc r))).

(** The same with the text the console searches: name, one space, phone. *)
Definition included (fl : Admin.Filters) (r : Admin.Row) : Prop :=
  (Admin.filter_status fl = "all"
   \/ Firestore.status (Admin.doc r) = Admin.filter_status fl)
  /\ (Admin.filter_date fl = ""
      \/ Firestore.reservationDate (Admin.doc r) = Admin.filter_date fl)
  /\ (Admin.search_input fl = ""
      \/ substring_ci (Admin.search_input fl)
           (Firestore.customerName (Admin.doc r) +:+ " "
            +:+ Firestore.customerPhone (Admin.doc r))).

End Spec.

(* ===================================================================== *)
(** * Sample data *)
(* ===================================================================== *)

Module Samples.
Import Firestore.

Definition blank : Intake.Form :=
  Intake.mkForm "" "" "" "" "" "" "".

(** The scenario of the specification. *)
Definition asha : Intake.Form :=
  Intake.mkForm "Asha Rao" "9876543210" "" "2" "2026-01-10" "19:00" "".

Definition asha1234 : Intake.Form :=
  Intake.mkForm "Asha Rao" "1234567890" "" "2" "2026-01-10" "19:00" "".

(** Kolkata (UTC+5:30) on 9 January 2026, at noon. *)
Definition kolkata : JSDate.Clock :=
  JSDate.mkClock 1767940200000 19800000 19800000.

(** New York (UTC-5) on 10 January 2026, at noon. *)
Definition newYork : JSDate.Clock :=
  JSDate.mkClock 1768064400000 (-18000000) (-18000000).

Definition ready : Intake.Env := Intake.mkEnv kolkata (Some 1%nat).
Definition notReady : Intake.Env := Intake.mkEnv kolkata (Some 0%nat).
Definition west : Intake.Env := Intake.mkEnv newYork (Some 1%nat).

Definition world (f : Intake.Form) : Intake.World :=
  Intake.mkWorld (Intake.fill f (Intake.load blank true)) ∅ [].

Definition denied : JS.Error := JS.mkError "Missing or insufficient permissions.".

Definition booking (st : string) (mail : option string) : Reservation Z :=
  mkReservation "Asha Rao" "9876543210" mail "2" "2026-01-10" "19:00" None
                st 1767940200000 1767940200000 None None.

Definition rao : Admin.Row :=
  Admin.mkRow "r1"
    (mkReservation "Rao" "9876543210" None "2" "2026-01-10" "19:00" None
                   "pending" 1767940200000 1767940200000 None None).

Definition bounce : JS.Error := JS.mkError "Unauthorized".

(** A mail provider that refuses the second staff address. *)
Definition mailDown : Trigger.Mail :=
  Trigger.mkMail
    (fun msg =>
       if bool_decide (Trigger.to msg = Some "neilbiswas13@gmail.com")
       then Some bounce else None)
    [0; 1; 2]%nat.

Definition desk : Admin.Console :=
  Admin.mkConsole [rao] [rao] 1 None [].

Definition office : Admin.World :=
  Admin.mkWorld desk {[ "r1" := Admin.doc rao ]} [].

Definition o9 : Admin.Filters := Admin.mkFilters "all" "" "o9".

Definition guest : Auth.User :=
  Auth.mkUser "u1" (Some "asha@example.com") None.

End Samples.

(* ===================================================================== *)
(** * Authentication service: the operations *)
(* ===================================================================== *)

Module Gateway.
Import Auth.

(** What the platform answers to a call: a value, or an error of which this
    code reads [code] alone ([None]: an error without a code). *)
Inductive Reply (A : Type) :=
| Ok (x : A)
| Err (code : option string).
Arguments Ok {A}.
Arguments Err {A}.

Definition errorMessages : list (string * string) :=
  [ ("auth/email-already-in-use",
     "This email is already registered. Please sign in instead.");
    ("auth/invalid-email", "Please enter a valid email address.");
    ("auth/operation-not-allowed",
     "Email/password accounts are not enabled. Please contact support.");
    ("auth/weak-password", "Password should be at least 6 characters long.");
    ("auth/user-disabled",
     "This account has been disabled. Please contact support.");
    ("auth/user-not-found",
     "No account found with this email. Please sign up first.");
    ("auth/wrong-password", "Incorrect password. Please try again.");
    ("auth/too-many-requests",
     "Too many failed attempts. Please try again later.");
    ("auth/network-request-failed",
     "Network error. Please check your internet connection.") ].

Definition genericMessage : string := "An error occurred. Please try again.".

(** The table is an object literal, so a property access on it finds,
    beside its own nine entries, the properties every object has from
    [Object.prototype] (ECMA-262, 20.1.3 and B.2.2.1): functions, and for
    [__proto__] the prototype itself.  These are their names. *)
Definition objectPrototype : list string :=
  [ "constructor"; "hasOwnProperty"; "isPrototypeOf"; "propertyIsEnumerable";
    "toLocaleString"; "toString"; "valueOf"; "__proto__";
    "__defineGetter__"; "__defineSetter__"; "__lookupGetter__";
    "__lookupSetter__" ].

(** What an [error] property of a result holds, and what a form is given
    to show: a sentence, or the property of [Object.prototype] of that
    name (an object, which is truthy and is no string; a form shows the
    text the engine makes of it). *)
Inductive Message :=
| Sentence (text : string)
| Inherited (key : string).

(** [errorMessages[errorCode] || '...']: an entry of the table, else an
    inherited property, else (and for an error without [code], whose key
    is "undefined") the generic sentence. *)
Definition getErrorMessage (errorCode : option string) : Message :=
  match errorCode with
  | None => Sentence genericMessage
  | Some c =>
      match (list_to_map errorMessages : gmap string string) !! c with
      | Some m => if JS.truthy m then Sentence m else Sentence genericMessage
      | None =>
          if bool_decide (c ∈ objectPrototype) then Inherited c
          else Sentence genericMessage
      end
  end.

(** The accounts of the identity provider by [uid], the signed-in account,
    and the collection [users]. *)
Record World := mkWorld {
  accounts : gmap string User;
  currentUser : option string;
  users : gmap string (gmap string Value)
}.

(** The object the operations return; an absent property is [None]. *)
Record Result := mkResult {
  success : bool;
  user : option User;
  message : option string;
  error : option Message
}.

Definition failure (text : Message) : Result :=
  {| success := false; user := None; message := None; error := Some text |}.

(** [doc(uid).set(data)] and [doc(uid).update(data)] on [users]: the data is
    given as a function of the commit time, which stands for the server
    timestamps in it.  [update] merges into an existing document and fails
    with the code [not-found] when there is none. *)
Definition set (a : Reply Z) (uid : string) (data : Z -> gmap string Value)
    (us : gmap string (gmap string Value)) :
    option string + gmap string (gmap string Value) :=
  match a with
  | Err c => inl c
  | Ok t => inr (<[uid := data t]> us)
  end.

Definition update (a : Reply Z) (uid : string) (data : Z -> gmap string Value)
    (us : gmap string (gmap string Value)) :
    option string + gmap string (gmap string Value) :=
  match a with
  | Err c => inl c
  | Ok t =>
      match us !! uid with
      | None => inl (Some "not-found")
      | Some d => inr (<[uid := data t ∪ d]> us)
      end
  end.

(** The document [signUpUser] writes. *)
Definition newProfile (uid email name : string) (t : Z) : gmap string Value :=
  <["uid" := VString uid]>
    (<["email" := VString email]>
       (<["displayName" := VString name]>
          (<["createdAt" := VTimestamp t]>
             (<["updatedAt" := VTimestamp t]>
                (<["role" := VString "customer"]>
                   (<["reservations" := VArray []]>
                      (<["preferences" := VPreferences true false]> ∅))))))).

Definition withDisplayName (name : string) (u : User) : User :=
  {| uid := uid u; email := email u; displayName := Some name |}.

(** [signUpUser]: the provider creates the account (and signs it in), then
    sets its display name, then the profile is written; the first failure
    ends the function with its message. *)
Definition signUpUser (created : Reply User) (named : Reply unit)
    (written : Reply Z) (email' password name : string) (w : World) :
    Result * World :=
  match created with
  | Err c => (failure (getErrorMessage c), w)
  | Ok u =>
      let w1 := {| accounts := <[uid u := u]> (accounts w);
                   currentUser := Some (uid u);
                   users := users w |} in
      match named with
      | Err c => (failure (getErrorMessage c), w1)
      | Ok _ =>
          let w2 := {| accounts := <[uid u := withDisplayName name u]> (accounts w1);
                       currentUser := currentUser w1;
                       users := users w1 |} in
          match set written (uid u) (newProfile (uid u) email' name) (users w2) with
          | inl c => (failure (getErrorMessage c), w2)
          | inr us =>
              ({| success := true;
                  user := Some {| uid := uid u; email := email u;
                                  displayName := Some name |};
                  message := None; error := None |},
               {| accounts := accounts w2; currentUser := currentUser w2;
                  users := us |})
          end
      end
  end.

(** [signInUser] *)
Definition signInUser (signedIn : Reply User) (written : Reply Z)
    (email' password : string) (w : World) : Result * World :=
  match signedIn with
  | Err c => (failure (getErrorMessage c), w)
  | Ok u =>
      let w1 := {| accounts := accounts w; currentUser := Some (uid u);
                   users := users w |} in
      match update written (uid u) (fun t => {[ "lastLogin" := VTimestamp t ]})
                   (users w1) with
      | inl c => (failure (getErrorMessage c), w1)
      | inr us =>
          ({| success := true; user := Some u; message := None; error := None |},
           {| accounts := accounts w1; currentUser := currentUser w1; users := us |})
      end
  end.

(** [signOutUser] *)
Definition signOutUser (a : Reply unit) (w : World) : Result * World :=
  match a with
  | Ok _ =>
      ({| success := true; user := None; message := None; error := None |},
       {| accounts := accounts w; currentUser := None; users := users w |})
  | Err _ => (failure (Sentence "Failed to sign out. Please try again."), w)
  end.

(** [getCurrentUser] *)
Definition getCurrentUser (w : World) : option User :=
  currentUser w ≫= (fun i => accounts w !! i).

(** [updateUserProfile]: [{ ...data, updatedAt: serverTimestamp() }]. *)
Definition updateUserProfile (a : Reply Z) (uid : string)
    (data : gmap string Value) (w : World) : Result * World :=
  match update a uid (fun t => <["updatedAt" := VTimestamp t]> data) (users w) with
  | inr us =>
      ({| success := true; user := None; message := None; error := None |},
       {| accounts := accounts w; currentUser := currentUser w; users := us |})
  | inl _ => (failure (Sentence "Failed to update profile"), w)
  end.

(** [resetPassword] *)
Definition resetPassword (a : Reply unit) (email' : string) : Result :=
  match a with
  | Ok _ =>
      {| success := true; user := None;
         message := Some "Password reset email sent. Please check your inbox.";
         error := None |}
  | Err c => failure (getErrorMessage c)
  end.

End Gateway.

(* ===================================================================== *)
(** * The home page: login form, sign-up form, profile card *)
(* ===================================================================== *)

Module Site.
Import Auth.

(** A message element as [showFormMessage] leaves it; [text] is what was
    assigned to [textContent]. *)
Record MessageBox := mkMessageBox {
  text : Gateway.Message;
  className : string;
  display : string
}.

(** [showFormMessage]: nothing happens when the element is missing. *)
Definition showFormMessage (element : option MessageBox)
    (message : Gateway.Message) (type : string) : option MessageBox :=
  match element with
  | None => None
  | Some _ =>
      Some {| text := message; className := "form-message " +:+ type;
              display := "block" |}
  end.

(** [result.error] as the forms give it to [showFormMessage]; a result
    without the property gives [undefined], which [textContent] takes as
    the empty text. *)
Definition errorText (r : Gateway.Result) : Gateway.Message :=
  default (Gateway.Sentence "") (Gateway.error r).

Record LoginForm := mkLoginForm {
  login_email : string;
  login_password : string
}.

Record LoginPage := mkLoginPage {
  loginForm : LoginForm;
  loginDefaults : LoginForm;
  loginDisabled : bool;
  loginText : string;
  loginMessage : option MessageBox;
  signInCalls : list (string * string)   (* calls of [signInUser] *)
}.

(** [handleLoginSubmit], with the two answers of the platform that
    [signInUser] will get. *)
Definition handleLoginSubmit (signedIn : Gateway.Reply User)
    (written : Gateway.Reply Z) (p : LoginPage) (w : Gateway.World) :
    LoginPage * Gateway.World :=
  let email' := login_email (loginForm p) in
  let password := login_password (loginForm p) in
  if negb (JS.truthy email') || negb (JS.truthy password) then
    ({| loginForm := loginForm p; loginDefaults := loginDefaults p;
        loginDisabled := loginDisabled p; loginText := loginText p;
        loginMessage := showFormMessage (loginMessage p)
                          (Gateway.Sentence "Please enter both email and password.") "error";
        signInCalls := signInCalls p |}, w)
  else
    let (result, w') := Gateway.signInUser signedIn written email' password w in
    if Gateway.success result then
      ({| loginForm := loginDefaults p; loginDefaults := loginDefaults p;
          loginDisabled := true; loginText := "Signing In...";
          loginMessage := showFormMessage (loginMessage p) (Gateway.Sentence "Welcome back!") "success";
          signInCalls := signInCalls p ++ [(email', password)] |}, w')
    else
      ({| loginForm := loginForm p; loginDefaults := loginDefaults p;
          loginDisabled := false; loginText := "Sign In";
          loginMessage := showFormMessage (loginMessage p) (errorText result) "error";
          signInCalls := signInCalls p ++ [(email', password)] |}, w').

Record SignupForm := mkSignupForm {
  signup_name : string;
  signup_email : string;
  signup_password : string;
  signup_password_confirm : string
}.

Record SignupPage := mkSignupPage {
  signupForm : SignupForm;
  signupDefaults : SignupForm;
  signupDisabled : bool;
  signupText : string;
  signupMessage : option MessageBox;
  modalShown : bool;
  closing : bool;                          (* the timer of 1500 is pending *)
  signUpCalls : list (string * string * string)  (* calls of [signUpUser] *)
}.

(** The [submit] listener of the sign-up form. *)
Definition signupSubmit (created : Gateway.Reply User) (named : Gateway.Reply unit)
    (written : Gateway.Reply Z) (p : SignupPage) (w : Gateway.World) :
    SignupPage * Gateway.World :=
  let name := signup_name (signupForm p) in
  let email' := signup_email (signupForm p) in
  let password := signup_password (signupForm p) in
  let confirmPassword := signup_password_confirm (signupForm p) in
  let say m t :=
    {| signupForm := signupForm p; signupDefaults := signupDefaults p;
       signupDisabled := signupDisabled p; signupText := signupText p;
       signupMessage := showFormMessage (signupMessage p) m t;
       modalShown := modalShown p; closing := closing p;
       signUpCalls := signUpCalls p |} in
  if negb (bool_decide (password = confirmPassword)) then
    (say (Gateway.Sentence "Passwords do not match.") "error", w)
  else if (String.length password <? 6)%nat then
    (say (Gateway.Sentence "Password must be at least 6 characters.") "error", w)
  else
    let (result, w') :=
      Gateway.signUpUser created named written email' password name w in
    if Gateway.success result then
      ({| signupForm := signupDefaults p; signupDefaults := signupDefaults p;
          signupDisabled := true; signupText := "Creating Account...";
          signupMessage := showFormMessage (signupMessage p)
                             (Gateway.Sentence "Account created successfully! Welcome!") "success";
          modalShown := modalShown p; closing := true;
          signUpCalls := signUpCalls p ++ [(email', password, name)] |}, w')
    else
      ({| signupForm := signupForm p; signupDefaults := signupDefaults p;
          signupDisabled := false; signupText := "Create Account";
          signupMessage := showFormMessage (signupMessage p) (errorText result) "error";
          modalShown := modalShown p; closing := closing p;
          signUpCalls := signUpCalls p ++ [(email', password, name)] |}, w').

(** Truthiness of a value. *)
Definition truthy (v : option Value) : bool :=
  match v with
  | Some (VString s) => JS.truthy s
  | Some (VBool b) => b
  | Some VNull | None => false
  | Some _ => true
  end.

(** What the callback of [initAuthStateListener] puts into the card: the
    values interpolated for the name and the e-mail ([None]: [undefined]),
    and the label of the role. *)
Record Card := mkCard {
  userName : Value;
  userEmail : option Value;
  userRole : string
}.

Inductive Rendered :=
| Untouched                 (* signed out, or no container on the page *)
| Shown (c : Card)
| TypeError.                (* [user.email.split] on what is no string *)

Definition isString (v : option Value) : bool :=
  match v with
  | Some (VString _) => true
  | _ => false
  end.

(** [v === 'admin'] *)
Definition isAdmin (v : option Value) : bool :=
  match v with
  | Some (VString s) => bool_decide (s = "admin")
  | _ => false
  end.

(** The callback given to [onAuthStateChanged] by [initAuthStateListener]. *)
Definition authStateCallback (container : bool) (authState : AuthState) : Rendered :=
  if negb container then Untouched
  else if isAuthenticated authState then
    match user authState with
    | None => TypeError
    | Some u =>
        if negb (truthy (u !! "displayName")) && negb (isString (u !! "email"))
        then TypeError
        else
          Shown {| userName := if truthy (u !! "displayName")
                               then default VNull (u !! "displayName")
                               else VString "Guest";
                   userEmail := u !! "email";
                   userRole := if isAdmin (u !! "role")
                               then "Administrator" else "Member" |}
    end
  else Untouched.

End Site.

(* ===================================================================== *)
(** * Admin console: statistics, clearing the filters, the two screens *)
(* ===================================================================== *)

Module Dashboard.
Import Firestore Admin.

(** [clearFilters]: the three inputs are set to these values, then
    [applyFilters] runs. *)
Definition cleared : Filters := mkFilters "all" "" "".

Definition clearFilters (c : Console) : Filters * Console :=
  (cleared, applyFilters cleared c).

(** The four numbers [updateStats] shows; [today] is
    [new Date().toISOString().split('T')[0]]. *)
Record Stats := mkStats {
  stat_today : nat;
  stat_pending : nat;
  stat_confirmed : nat;
  stat_total : nat
}.

Definition updateStats (today : string) (c : Console) : Stats :=
  {| stat_today :=
       length (List.filter
                 (fun r => bool_decide (reservationDate (doc r) = today))
                 (allReservations c));
     stat_pending :=
       length (List.filter
                 (fun r => bool_decide (status (doc r) = "pending"))
                 (allReservations c));
     stat_confirmed :=
       length (List.filter
                 (fun r => bool_decide (status (doc r) = "confirmed"))
                 (allReservations c));
     stat_total := length (allReservations c) |}.

(** What [renderReservations] shows. *)
Inductive Table :=
| NoReservations
| Rows (l : list Row).

Definition renderReservations (c : Console) : Table :=
  match filteredReservations c with
  | [] => NoReservations
  | l => Rows l
  end.

(** The page: the console, the variable [currentUser], which of the two
    screens is shown, and the text of [#admin-user-email]. *)
Record Screen := mkScreen {
  console : Console;
  currentUser : option Auth.User;
  loginShown : bool;
  dashboardShown : bool;
  userEmailText : string
}.

Definition showLogin (s : Screen) : Screen :=
  {| console := console s; currentUser := currentUser s;
     loginShown := true; dashboardShown := false;
     userEmailText := userEmailText s |}.

(** [showDashboard] ends with [loadReservations]. *)
Definition showDashboard (s : Screen) : Screen :=
  {| console := loadReservations (console s); currentUser := currentUser s;
     loginShown := false; dashboardShown := true;
     userEmailText := match currentUser s with
                      | Some u => default "" (Auth.email u)
                      | None => userEmailText s
                      end |}.

(** The callback the page gives to [firebase.auth().onAuthStateChanged]. *)
Definition authStateChanged (user : option Auth.User) (s : Screen) : Screen :=
  match user with
  | Some u =>
      showDashboard {| console := console s; currentUser := Some u;
                       loginShown := loginShown s;
                       dashboardShown := dashboardShown s;
                       userEmailText := userEmailText s |}
  | None => showLogin s
  end.

End Dashboard.

(* ===================================================================== *)
(** * Predicates used to state further properties *)
(* ===================================================================== *)

Module Props.

(** Every character of the string is white space. *)
Definition blank (s : string) : bool := JS.all JS.isWhiteSpace s.

Definition isReEnable (t : Intake.Timer) : bool :=
  match t with Intake.ReEnable => true | _ => false end.

Definition isReplaceWidget (t : Intake.Timer) : bool :=
  match t with Intake.ReplaceWidget _ => true | _ => false end.

(** The pending timers that would enable the submit button. *)
Definition reEnables (w : Intake.World) : nat :=
  length (List.filter isReEnable (Intake.timers (Intake.page w))).

(** What every page reached from a loaded one satisfies: one timer at most
    would enable the button; while a write is awaited, or while that timer
    is pending, the button is disabled; and no such timer is pending while
    a write is awaited. *)
Definition guarded (w : Intake.World) : Prop :=
  (reEnables w <= 1)%nat
  /\ (is_Some (Intake.awaiting (Intake.page w)) ->
      Intake.submitDisabled (Intake.page w) = true /\ reEnables w = 0%nat)
  /\ (reEnables w = 1%nat -> Intake.submitDisabled (Intake.page w) = true).

(** The write of [d] is on its way. *)
Definition inFlight (d : Firestore.Reservation Firestore.FieldValue)
    (w : Intake.World) : Prop :=
  Intake.submitDisabled (Intake.page w) = true
  /\ Intake.awaiting (Intake.page w) = Some d
  /\ reEnables w = 0%nat.

(** In [public/js/reservations.js] the message is never hidden, and no
    timer is started but the one that enables the button. *)
Definition inline (w : Intake.World) : Prop :=
  Intake.messageHidden (Intake.page w) = false
  /\ Forall (fun t => t = Intake.ReEnable) (Intake.timers (Intake.page w)).

(** In that script: the write of [d] is on its way and no timer is
    pending. *)
Definition quiet (d : Firestore.Reservation Firestore.FieldValue)
    (w : Intake.World) : Prop :=
  Intake.submitDisabled (Intake.page w) = true
  /\ Intake.awaiting (Intake.page w) = Some d
  /\ Intake.timers (Intake.page w) = []
  /\ Intake.messageHidden (Intake.page w) = false.

(** In that script, after a write was committed: the success message is
    shown, the button is disabled, and the one timer pending is the one
    that enables it. *)
Definition announced (w : Intake.World) : Prop :=
  Intake.submitDisabled (Intake.page w) = true
  /\ Intake.awaiting (Intake.page w) = None
  /\ Intake.timers (Intake.page w) = [Intake.ReEnable]
  /\ Intake.messageText (Intake.page w) = Intake.successMessage
  /\ Intake.messageClass (Intake.page w) = "form-message form-message-success"
  /\ Intake.messageHidden (Intake.page w) = false.

Definition isFire (e : Intake.Event) : bool :=
  match e with Intake.Fire _ => true | _ => false end.

(** Events that are not answers of the platform nor resets of the page. *)
Definition local (e : Intake.Event) : bool :=
  match e with
  | Intake.Fill _ | Intake.Submit | Intake.Fire _ => true
  | _ => false
  end.

(** The page has no [.booking-widget] and no timer that would fill one. *)
Definition widgetless (w : Intake.World) : Prop :=
  Intake.bookingWidget (Intake.page w) = None
  /\ Intake.iconAnimated (Intake.page w) = false
  /\ Forall (fun t => isReplaceWidget t = false) (Intake.timers (Intake.page w)).

(** After a successful submission on such a page, in the version with
    [showSuccessUI]: nothing tells the visitor, and nothing can be sent. *)
Definition silent (w : Intake.World) : Prop :=
  widgetless w
  /\ Intake.messageHidden (Intake.page w) = true
  /\ Intake.submitDisabled (Intake.page w) = true
  /\ Intake.awaiting (Intake.page w) = None
  /\ reEnables w = 0%nat.

(** The admin page after a sequence of changes of the authentication
    state ([None]: signed out). *)
Definition afterAuth (us : list (option Auth.User)) (s : Dashboard.Screen) :
    Dashboard.Screen :=
  foldl (fun s u => Dashboard.authStateChanged u s) s us.

(** The reservations whose status is neither "pending" nor "confirmed". *)
Definition otherStatus (r : Admin.Row) : bool :=
  negb (bool_decide (Firestore.status (Admin.doc r) = "pending"))
  && negb (bool_decide (Firestore.status (Admin.doc r) = "confirmed")).

End Props.

(* ===================================================================== *)
(** * More sample data *)
(* ===================================================================== *)

Module Cases.
Import Firestore.

Definition loaded (v : bool) : Intake.World :=
  Intake.mkWorld (Intake.load Samples.blank v) ∅ [].

Definition spaced : Intake.Form :=
  Intake.mkForm " Asha Rao " "9876543210" "   " "2" "2026-01-10" "19:00" "".

Definition withMail : Intake.Form :=
  Intake.mkForm "Asha Rao" "9876543210" " asha@example.com " "2" "2026-01-10"
                "19:00" "window seat".

Definition cancelledRao : Admin.Row :=
  Admin.mkRow "r1"
    (mkReservation "Rao" "9876543210" None "2" "2026-01-10" "19:00" None
                   "cancelled" 1767940200000 1767940205000 None None).

(** The reservation of [Samples.desk], cancelled meanwhile by someone
    else. *)
Definition officeCancelled : Admin.World :=
  Admin.mkWorld (Admin.onSnapshot [cancelledRao]
                   (Admin.showReservationDetails "r1" Samples.desk))
                {[ "r1" := Admin.doc cancelledRao ]} [].

Definition nobody : Gateway.World := Gateway.mkWorld ∅ None ∅.

Definition asha : Auth.User :=
  Auth.mkUser "u1" (Some "asha@example.com") None.

(** The account of [asha] exists and is signed in; it has no profile. *)
Definition orphan : Gateway.World :=
  Gateway.mkWorld {[ "u1" := Gateway.withDisplayName "Asha" asha ]} (Some "u1") ∅.

(** The same account with the profile [signUpUser] writes. *)
Definition member : Gateway.World :=
  Gateway.mkWorld {[ "u1" := Gateway.withDisplayName "Asha" asha ]} None
    {[ "u1" := Gateway.newProfile "u1" "asha@example.com" "Asha" 1767940200000 ]}.

Definition loginPage (e p : string) : Site.LoginPage :=
  Site.mkLoginPage (Site.mkLoginForm e p) (Site.mkLoginForm "" "") false "Sign In"
    (Some (Site.mkMessageBox (Gateway.Sentence "") "form-message" "none")) [].

Definition signupPage (n e p q : string) : Site.SignupPage :=
  Site.mkSignupPage (Site.mkSignupForm n e p q) (Site.mkSignupForm "" "" "" "")
    false "Create Account" (Some (Site.mkMessageBox (Gateway.Sentence "") "form-message" "none"))
    true false [].

Definition confirmButton : Admin.Control :=
  Admin.mkControl "Confirm" (Admin.UpdateStatus "r1" "confirmed").

End Cases.

(* ===================================================================== *)
(** * The definitions on the scenario of the specification *)
(* ===================================================================== *)

Example phoneRegex_test_scenario :
  JS.phoneRegex_test "9876543210" = true
  /\ JS.phoneRegex_test "1234567890" = false
  /\ JS.phoneRegex_test "98765432101" = false
  /\ JS.phoneRegex_test "987654321" = false.
Proof. repeat split. Qed.

Example phoneInput_scenario :
  Intake.phoneInput "+91 98765-43210 12" = "9198765432".
Proof. reflexivity. Qed.

Example parse_scenario :
  JSDate.parse "2026-01-10" = Some 1768003200000
  /\ JSDate.parse "1970-01-01" = Some 0
  /\ JSDate.parse "2023-02-29" = None
  /\ JSDate.parse "" = None.
Proof. repeat split. Qed.

Example localMidnight_kolkata :
  JSDate.localDay Samples.kolkata = JSDate.MakeDay 2026 1 9
  /\ JSDate.localMidnight Samples.kolkata = 1767897000000.
Proof. split; reflexivity. Qed.

Example check_scenario :
  Intake.check Samples.ready Samples.asha
  = Intake.Proceed (Intake.formData Samples.asha)
  /\ Intake.check Samples.ready Samples.asha1234 = Intake.Throw Intake.phoneError.
Proof. split; reflexivity. Qed.

Example keep_scenario :
  Admin.keep (Admin.mkFilters "all" "" "RAO") Samples.rao = true
  /\ Admin.keep (Admin.mkFilters "pending" "2026-01-10" "o 9") Samples.rao = true
  /\ Admin.keep (Admin.mkFilters "confirmed" "" "") Samples.rao = false.
Proof. repeat split. Qed.

(* ===================================================================== *)
(** * Facts about strings *)
(* ===================================================================== *)

Section StringFacts.

Lemma isWhiteSpace_not_digit c :
  JS.isWhiteSpace c = true -> JS.isDigit c = false.
Proof.
  unfold JS.isWhiteSpace, JS.isDigit. cbv zeta.
  generalize (nat_of_ascii c). intros n H.
  apply andb_false_iff.
  rewrite !orb_true_iff, andb_true_iff, !Nat.leb_le, !Nat.eqb_eq in H.
  rewrite !Nat.leb_gt. lia.
Qed.

Lemma is6to9_digit c : JS.is6to9 c = true -> JS.isDigit c = true.
Proof.
  unfold JS.is6to9, JS.isDigit. cbv zeta.
  generalize (nat_of_ascii c). intros n.
  rewrite !andb_true_iff, !Nat.leb_le. lia.
Qed.

Lemma removeNonDigits_digits s :
  JS.all JS.isDigit s = true -> JS.removeNonDigits s = s.
Proof.
  induction s as [|c s IH]; simpl; [reflexivity|].
  intros [Hc Hs]%andb_true_iff. rewrite Hc. f_equal. auto.
Qed.

Lemma removeNonDigits_trimStart s :
  JS.removeNonDigits (JS.trimStart s) = JS.removeNonDigits s.
Proof.
  induction s as [|c s IH]; simpl; [reflexivity|].
  destruct (JS.isWhiteSpace c) eqn:Hw; [|reflexivity].
  rewrite (isWhiteSpace_not_digit c Hw). exact IH.
Qed.

Lemma removeNonDigits_trimEnd s :
  JS.removeNonDigits (JS.trimEnd s) = JS.removeNonDigits s.
Proof.
  induction s as [|c s IH]; simpl; [reflexivity|].
  destruct (JS.trimEnd s) as [|c' t] eqn:Ht.
  - simpl in IH. rewrite <- IH.
    destruct (JS.isWhiteSpace c) eqn:Hw; simpl.
    + rewrite (isWhiteSpace_not_digit c Hw). reflexivity.
    + destruct (JS.isDigit c); reflexivity.
  - rewrite <- IH.
    change (JS.removeNonDigits (String c (String c' t)))
      with (if JS.isDigit c
            then String c (JS.removeNonDigits (String c' t))
            else JS.removeNonDigits (String c' t)).
    reflexivity.
Qed.

Lemma removeNonDigits_trim s :
  JS.removeNonDigits (JS.trim s) = JS.removeNonDigits s.
Proof.
  unfold JS.trim. rewrite removeNonDigits_trimEnd.
  apply removeNonDigits_trimStart.
Qed.

Lemma phoneRegex_digits s :
  JS.phoneRegex_test s = true -> JS.all JS.isDigit s = true.
Proof.
  destruct s as [|c s]; simpl; [discriminate|].
  intros [[H6 _]%andb_true_iff Hs]%andb_true_iff.
  rewrite (is6to9_digit c H6). exact Hs.
Qed.

(** A phone the listener accepts is what is left of the field once the
    characters that are no digits are taken out. *)
Lemma phoneRegex_trim s :
  JS.phoneRegex_test (JS.trim s) = true ->
  JS.removeNonDigits s = JS.trim s.
Proof.
  intros H. rewrite <- removeNonDigits_trim.
  apply removeNonDigits_digits, phoneRegex_digits, H.
Qed.

Lemma phoneRegex_stripped s :
  JS.phoneRegex_test (JS.removeNonDigits s) = false ->
  JS.phoneRegex_test (JS.trim s) = false.
Proof.
  intros H. destruct (JS.phoneRegex_test (JS.trim s)) eqn:Ht; [|reflexivity].
  rewrite (phoneRegex_trim s Ht) in H. congruence.
Qed.

Lemma digit_not_whiteSpace c : JS.isDigit c = true -> JS.isWhiteSpace c = false.
Proof.
  intros Hd. destruct (JS.isWhiteSpace c) eqn:Hw; [|reflexivity].
  rewrite (isWhiteSpace_not_digit c Hw) in Hd. discriminate.
Qed.

(** On a string of digits [trim] changes nothing. *)
Lemma trim_digits s : JS.all JS.isDigit s = true -> JS.trim s = s.
Proof.
  intros Hs. unfold JS.trim.
  assert (Hstart : JS.trimStart s = s).
  { destruct s as [|c s]; [reflexivity|]. cbn in Hs |- *.
    apply andb_true_iff in Hs as [Hc _].
    rewrite (digit_not_whiteSpace c Hc). reflexivity. }
  rewrite Hstart. clear Hstart.
  induction s as [|c s IH]; [reflexivity|].
  cbn in Hs. apply andb_true_iff in Hs as [Hc Hs].
  cbn [JS.trimEnd]. rewrite (IH Hs).
  destruct s; [|reflexivity].
  rewrite (digit_not_whiteSpace c Hc). reflexivity.
Qed.

Lemma removeNonDigits_all s : JS.all JS.isDigit (JS.removeNonDigits s) = true.
Proof.
  induction s as [|c s IH]; [reflexivity|]. cbn.
  destruct (JS.isDigit c) eqn:Hc; [|exact IH].
  cbn. rewrite Hc. exact IH.
Qed.

Lemma sliceTo_all p n s : JS.all p s = true -> JS.all p (JS.sliceTo n s) = true.
Proof.
  revert s. induction n as [|n IH]; intros [|c s]; cbn; try reflexivity.
  intros [Hc Hs]%andb_true_iff. rewrite Hc. apply IH, Hs.
Qed.

Lemma sliceTo_length n s : (String.length (JS.sliceTo n s) <= n)%nat.
Proof.
  revert s. induction n as [|n IH]; intros [|c s]; cbn; try lia.
  specialize (IH s). lia.
Qed.

(** What the listener of the phone field leaves in the field: digits, ten
    at most. *)
Lemma phoneInput_digits raw :
  JS.all JS.isDigit (Intake.phoneInput raw) = true
  /\ (String.length (Intake.phoneInput raw) <= 10)%nat.
Proof.
  unfold Intake.phoneInput. cbv zeta.
  destruct (10 <? String.length (JS.removeNonDigits raw))%nat eqn:Hlen.
  - split; [apply sliceTo_all, removeNonDigits_all | apply sliceTo_length].
  - split; [apply removeNonDigits_all | apply Nat.ltb_ge, Hlen].
Qed.

(** So the phone the listener of [submit] tests is the field itself. *)
Lemma typed_phone_tested f p :
  Firestore.customerPhone (Intake.formData (Intake.form (Intake.fill f p)))
  = Intake.phoneInput (Intake.customer_phone f).
Proof. cbn. apply trim_digits, phoneInput_digits. Qed.

End StringFacts.

(* ===================================================================== *)
(** * Reservation intake *)
(* ===================================================================== *)

Section IntakeFacts.
Import Intake.

Variable v : Variant.
Variable env : Env.

Lemma check_phone f :
  JS.phoneRegex_test (JS.removeNonDigits (customer_phone f)) = false ->
  exists e, check env f = Throw e.
Proof.
  intros H%phoneRegex_stripped. unfold check.
  destruct (firebase env); [|eauto].
  unfold phoneOk. cbn. rewrite H. cbn. eauto.
Qed.

Lemma onSubmit_throw w e :
  check env (form (page w)) = Throw e ->
  onSubmit env w = mkWorld (catch e (begin (page w))) (db w) (calls w).
Proof. intros H. unfold onSubmit. cbn. rewrite H. reflexivity. Qed.

Lemma onSubmit_proceed w d :
  check env (form (page w)) = Proceed d ->
  onSubmit env w =
    mkWorld (await (Some d) (begin (page w))) (db w) (calls w ++ [d]).
Proof. intros H. unfold onSubmit. cbn. rewrite H. reflexivity. Qed.

Lemma run_app es1 es2 w :
  run v env (es1 ++ es2) w = run v env es2 (run v env es1 w).
Proof. unfold run. apply foldl_app. Qed.

Lemma run_cons e es w : run v env (e :: es) w = run v env es (step v env e w).
Proof. reflexivity. Qed.

(** Only [submit] sends a write. *)
Lemma step_calls e w : Spec.isSubmit e = false -> calls (step v env e w) = calls w.
Proof.
  destruct e; cbn; try discriminate; intros _; try reflexivity.
  - unfold onSettled. destruct (awaiting (page w)); [|reflexivity].
    destruct (Firestore.add _ _ _ _); reflexivity.
  - destruct (timers (page w) !! n); reflexivity.
Qed.

Lemma run_calls es w :
  Forall (fun e => Spec.isSubmit e = false) es -> calls (run v env es w) = calls w.
Proof.
  intros H. revert w. induction H as [|e es He _ IH]; intros w; [reflexivity|].
  rewrite run_cons, IH. apply step_calls, He.
Qed.

End IntakeFacts.

(** C2. A phone that does not match the pattern once the characters that
    are no digits are taken out is rejected by the listener of [submit]
    before any write: a check throws, no write is sent, the collection is
    as it was, nothing is awaited, and the page shows an error. *)
Theorem invalid_phone_rejected_before_write
    (v : Intake.Variant) (env : Intake.Env) (w : Intake.World) :
  Intake.submitDisabled (Intake.page w) = false ->
  JS.phoneRegex_test
    (JS.removeNonDigits (Intake.customer_phone (Intake.form (Intake.page w))))
    = false ->
  (exists e, Intake.check env (Intake.form (Intake.page w)) = Intake.Throw e)
  /\ Intake.calls (Intake.step v env Intake.Submit w) = Intake.calls w
  /\ Intake.db (Intake.step v env Intake.Submit w) = Intake.db w
  /\ Intake.awaiting (Intake.page (Intake.step v env Intake.Submit w))
     = Intake.awaiting (Intake.page w)
  /\ Intake.submitDisabled (Intake.page (Intake.step v env Intake.Submit w)) = false
  /\ Intake.messageClass (Intake.page (Intake.step v env Intake.Submit w))
     = "form-message form-message-error".
Proof.
  intros Hen Hphone.
  destruct (check_phone env _ Hphone) as [e He].
  split; [eauto|].
  cbn. rewrite Hen, (onSubmit_throw env w e He). cbn. auto.
Qed.

Lemma invalid_phone_rejected_before_write_witness :
  Intake.calls (Intake.step Intake.InlineMessage Samples.ready Intake.Submit
                            (Samples.world Samples.asha1234)) = []
  /\ Intake.db (Intake.step Intake.InlineMessage Samples.ready Intake.Submit
                            (Samples.world Samples.asha1234)) = ∅.
Proof.
  destruct (invalid_phone_rejected_before_write Intake.InlineMessage
              Samples.ready (Samples.world Samples.asha1234))
    as (_ & Hc & Hd & _).
  - reflexivity.
  - reflexivity.
  - split; [exact Hc | exact Hd].
Defined.

Lemma errorMessage_cases e :
  Intake.errorMessage e
  = if bool_decide (JS.message e = "")
    then "An error occurred. Please try again or call us directly."
    else JS.message e.
Proof. unfold Intake.errorMessage. destruct (JS.message e); reflexivity. Qed.

(** C8. When a submission fails (a check throws, or the platform rejects
    the write), the page shows the message of the error after the cross
    mark, or the fallback sentence when the message is empty; the submit
    button is enabled again at once; the fields keep their values; and no
    write is sent, then or later, until the visitor submits again. *)
Theorem submission_failure_handling
    (v : Intake.Variant) (env : Intake.Env) (w : Intake.World)
    (ev : Intake.Event) (e : JS.Error) :
  Spec.fails env w ev e ->
  Intake.messageText (Intake.page (Intake.step v env ev w))
    = Intake.crossMark
      +:+ (if bool_decide (JS.message e = "")
           then "An error occurred. Please try again or call us directly."
           else JS.message e)
  /\ Intake.submitDisabled (Intake.page (Intake.step v env ev w)) = false
  /\ Intake.form (Intake.page (Intake.step v env ev w)) = Intake.form (Intake.page w)
  /\ Intake.db (Intake.step v env ev w) = Intake.db w
  /\ Intake.timers (Intake.page (Intake.step v env ev w)) = Intake.timers (Intake.page w)
  /\ forall es, Forall (fun e' => Spec.isSubmit e' = false) es ->
       Intake.calls (Intake.run v env es (Intake.step v env ev w)) = Intake.calls w.
Proof.
  intros [e0 Hen Hthrow | d id e0 Hawait].
  - assert (Hstep : Intake.step v env Intake.Submit w
                    = Intake.mkWorld (Intake.catch e0 (Intake.begin (Intake.page w)))
                        (Intake.db w) (Intake.calls w)).
    { cbn. rewrite Hen. apply onSubmit_throw, Hthrow. }
    rewrite Hstep. cbn. rewrite errorMessage_cases. repeat split.
    intros es Hes. rewrite run_calls by exact Hes. reflexivity.
  - assert (Hstep : Intake.step v env (Intake.Settled id (Firestore.Reject e0)) w
                    = Intake.mkWorld
                        (Intake.catch e0 (Intake.await None (Intake.page w)))
                        (Intake.db w) (Intake.calls w)).
    { cbn. unfold Intake.onSettled. rewrite Hawait. reflexivity. }
    rewrite Hstep. cbn. rewrite errorMessage_cases. repeat split.
    intros es Hes. rewrite run_calls by exact Hes. reflexivity.
Qed.

Lemma submission_failure_handling_witness :
  Intake.messageText
    (Intake.page
       (Intake.step Intake.SuccessView Samples.ready
          (Intake.Settled "r1" (Firestore.Reject Samples.denied))
          (Intake.step Intake.SuccessView Samples.ready Intake.Submit
             (Samples.world Samples.asha))))
  = Intake.crossMark +:+ "Missing or insufficient permissions.".
Proof.
  refine (proj1 (submission_failure_handling Intake.SuccessView Samples.ready
                   (Intake.step Intake.SuccessView Samples.ready Intake.Submit
                      (Samples.world Samples.asha))
                   (Intake.Settled "r1" (Firestore.Reject Samples.denied))
                   Samples.denied _)).
  apply (Spec.fails_add _ _ (Intake.formData Samples.asha)).
  reflexivity.
Defined.

(** C1, as the code has it.  A submission that passes the checks on the
    phone and the date, on a page whose [firebase] has an app, sends one
    write and no more: an [add] of a document with status "pending" whose
    two timestamps are the server sentinel.  Once the platform commits it
    at time [t] under a new identifier, the collection is the former one
    plus that one document, stamped [t] twice; every other document is as
    it was. *)
Theorem valid_submission_one_insert
    (v : Intake.Variant) (env : Intake.Env) (w : Intake.World)
    (apps : nat) (id : string) (t : Z) :
  Intake.submitDisabled (Intake.page w) = false ->
  Intake.validation (Intake.clock env) (Intake.form (Intake.page w)) = true ->
  Intake.firebase env = Some apps -> apps <> 0%nat ->
  Intake.db w !! id = None ->
  let d := Intake.formData (Intake.form (Intake.page w)) in
  let w1 := Intake.step v env Intake.Submit w in
  let w2 := Intake.step v env (Intake.Settled id (Firestore.Commit t)) w1 in
  Intake.calls w1 = Intake.calls w ++ [d]
  /\ Intake.calls w2 = Intake.calls w1
  /\ Firestore.status d = "pending"
  /\ Firestore.createdAt d = Firestore.serverTimestamp
  /\ Firestore.updatedAt d = Firestore.serverTimestamp
  /\ Intake.db w1 = Intake.db w
  /\ Intake.db w2 = <[id := Firestore.stored t d]> (Intake.db w)
  /\ Firestore.status (Firestore.stored t d) = "pending"
  /\ Firestore.createdAt (Firestore.stored t d) = t
  /\ Firestore.updatedAt (Firestore.stored t d) = t
  /\ size (Intake.db w2) = S (size (Intake.db w))
  /\ forall j, j <> id -> Intake.db w2 !! j = Intake.db w !! j.
Proof.
  intros Hen Hval Hfb Happs Hfresh d w1 w2.
  assert (Hcheck : Intake.check env (Intake.form (Intake.page w)) = Intake.Proceed d).
  { unfold Intake.check, d. rewrite Hfb.
    apply andb_true_iff in Hval as [Hp Hd].
    cbv zeta. rewrite Hp, Hd. cbn.
    destruct apps; [congruence | reflexivity]. }
  assert (H1 : w1 = Intake.mkWorld
                      (Intake.await (Some d) (Intake.begin (Intake.page w)))
                      (Intake.db w) (Intake.calls w ++ [d])).
  { unfold w1. cbn. rewrite Hen. apply onSubmit_proceed, Hcheck. }
  assert (H2 : w2 = Intake.mkWorld
                      (Intake.success v d (Intake.await None (Intake.page w1)))
                      (<[id := Firestore.stored t d]> (Intake.db w))
                      (Intake.calls w1)).
  { unfold w2. rewrite H1. reflexivity. }
  rewrite H2, H1. cbn.
  repeat split.
  - apply map_size_insert_None, Hfresh.
  - intros j Hj. apply lookup_insert_ne. congruence.
Qed.

Lemma valid_submission_one_insert_witness :
  Intake.calls (Intake.step Intake.InlineMessage Samples.ready Intake.Submit
                  (Samples.world Samples.asha))
  = [Intake.formData Samples.asha].
Proof.
  refine (proj1 (valid_submission_one_insert Intake.InlineMessage Samples.ready
                   (Samples.world Samples.asha) 1%nat "r1" 1767940201000
                   _ _ _ _ _)).
  - reflexivity.
  - vm_compute. reflexivity.
  - reflexivity.
  - discriminate.
  - reflexivity.
Defined.

(** C1 as stated fails: the submission of the scenario passes the checks on
    the phone and the date, but on a page whose [firebase] has no app the
    listener throws before [add]; no write is sent and no document is
    inserted, whatever the platform would have answered. *)
Lemma valid_submission_without_write :
  Intake.validation (Intake.clock Samples.notReady) Samples.asha = true
  /\ Intake.submitDisabled (Intake.page (Samples.world Samples.asha)) = false
  /\ Intake.check Samples.notReady Samples.asha = Intake.Throw Intake.notInitialized
  /\ Intake.calls
       (Intake.run Intake.InlineMessage Samples.notReady
          [Intake.Submit; Intake.Settled "r1" (Firestore.Commit 1767940201000)]
          (Samples.world Samples.asha)) = []
  /\ Intake.db
       (Intake.run Intake.InlineMessage Samples.notReady
          [Intake.Submit; Intake.Settled "r1" (Firestore.Commit 1767940201000)]
          (Samples.world Samples.asha)) = ∅.
Proof. vm_compute. repeat split; reflexivity. Qed.

(* --------------------------------------------------------------------- *)
(** ** The submit button while the result is shown *)

Section SuccessViewFacts.
Import Intake.

Variable env : Env.

Import Spec.

Lemma fire_noReEnable n t (p : Page) :
  timers p !! n = Some t ->
  ReEnable ∉ timers p ->
  ReEnable ∉ timers (fire t (dropTimer n p)).
Proof.
  intros Hn Hno.
  assert (Hdel : ReEnable ∉ base.delete n (timers p)).
  { intros Hin. apply Hno. eapply list_elem_of_delete_inv, Hin. }
  destruct t; cbn.
  - exfalso. apply Hno. eapply list_elem_of_lookup_2, Hn.
  - rewrite elem_of_app, list_elem_of_singleton. intros [?|?]; [auto|discriminate].
  - destruct (bookingWidget p) as [[|?]|]; exact Hdel.
Qed.

Lemma step_noReEnable e w :
  noReEnable w -> noReEnable (step SuccessView env e w).
Proof.
  unfold noReEnable. intros Hno. destruct e; cbn.
  - exact Hno.
  - destruct (submitDisabled (page w)); [exact Hno|].
    unfold onSubmit. destruct (check env _); exact Hno.
  - unfold onSettled. destruct (awaiting (page w)); [|exact Hno].
    destruct (Firestore.add _ _ _ _); cbn; [exact Hno|].
    unfold showSuccessUI. cbn.
    destruct (bookingWidget (page w)); cbn; [|exact Hno].
    rewrite elem_of_app, list_elem_of_singleton. intros [?|?]; [auto|discriminate].
  - destruct (timers (page w) !! n) eqn:Hn; [|exact Hno].
    cbn. eapply fire_noReEnable; eauto.
  - apply not_elem_of_nil.
Qed.

Lemma run_noReEnable es w :
  noReEnable w -> noReEnable (run SuccessView env es w).
Proof.
  revert w. induction es as [|e es IH]; intros w Hw; [exact Hw|].
  apply IH, step_noReEnable, Hw.
Qed.

Lemma fire_submitDisabled n t (p : Page) :
  timers p !! n = Some t -> ReEnable ∉ timers p ->
  submitDisabled (fire t (dropTimer n p)) = submitDisabled p.
Proof.
  intros Hn Hno. destruct t; cbn; try reflexivity.
  - exfalso. apply Hno. eapply list_elem_of_lookup_2, Hn.
  - destruct (bookingWidget p) as [[|?]|]; reflexivity.
Qed.

Lemma fire_awaiting t n (p : Page) :
  awaiting (fire t (dropTimer n p)) = awaiting p.
Proof.
  destruct t; cbn; try reflexivity.
  destruct (bookingWidget p) as [[|?]|]; reflexivity.
Qed.

Lemma step_held e w :
  Spec.isReload e = false -> held w -> held (step SuccessView env e w).
Proof.
  intros He (Hd & Ha & Hno).
  split; [|split]; [| |apply step_noReEnable, Hno].
  - destruct e; cbn; try discriminate; try exact Hd.
    + rewrite Hd. exact Hd.
    + unfold onSettled. rewrite Ha. exact Hd.
    + destruct (timers (page w) !! n) eqn:Hn; [|exact Hd].
      cbn. rewrite (fire_submitDisabled n t _ Hn Hno). exact Hd.
  - destruct e; cbn; try discriminate; try exact Ha.
    + rewrite Hd. exact Ha.
    + unfold onSettled. rewrite Ha. exact Ha.
    + destruct (timers (page w) !! n) eqn:Hn; [|exact Ha].
      cbn. rewrite fire_awaiting. exact Ha.
Qed.

Lemma run_held es w :
  Forall (fun e => Spec.isReload e = false) es -> held w ->
  held (run SuccessView env es w).
Proof.
  intros H. revert w. induction H as [|e es He _ IH]; intros w Hw; [exact Hw|].
  apply IH, step_held; assumption.
Qed.

Lemma step_sending e w :
  Spec.isReload e = false -> Spec.isSettled e = false ->
  sending w -> sending (step SuccessView env e w).
Proof.
  intros Hr Hs (Hd & Ha & Hno).
  split; [|split]; [| |apply step_noReEnable, Hno].
  - destruct e; cbn; try discriminate; try exact Hd.
    + rewrite Hd. exact Hd.
    + destruct (timers (page w) !! n) eqn:Hn; [|exact Hd].
      cbn. rewrite (fire_submitDisabled n t _ Hn Hno). exact Hd.
  - destruct e; cbn; try discriminate; try exact Ha.
    + rewrite Hd. exact Ha.
    + destruct (timers (page w) !! n) eqn:Hn; [|exact Ha].
      cbn. rewrite fire_awaiting. exact Ha.
Qed.

Lemma run_sending es w :
  Forall (fun e => Spec.isReload e = false /\ Spec.isSettled e = false) es ->
  sending w -> sending (run SuccessView env es w).
Proof.
  intros H. revert w. induction H as [|e es [Hr Hs] _ IH]; intros w Hw; [exact Hw|].
  apply IH, step_sending; assumption.
Qed.

(** The answer of the platform, when it commits, ends the sending. *)
Lemma settled_held id t w :
  sending w -> held (step SuccessView env (Settled id (Firestore.Commit t)) w).
Proof.
  intros (Hd & [d Ha] & Hno).
  split; [|split]; [| |apply step_noReEnable, Hno];
    cbn; unfold onSettled; rewrite Ha; cbn; unfold showSuccessUI; cbn;
    destruct (bookingWidget (page w)); cbn; solve [exact Hd | reflexivity].
Qed.

End SuccessViewFacts.

Section GuardFacts.
Import Intake.

Variable v : Variant.
Variable env : Env.

Lemma filter_isReEnable_delete (l : list Timer) n t :
  l !! n = Some t ->
  (length (List.filter Props.isReEnable (base.delete n l))
   + (if Props.isReEnable t then 1 else 0))%nat
  = length (List.filter Props.isReEnable l).
Proof.
  revert n. induction l as [|x l IH]; intros [|n] H; cbn in *; try discriminate.
  - injection H as ->. clear IH. destruct (Props.isReEnable t); cbn; lia.
  - specialize (IH n H).
    destruct (Props.isReEnable x), (Props.isReEnable t); cbn in *;
      first [exact IH | exact (f_equal S IH)].
Qed.

Lemma filter_isReEnable_snoc (l : list Timer) t :
  length (List.filter Props.isReEnable (l ++ [t]))
  = (length (List.filter Props.isReEnable l)
     + (if Props.isReEnable t then 1 else 0))%nat.
Proof.
  rewrite List.filter_app, length_app. cbn.
  destruct (Props.isReEnable t); reflexivity.
Qed.

(** The first statements of the listener and its [catch] block leave the
    timers alone. *)
Lemma reEnables_fire n t w :
  timers (page w) !! n = Some t ->
  (Props.reEnables (mkWorld (fire t (dropTimer n (page w))) (db w) (calls w))
   + (if Props.isReEnable t then 1 else 0))%nat
  = Props.reEnables w.
Proof.
  intros Hn. unfold Props.reEnables.
  rewrite <- (filter_isReEnable_delete _ n t Hn).
  destruct t; cbn.
  - reflexivity.
  - rewrite filter_isReEnable_snoc. cbn. lia.
  - destruct (bookingWidget (page w)) as [[|?]|]; reflexivity.
Qed.

Lemma step_guarded e w : Props.guarded w -> Props.guarded (step v env e w).
Proof.
  intros G. pose proof G as (G1 & G2 & G3). destruct e as [f| |id a|n|].
  - exact G.
  - cbn. destruct (submitDisabled (page w)) eqn:HD; [exact G|].
    assert (HA : awaiting (page w) = None).
    { destruct (awaiting (page w)) eqn:HA; [|reflexivity].
      destruct G2 as [G2 _]; [eauto | congruence]. }
    assert (Hk : Props.reEnables w = 0%nat).
    { destruct (Props.reEnables w) as [|[|k]] eqn:Hk; [reflexivity | | lia].
      specialize (G3 eq_refl). congruence. }
    unfold onSubmit. destruct (check env _) as [e|d]; unfold Props.guarded, Props.reEnables in *; cbn.
    + rewrite HA. split; [lia|]. split; [intros [? [=]] | lia].
    + split; [lia|]. split; [auto | lia].
  - cbn. unfold onSettled. destruct (awaiting (page w)) as [d|] eqn:HA;
      [|exact G].
    destruct G2 as [HD Hk]; [eauto|].
    destruct (Firestore.add a id d (db w)) as [e|db1];
      unfold Props.guarded, Props.reEnables in *; cbn.
    + split; [lia|]. split; [intros [? [=]] | lia].
    + destruct v; cbn.
      * rewrite filter_isReEnable_snoc. cbn.
        split; [lia|]. split; [intros [? [=]] | auto].
      * unfold showSuccessUI. cbn. destruct (bookingWidget (page w)); cbn;
          rewrite ?filter_isReEnable_snoc; cbn;
          (split; [lia|]; split; [intros [? [=]] | lia]).
  - cbn. destruct (timers (page w) !! n) as [t|] eqn:Hn;
      [|exact G].
    pose proof (reEnables_fire n t w Hn) as Hfire.
    unfold Props.guarded.
    set (w' := mkWorld (fire t (dropTimer n (page w))) (db w) (calls w)) in *.
    assert (HA : awaiting (page w') = awaiting (page w)) by apply fire_awaiting.
    destruct t; cbn [Props.isReEnable] in Hfire.
    + assert (Hk : Props.reEnables w = 1%nat) by lia.
      specialize (G3 Hk).
      split; [lia|]. split; [|lia].
      rewrite HA. intros HS. destruct (G2 HS). lia.
    + assert (HD : submitDisabled (page w') = submitDisabled (page w)) by reflexivity.
      rewrite HA, HD. replace (Props.reEnables w') with (Props.reEnables w) by lia.
      exact G.
    + assert (HD : submitDisabled (page w') = submitDisabled (page w)).
      { unfold w'. cbn. destruct (bookingWidget (page w)) as [[|?]|]; reflexivity. }
      rewrite HA, HD. replace (Props.reEnables w') with (Props.reEnables w) by lia.
      exact G.
  - unfold Props.guarded, Props.reEnables. cbn.
    split; [lia|]. split; [intros [? [=]] | lia].
Qed.

Lemma run_guarded es w : Props.guarded w -> Props.guarded (run v env es w).
Proof.
  revert w. induction es as [|e es IH]; intros w Hw; [exact Hw|].
  apply IH, step_guarded, Hw.
Qed.

Lemma load_guarded dflt widget db0 :
  Props.guarded (mkWorld (load dflt widget) db0 []).
Proof.
  unfold Props.guarded, Props.reEnables. cbn.
  split; [lia|]. split; [intros [? [=]] | lia].
Qed.

Lemma step_inFlight d e w :
  Props.local e = true -> Props.inFlight d w ->
  Props.inFlight d (step v env e w) /\ calls (step v env e w) = calls w.
Proof.
  intros He (HD & HA & Hk). destruct e as [f| |id a|n|]; try discriminate.
  - split; [|reflexivity]. exact (conj HD (conj HA Hk)).
  - cbn. rewrite HD. split; [|reflexivity]. exact (conj HD (conj HA Hk)).
  - cbn. destruct (timers (page w) !! n) as [t|] eqn:Hn;
      [|split; [exact (conj HD (conj HA Hk)) | reflexivity]].
    split; [|reflexivity].
    pose proof (reEnables_fire n t w Hn) as Hfire.
    unfold Props.inFlight.
    set (w' := mkWorld (fire t (dropTimer n (page w))) (db w) (calls w)) in *.
    assert (HA' : awaiting (page w') = awaiting (page w)) by apply fire_awaiting.
    rewrite HA'.
    destruct t; cbn [Props.isReEnable] in Hfire; [lia | |].
    + split; [exact HD|]. split; [exact HA | lia].
    + split; [|split; [exact HA | lia]].
      unfold w'. cbn. destruct (bookingWidget (page w)) as [[|?]|]; exact HD.
Qed.

Lemma run_inFlight d es w :
  Forall (fun e => Props.local e = true) es -> Props.inFlight d w ->
  Props.inFlight d (run v env es w) /\ calls (run v env es w) = calls w.
Proof.
  intros H. revert w. induction H as [|e es He _ IH]; intros w Hw; [auto|].
  destruct (step_inFlight d e w He Hw) as [Hw' Hc].
  destruct (IH _ Hw') as [Hw'' Hc'].
  split; [exact Hw''|]. rewrite run_cons, Hc'. exact Hc.
Qed.

End GuardFacts.

Section InlineFacts.
Import Intake.

Variable env : Env.

Lemma step_inline e w :
  Props.inline w -> Props.inline (step InlineMessage env e w).
Proof.
  intros [Hh Ht]. destruct e as [f| |id a|n|].
  - split; [exact Hh | exact Ht].
  - cbn. destruct (submitDisabled (page w)); [split; [exact Hh | exact Ht]|].
    unfold onSubmit. destruct (check env _); split; [exact Hh | exact Ht | exact Hh | exact Ht].
  - cbn. unfold onSettled. destruct (awaiting (page w)) as [d|];
      [|split; [exact Hh | exact Ht]].
    destruct (Firestore.add a id d (db w)) as [e|db1];
      [split; [exact Hh | exact Ht]|].
    split; [exact Hh|]. cbn. apply Forall_app. split; [exact Ht|].
    constructor; [reflexivity | constructor].
  - cbn. destruct (timers (page w) !! n) as [t|] eqn:Hn;
      [|split; [exact Hh | exact Ht]].
    rewrite (Forall_lookup_1 _ _ _ _ Ht Hn). split; [exact Hh|]. cbn.
    apply Forall_delete, Ht.
  - split; [reflexivity | constructor].
Qed.

Lemma run_inline es w :
  Props.inline w -> Props.inline (run InlineMessage env es w).
Proof.
  revert w. induction es as [|e es IH]; intros w Hw; [exact Hw|].
  apply IH, step_inline, Hw.
Qed.

Lemma filter_isReEnable_all (l : list Timer) :
  Forall (fun t => t = ReEnable) l -> List.filter Props.isReEnable l = l.
Proof.
  induction 1 as [|t l -> _ IH]; [reflexivity|]. cbn. rewrite IH. reflexivity.
Qed.

(** A page of that script whose button is enabled has no timer pending
    and waits for no answer. *)
Lemma enabled_idle w :
  Props.guarded w -> Props.inline w ->
  submitDisabled (page w) = false ->
  timers (page w) = [] /\ awaiting (page w) = None.
Proof.
  intros (G1 & G2 & G3) [_ Ht] Hen. split.
  - unfold Props.reEnables in *. rewrite (filter_isReEnable_all _ Ht) in *.
    destruct (timers (page w)) as [|t [|t' l]]; [reflexivity | | cbn in G1; lia].
    specialize (G3 eq_refl). congruence.
  - destruct (awaiting (page w)) as [d|] eqn:Ha; [|reflexivity].
    destruct G2 as [Hd _]; [eauto | congruence].
Qed.

Lemma submit_quiet d w :
  Props.inline w -> timers (page w) = [] ->
  submitDisabled (page w) = false ->
  check env (form (page w)) = Proceed d ->
  Props.quiet d (step InlineMessage env Submit w).
Proof.
  intros [Hh _] Ht Hen Hcheck. cbn. rewrite Hen.
  rewrite (onSubmit_proceed env w d Hcheck). cbn.
  repeat split; assumption.
Qed.

Lemma step_quiet d e w :
  Spec.isReload e = false -> Spec.isSettled e = false ->
  Props.quiet d w -> Props.quiet d (step InlineMessage env e w).
Proof.
  intros Hr Hs Q. pose proof Q as (Hd & Ha & Ht & Hh).
  destruct e as [f| |id a|n|]; try discriminate.
  - exact Q.
  - cbn. rewrite Hd. exact Q.
  - cbn. rewrite Ht. exact Q.
Qed.

Lemma run_quiet d es w :
  Forall (fun e => Spec.isReload e = false /\ Spec.isSettled e = false) es ->
  Props.quiet d w -> Props.quiet d (run InlineMessage env es w).
Proof.
  intros H. revert w. induction H as [|e es [Hr Hs] _ IH]; intros w Hw; [exact Hw|].
  apply IH, step_quiet; assumption.
Qed.

(** The answer of the platform, when it commits, starts the one timer. *)
Lemma settled_announced d id t w :
  Props.quiet d w ->
  Props.announced (step InlineMessage env (Settled id (Firestore.Commit t)) w).
Proof.
  intros (Hd & Ha & Ht & Hh). cbn. unfold onSettled. rewrite Ha. cbn.
  unfold Props.announced. cbn. rewrite Ht.
  repeat split; assumption.
Qed.

Lemma step_announced e w :
  Spec.isReload e = false -> Props.isFire e = false ->
  Props.announced w -> Props.announced (step InlineMessage env e w).
Proof.
  intros Hr Hf A. pose proof A as (Hd & Ha & _).
  destruct e as [f| |id a|n|]; try discriminate.
  - exact A.
  - cbn. rewrite Hd. exact A.
  - cbn. unfold onSettled. rewrite Ha. exact A.
Qed.

Lemma run_announced es w :
  Forall (fun e => Spec.isReload e = false /\ Props.isFire e = false) es ->
  Props.announced w -> Props.announced (run InlineMessage env es w).
Proof.
  intros H. revert w. induction H as [|e es [Hr Hf] _ IH]; intros w Hw; [exact Hw|].
  apply IH, step_announced; assumption.
Qed.

(** The timer fires: the button is enabled under the success message. *)
Lemma fire_announced w :
  Props.announced w ->
  let w' := step InlineMessage env (Fire 0%nat) w in
  submitDisabled (page w') = false
  /\ submitText (page w') = "Reserve Table"
  /\ messageText (page w') = successMessage
  /\ messageHidden (page w') = false
  /\ timers (page w') = [].
Proof.
  intros (Hd & Ha & Ht & Hm & Hc & Hh). cbn. rewrite Ht. cbn.
  rewrite Ht. repeat split; assumption.
Qed.

End InlineFacts.

(** C9, as the code has it.  In the version of the script that calls
    [showSuccessUI], on a page that was loaded and went through any
    history, a submission that passes the checks disables the submit
    button; the button stays disabled while the write is pending, and,
    once the write is committed, through every later event short of a
    reset of the page.  In [public/js/reservations.js], on such a page,
    the submission disables the button as well and the button stays
    disabled while the write is pending; once the write is committed the
    success message is shown and one timer is pending, the one the
    success branch starts; until that timer fires or the page is reset
    the button stays disabled, and when it fires the button is enabled
    while the success message is still shown. *)
Theorem success_view_keeps_submit_disabled
    (env : Intake.Env) (dflt : Intake.Form) (widget : bool)
    (db0 : gmap string (Firestore.Reservation Z))
    (es0 es1 es2 : list Intake.Event)
    (d : Firestore.Reservation Firestore.FieldValue) (id : string) (t : Z) :
  (let w := Intake.run Intake.SuccessView env es0
              (Intake.mkWorld (Intake.load dflt widget) db0 []) in
   Intake.submitDisabled (Intake.page w) = false ->
   Intake.check env (Intake.form (Intake.page w)) = Intake.Proceed d ->
   Forall (fun e => Spec.isReload e = false /\ Spec.isSettled e = false) es1 ->
   Forall (fun e => Spec.isReload e = false) es2 ->
   Intake.submitDisabled
     (Intake.page (Intake.run Intake.SuccessView env (Intake.Submit :: es1) w))
     = true
   /\ Intake.submitDisabled
        (Intake.page
           (Intake.run Intake.SuccessView env
              (Intake.Submit :: es1
               ++ Intake.Settled id (Firestore.Commit t) :: es2) w))
      = true)
  /\ (let w := Intake.run Intake.InlineMessage env es0
                 (Intake.mkWorld (Intake.load dflt widget) db0 []) in
      Intake.submitDisabled (Intake.page w) = false ->
      Intake.check env (Intake.form (Intake.page w)) = Intake.Proceed d ->
      Forall (fun e => Spec.isReload e = false /\ Spec.isSettled e = false) es1 ->
      Forall (fun e => Spec.isReload e = false /\ Props.isFire e = false) es2 ->
      let w2 := Intake.run Intake.InlineMessage env
                  (Intake.Submit :: es1
                   ++ Intake.Settled id (Firestore.Commit t) :: es2) w in
      let w3 := Intake.step Intake.InlineMessage env (Intake.Fire 0%nat) w2 in
      Intake.submitDisabled
        (Intake.page (Intake.run Intake.InlineMessage env (Intake.Submit :: es1) w))
        = true
      /\ Intake.submitDisabled (Intake.page w2) = true
      /\ Intake.timers (Intake.page w2) = [Intake.ReEnable]
      /\ Intake.messageText (Intake.page w2) = Intake.successMessage
      /\ Intake.messageHidden (Intake.page w2) = false
      /\ Intake.submitDisabled (Intake.page w3) = false
      /\ Intake.submitText (Intake.page w3) = "Reserve Table"
      /\ Intake.messageText (Intake.page w3) = Intake.successMessage
      /\ Intake.messageHidden (Intake.page w3) = false
      /\ Intake.timers (Intake.page w3) = []).
Proof.
  split.
  - intros w Hen Hcheck Hes1 Hes2.
    assert (Hno : Spec.noReEnable w).
    { apply run_noReEnable. apply not_elem_of_nil. }
    assert (Hs : Spec.sending (Intake.step Intake.SuccessView env Intake.Submit w)).
    { split; [|split]; [| |apply step_noReEnable, Hno];
        cbn; rewrite Hen, (onSubmit_proceed env w d Hcheck); cbn; eauto. }
    pose proof (run_sending env es1 _ Hes1 Hs) as Hs1.
    split.
    + rewrite run_cons. apply Hs1.
    + rewrite run_cons, run_app, run_cons.
      apply (run_held env es2 _ Hes2), settled_held, Hs1.
  - intros w Hen Hcheck Hes1 Hes2 w2 w3.
    assert (G : Props.guarded w).
    { apply run_guarded, load_guarded. }
    assert (I : Props.inline w).
    { apply run_inline. split; [reflexivity | constructor]. }
    destruct (enabled_idle w G I Hen) as [Ht _].
    pose proof (submit_quiet env d w I Ht Hen Hcheck) as Q.
    pose proof (run_quiet env d es1 _ Hes1 Q) as Q1.
    pose proof (settled_announced env d id t _ Q1) as A.
    pose proof (run_announced env es2 _ Hes2 A) as A2.
    split; [rewrite run_cons; apply Q1|].
    unfold w3, w2. clear w3 w2. rewrite run_cons, run_app, run_cons.
    destruct (fire_announced env _ A2) as (F1 & F2 & F3 & F4 & F5).
    destruct A2 as (A1 & _ & A3 & A4 & _ & A6).
    repeat split; assumption.
Qed.

Lemma success_view_keeps_submit_disabled_witness :
  Intake.submitDisabled
    (Intake.page
       (Intake.run Intake.SuccessView Samples.ready
          (Intake.Submit :: [Intake.Fire 0%nat]
           ++ Intake.Settled "r1" (Firestore.Commit 1767940201000)
              :: [Intake.Fire 0%nat; Intake.Fire 0%nat; Intake.Submit;
                  Intake.Fill Samples.asha])
          (Intake.run Intake.SuccessView Samples.ready
             [Intake.Fill Samples.asha]
             (Intake.mkWorld (Intake.load Samples.blank true) ∅ []))))
  = true
  /\ Intake.timers
       (Intake.page
          (Intake.run Intake.InlineMessage Samples.ready
             (Intake.Submit :: [Intake.Fire 0%nat]
              ++ Intake.Settled "r1" (Firestore.Commit 1767940201000)
                 :: [Intake.Submit; Intake.Fill Samples.asha])
             (Intake.run Intake.InlineMessage Samples.ready
                [Intake.Fill Samples.asha]
                (Intake.mkWorld (Intake.load Samples.blank true) ∅ []))))
     = [Intake.ReEnable].
Proof.
  split.
  - refine (proj2 (proj1 (success_view_keeps_submit_disabled Samples.ready
                            Samples.blank true ∅ [Intake.Fill Samples.asha]
                            [Intake.Fire 0%nat]
                            [Intake.Fire 0%nat; Intake.Fire 0%nat; Intake.Submit;
                             Intake.Fill Samples.asha]
                            (Intake.formData Samples.asha) "r1" 1767940201000)
                     _ _ _ _)).
    + reflexivity.
    + vm_compute. reflexivity.
    + repeat constructor.
    + repeat constructor.
  - refine (proj1 (proj2 (proj2
              (proj2 (success_view_keeps_submit_disabled Samples.ready
                        Samples.blank true ∅ [Intake.Fill Samples.asha]
                        [Intake.Fire 0%nat]
                        [Intake.Submit; Intake.Fill Samples.asha]
                        (Intake.formData Samples.asha) "r1" 1767940201000)
                 _ _ _ _)))).
    + reflexivity.
    + vm_compute. reflexivity.
    + repeat constructor.
    + repeat constructor.
Defined.

(** C9 as stated fails in [public/js/reservations.js]: after the scenario's
    submission is committed, the timer of three seconds fires and enables
    the submit button while the success message is still shown; nothing
    dismissed the message and the page was not reset. *)
Lemma inline_message_reenables_submit :
  let w := Intake.run Intake.InlineMessage Samples.ready
             [Intake.Submit; Intake.Settled "r1" (Firestore.Commit 1767940201000)]
             (Samples.world Samples.asha) in
  Intake.submitDisabled (Intake.page w) = true
  /\ Intake.messageText (Intake.page w) = Intake.successMessage
  /\ Intake.timers (Intake.page w) = [Intake.ReEnable]
  /\ Intake.submitDisabled
       (Intake.page (Intake.step Intake.InlineMessage Samples.ready
                       (Intake.Fire 0%nat) w)) = false
  /\ Intake.messageText
       (Intake.page (Intake.step Intake.InlineMessage Samples.ready
                       (Intake.Fire 0%nat) w)) = Intake.successMessage.
Proof. vm_compute. repeat split; reflexivity. Qed.

(* --------------------------------------------------------------------- *)
(** ** The date check *)

Section DateFacts.
Import Intake.

Variable c : JSDate.Clock.
Variable f : Form.
Variable day : Z.
Hypothesis Hparse :
  JSDate.parse (reservation_date f) = Some (day * JSDate.msPerDay).

(** A day before the local day is refused in every time zone. *)
Lemma past_date_refused :
  JSDate.midnightTZA c < JSDate.msPerDay ->
  day < JSDate.localDay c ->
  dateOk c (formData f) = false.
Proof.
  intros Htz Hday. unfold dateOk. cbn. rewrite Hparse. cbn.
  apply negb_false_iff, Z.ltb_lt.
  unfold JSDate.localMidnight, JSDate.msPerDay in *. lia.
Qed.

(** The local day and the days after it pass the check when local time
    is not behind UTC. *)
Lemma today_or_later_accepted :
  0 <= JSDate.midnightTZA c ->
  JSDate.localDay c <= day ->
  dateOk c (formData f) = true.
Proof.
  intros Htz Hday. unfold dateOk. cbn. rewrite Hparse. cbn.
  apply negb_true_iff, Z.ltb_ge.
  unfold JSDate.localMidnight, JSDate.msPerDay in *. lia.
Qed.

(** The days after the local day pass the check in every time zone. *)
Lemma later_accepted :
  - JSDate.msPerDay <= JSDate.midnightTZA c ->
  JSDate.localDay c < day ->
  dateOk c (formData f) = true.
Proof.
  intros Htz Hday. unfold dateOk. cbn. rewrite Hparse. cbn.
  apply negb_true_iff, Z.ltb_ge.
  unfold JSDate.localMidnight, JSDate.msPerDay in *. lia.
Qed.

(** The local day itself is refused when local time is behind UTC. *)
Lemma today_refused_behind_utc :
  JSDate.midnightTZA c < 0 ->
  day = JSDate.localDay c ->
  dateOk c (formData f) = false.
Proof.
  intros Htz Hday. unfold dateOk. cbn. rewrite Hparse. cbn.
  apply negb_false_iff, Z.ltb_lt.
  unfold JSDate.localMidnight, JSDate.msPerDay in *. lia.
Qed.

End DateFacts.

(** C3, where the code departs from it.  In New York on 10 January 2026 at
    noon the local day is 10 January; the form holds that very day and a
    valid phone; yet the date check refuses it, the listener throws
    "Please select a future date", and no write is sent. *)
Theorem today_refused_behind_utc_at_new_york :
  let f := Samples.asha in
  let w := Samples.world f in
  JSDate.localDay Samples.newYork = JSDate.MakeDay 2026 1 10
  /\ JSDate.parse (Intake.reservation_date f)
     = Some (JSDate.MakeDay 2026 1 10 * JSDate.msPerDay)
  /\ Intake.phoneOk (Intake.formData f) = true
  /\ Intake.dateOk Samples.newYork (Intake.formData f) = false
  /\ Intake.check Samples.west f = Intake.Throw Intake.dateError
  /\ Intake.calls (Intake.step Intake.InlineMessage Samples.west Intake.Submit w) = []
  /\ Intake.messageText
       (Intake.page (Intake.step Intake.InlineMessage Samples.west Intake.Submit w))
     = Intake.crossMark +:+ "Please select a future date".
Proof. vm_compute. repeat split; reflexivity. Qed.

(* ===================================================================== *)
(** * Notification trigger *)
(* ===================================================================== *)

Section TriggerFacts.
Import Firestore Trigger.

Lemma firstRejection_Some order outs e :
  firstRejection order outs = Some e -> Some e ∈ outs.
Proof.
  unfold firstRejection.
  destruct (omap (fun i => mjoin (outs !! i)) order) as [|e0 l] eqn:Ho.
  - intros [l' Hl]%head_Some.
    assert (He : e ∈ omap id outs) by (rewrite Hl; left).
    apply list_elem_of_omap in He as (x & Hx & Hid). cbn in Hid. subst x. exact Hx.
  - intros [= <-].
    assert (He : e0 ∈ omap (fun i => mjoin (outs !! i)) order)
      by (rewrite Ho; left).
    apply list_elem_of_omap in He as (i & _ & Hi).
    destruct (outs !! i) as [o|] eqn:Hlook; [|discriminate].
    cbn in Hi. subst o. eapply list_elem_of_lookup_2, Hlook.
Qed.

Lemma firstRejection_None order outs :
  firstRejection order outs = None <-> forall o, o ∈ outs -> o = None.
Proof.
  split.
  - intros H o Ho. destruct o as [e|]; [|reflexivity]. exfalso.
    unfold firstRejection in H.
    destruct (omap (fun i => mjoin (outs !! i)) order); [|discriminate].
    apply head_None in H.
    assert (He : e ∈ omap id outs).
    { apply list_elem_of_omap. exists (Some e). auto. }
    rewrite H in He. inversion He.
  - intros H. destruct (firstRejection order outs) as [e|] eqn:He; [|reflexivity].
    apply firstRejection_Some in He. apply H in He. discriminate.
Qed.

Lemma Promise_all_None m msgs :
  Promise_all m msgs = None <-> forall msg, msg ∈ msgs -> send m msg = None.
Proof.
  unfold Promise_all. rewrite firstRejection_None. split.
  - intros H msg Hin. apply H, list_elem_of_fmap. eauto.
  - intros H o [msg [-> Hin]]%list_elem_of_fmap. auto.
Qed.

Lemma Promise_all_Some m msgs e :
  Promise_all m msgs = Some e -> exists msg, msg ∈ msgs /\ send m msg = Some e.
Proof.
  intros [msg [Hs Hin]]%firstRejection_Some%list_elem_of_fmap. eauto.
Qed.

Lemma customer_in_messages r id :
  sendCustomerConfirmation r ∈ messages r id <-> present (customerEmail r) = true.
Proof.
  unfold messages. rewrite elem_of_app. split.
  - intros [Hin|Hin].
    + apply list_elem_of_fmap in Hin as (email & Heq & _). discriminate.
    + destruct (present (customerEmail r)); [reflexivity | inversion Hin].
  - intros ->. right. left.
Qed.

End TriggerFacts.

(** C4. For a created reservation, the trigger hands to the mail provider
    one staff message per address of [MANAGER_EMAILS], and one customer
    message exactly when [customerEmail] is present (neither null nor
    empty).  It returns success exactly when every dispatch succeeds.  When
    a dispatch fails, it sends one update to the originating document, with
    the message of a failed dispatch as [emailError] and the server
    sentinel as [emailErrorTimestamp], and it ends by throwing; when the
    platform commits the update at [t] on the stored document, that
    document gets the two fields and keeps all others, and the error
    thrown carries the failure message. *)
Theorem trigger_dispatches_and_reports
    (m : Trigger.Mail) (a : Firestore.Answer) (id : string)
    (r : Firestore.Reservation Z) (db : gmap string (Firestore.Reservation Z)) :
  let out := Trigger.sendReservationEmails m a (Trigger.mkEvent (Some r) id) db in
  map Trigger.to (Trigger.sent out)
    = map Some Trigger.MANAGER_EMAILS
      ++ (if Trigger.present (Firestore.customerEmail r)
          then [Firestore.customerEmail r] else [])
  /\ (forall email, email ∈ Trigger.MANAGER_EMAILS ->
        Trigger.sendManagerNotification email r id ∈ Trigger.sent out)
  /\ (Trigger.sendCustomerConfirmation r ∈ Trigger.sent out
      <-> Trigger.present (Firestore.customerEmail r) = true)
  /\ (Trigger.result out = Trigger.ReturnedSuccess
      <-> forall msg, msg ∈ Trigger.sent out -> Trigger.send m msg = None)
  /\ ((exists msg, msg ∈ Trigger.sent out /\ Trigger.send m msg <> None) ->
      exists msg e,
        msg ∈ Trigger.sent out /\ Trigger.send m msg = Some e
        /\ Trigger.updates out
           = [(id, Firestore.EmailErrorPatch (JS.message e)
                     Firestore.serverTimestamp)]
        /\ (exists e', Trigger.result out = Trigger.Thrown e')
        /\ forall t r0, a = Firestore.Commit t -> db !! id = Some r0 ->
             Trigger.result out
             = Trigger.Thrown
                 (JS.mkError ("Failed to send emails: " +:+ JS.message e))
             /\ exists r1,
                  Trigger.db' out = <[id := r1]> db
                  /\ Firestore.emailError r1 = Some (JS.message e)
                  /\ Firestore.emailErrorTimestamp r1 = Some t
                  /\ Firestore.customerName r1 = Firestore.customerName r0
                  /\ Firestore.customerPhone r1 = Firestore.customerPhone r0
                  /\ Firestore.customerEmail r1 = Firestore.customerEmail r0
                  /\ Firestore.partySize r1 = Firestore.partySize r0
                  /\ Firestore.reservationDate r1 = Firestore.reservationDate r0
                  /\ Firestore.reservationTime r1 = Firestore.reservationTime r0
                  /\ Firestore.specialRequests r1 = Firestore.specialRequests r0
                  /\ Firestore.status r1 = Firestore.status r0
                  /\ Firestore.createdAt r1 = Firestore.createdAt r0
                  /\ Firestore.updatedAt r1 = Firestore.updatedAt r0).
Proof.
  intros out.
  assert (Hsent : Trigger.sent out = Trigger.messages r id).
  { unfold out, Trigger.sendReservationEmails.
    cbn [Trigger.data Trigger.reservationId].
    destruct (Trigger.Promise_all m _); [|reflexivity].
    destruct (Firestore.update _ _ _ _); reflexivity. }
  rewrite Hsent.
  split; [|split; [|split; [|split]]].
  - unfold Trigger.messages. rewrite map_app, map_map. cbn.
    destruct (Trigger.present _); reflexivity.
  - intros email Hin. unfold Trigger.messages.
    apply elem_of_app. left. apply list_elem_of_fmap. eauto.
  - apply customer_in_messages.
  - rewrite <- Promise_all_None.
    unfold out, Trigger.sendReservationEmails.
    cbn [Trigger.data Trigger.reservationId].
    destruct (Trigger.Promise_all m _) as [e|]; [|tauto].
    destruct (Firestore.update _ _ _ _); cbn; split; discriminate.
  - intros (msg0 & Hin0 & Hfail0).
    destruct (Trigger.Promise_all m (Trigger.messages r id)) as [e|] eqn:Hall.
    2:{ exfalso. apply Hfail0. eapply Promise_all_None; eauto. }
    destruct (Promise_all_Some _ _ _ Hall) as (msg & Hin & Hsend).
    exists msg, e. split; [exact Hin|]. split; [exact Hsend|].
    unfold out, Trigger.sendReservationEmails.
    cbn [Trigger.data Trigger.reservationId]. rewrite Hall.
    split; [destruct (Firestore.update _ _ _ _); reflexivity|].
    split; [destruct (Firestore.update _ _ _ _); cbn; eauto|].
    intros t r0 -> Hr0. cbn. rewrite Hr0. cbn.
    split; [reflexivity|].
    eexists. split; [reflexivity|]. cbn. repeat split.
Qed.

Lemma trigger_dispatches_and_reports_witness :
  Trigger.result
    (Trigger.sendReservationEmails Samples.mailDown
       (Firestore.Commit 1767940202000)
       (Trigger.mkEvent (Some (Samples.booking "pending" None)) "r1")
       {[ "r1" := Samples.booking "pending" None ]})
  = Trigger.Thrown (JS.mkError "Failed to send emails: Unauthorized").
Proof.
  destruct (trigger_dispatches_and_reports Samples.mailDown
              (Firestore.Commit 1767940202000) "r1"
              (Samples.booking "pending" None)
              {[ "r1" := Samples.booking "pending" None ]})
    as (_ & _ & _ & _ & Hfail).
  destruct Hfail as (msg & e & _ & Hsend & _ & _ & Hdone).
  - exists (Trigger.sendManagerNotification "neilbiswas13@gmail.com"
              (Samples.booking "pending" None) "r1").
    split; [right; left | discriminate].
  - destruct (Hdone 1767940202000 (Samples.booking "pending" None))
      as [Hres _]; [reflexivity | reflexivity |].
    rewrite Hres. cbn in Hsend.
    destruct (bool_decide _) in Hsend; [|discriminate].
    injection Hsend as <-. reflexivity.
Defined.

(* ===================================================================== *)
(** * Admin console *)
(* ===================================================================== *)

Section SearchFacts.

Lemma app_cons c s t : String c s +:+ t = String c (s +:+ t).
Proof. reflexivity. Qed.

Lemma app_nil s : "" +:+ s = s.
Proof. reflexivity. Qed.

Lemma startsWith_prefix p s :
  JS.startsWith p s = true <-> exists post, s = p +:+ post.
Proof.
  revert s. induction p as [|a p IH]; intros s; cbn.
  - split; [intros _; exists s; reflexivity | reflexivity].
  - destruct s as [|b s].
    + split; [discriminate | intros [post H]; discriminate].
    + destruct (ascii_dec a b) as [->|Hne].
      * rewrite IH. split; intros [post H]; exists post.
        -- rewrite app_cons, <- H. reflexivity.
        -- rewrite app_cons in H. congruence.
      * split; [discriminate|]. intros [post H].
        rewrite app_cons in H. congruence.
Qed.

Lemma includes_substring s q :
  JS.includes s q = true <-> Spec.substring q s.
Proof.
  unfold Spec.substring. split.
  - induction s as [|c s IH].
    + cbn. rewrite orb_false_r. intros [post H]%startsWith_prefix.
      exists "", post. exact H.
    + cbn [JS.includes].
      intros [[post H]%startsWith_prefix | H]%orb_true_iff.
      * exists "", post. exact H.
      * destruct (IH H) as (pre & post & ->).
        exists (String c pre), post. reflexivity.
  - intros (pre & post & ->). induction pre as [|c pre IH].
    + rewrite app_nil.
      assert (Hs : JS.startsWith q (q +:+ post) = true)
        by (apply startsWith_prefix; eauto).
      destruct (q +:+ post); cbn [JS.includes]; rewrite Hs; reflexivity.
    + rewrite app_cons. cbn [JS.includes]. rewrite IH. apply orb_true_r.
Qed.

Lemma truthy_nonempty s : JS.truthy s = true <-> s <> "".
Proof. destruct s; cbn; split; congruence. Qed.

Lemma truthy_empty s : JS.truthy s = false <-> s = "".
Proof. destruct s; cbn; split; congruence. Qed.

Lemma toLowerCase_empty s : JS.toLowerCase s = "" <-> s = "".
Proof. destruct s; cbn; split; congruence. Qed.

(** The callback of the filter decides the three conditions, with the
    search run over name, space, phone. *)
Lemma keep_included fl r : Admin.keep fl r = true <-> Spec.included fl r.
Proof.
  unfold Admin.keep, Spec.included, Spec.substring_ci. cbv zeta.
  rewrite <- includes_substring.
  destruct (decide (Admin.filter_status fl = "all")) as [Hall|Hall];
    destruct (decide (Firestore.status (Admin.doc r) = Admin.filter_status fl))
      as [Hst|Hst];
    rewrite ?(bool_decide_eq_true_2 _ Hall), ?(bool_decide_eq_false_2 _ Hall),
      ?(bool_decide_eq_true_2 _ Hst), ?(bool_decide_eq_false_2 _ Hst);
    cbn [negb andb];
    [| | | split; [discriminate | tauto]].
  all: destruct (Admin.filter_date fl) as [|dc ds] eqn:Hdate; cbn [JS.truthy andb].
  all: try (destruct (decide (Firestore.reservationDate (Admin.doc r)
                              = String dc ds)) as [Hd|Hd];
            rewrite ?(bool_decide_eq_true_2 _ Hd), ?(bool_decide_eq_false_2 _ Hd);
            cbn [negb];
            [| split; [discriminate | intros (_ & [?|?] & _); congruence]]).
  all: destruct (Admin.search_input fl) as [|qc qs] eqn:Hq;
    cbn [JS.toLowerCase JS.truthy];
    [ split; [intros _; repeat split; auto | reflexivity] |].
  all: destruct (JS.includes _ _);
    cbn [negb];
    (split; [intros H; try discriminate; repeat split; auto
            | intros (_ & _ & [?|?]); congruence]).
Qed.

End SearchFacts.

(** C7, as the code has it.  The filtered list is a function of
    [allReservations] and of the three inputs alone: a reservation of the
    list is kept exactly when the status filter is "all" or its status,
    the date filter is empty or its date, and the search text is empty or
    occurs, the case of letters apart, in its name followed by one space
    and its phone.  The kept reservations stay in their order; applying
    the filters again gives the same console; the list of all
    reservations and the number of subscriptions to the collection are
    untouched. *)
Theorem filtered_view_is_a_function_of_list_and_filters
    (fl : Admin.Filters) (c : Admin.Console) :
  (forall r, r ∈ Admin.filteredReservations (Admin.applyFilters fl c)
             <-> r ∈ Admin.allReservations c /\ Spec.included fl r)
  /\ Admin.filteredReservations (Admin.applyFilters fl c)
       `sublist_of` Admin.allReservations c
  /\ Admin.applyFilters fl (Admin.applyFilters fl c) = Admin.applyFilters fl c
  /\ Admin.allReservations (Admin.applyFilters fl c) = Admin.allReservations c
  /\ Admin.listeners (Admin.applyFilters fl c) = Admin.listeners c
  /\ (forall c', Admin.allReservations c' = Admin.allReservations c ->
        Admin.filteredReservations (Admin.applyFilters fl c')
        = Admin.filteredReservations (Admin.applyFilters fl c)).
Proof.
  split; [|split; [|split; [|split; [|split]]]]; cbn; try reflexivity.
  - intros r. rewrite list_elem_of_In, filter_In, <- list_elem_of_In, keep_included.
    reflexivity.
  - induction (Admin.allReservations c) as [|r l IH]; cbn; [constructor|].
    destruct (Admin.keep fl r); constructor; exact IH.
  - intros c' ->. reflexivity.
Qed.

(** C7 as stated fails: with the search text "o9", a reservation of Rao
    with phone 9876543210 meets the three conditions as the specification
    words them ("o9" occurs in the name followed by the phone), and the
    console leaves it out, for it searches "rao 9876543210". *)
Lemma search_text_has_a_space :
  Samples.rao ∈ Admin.allReservations Samples.desk
  /\ Spec.included_as_specified Samples.o9 Samples.rao
  /\ Admin.filteredReservations (Admin.applyFilters Samples.o9 Samples.desk) = [].
Proof.
  split; [left|]. split; [|reflexivity].
  split; [left; reflexivity|]. split; [left; reflexivity|].
  right. exists "ra", "876543210". reflexivity.
Qed.

Section ModalFacts.
Import Firestore Admin.






End ModalFacts.




(** C6. When the operator sets a pending reservation to "confirmed" and
    the platform commits the update at server time [t], the stored
    document has status "confirmed" and [updatedAt] equal to [t]; its
    [createdAt] and every other field are as before, the other documents
    are as before, and the lists of the console are not touched. *)
Theorem confirm_changes_status_and_updatedAt_only
    (w : Admin.World) (i : string) (r : Firestore.Reservation Z) (t : Z) :
  Admin.db w !! i = Some r ->
  Firestore.status r = "pending" ->
  let w' := Admin.updateReservationStatus (Firestore.Commit t) i "confirmed" w in
  exists r',
    Admin.db w' !! i = Some r'
    /\ Firestore.status r' = "confirmed"
    /\ Firestore.updatedAt r' = t
    /\ Firestore.createdAt r' = Firestore.createdAt r
    /\ Firestore.customerName r' = Firestore.customerName r
    /\ Firestore.customerPhone r' = Firestore.customerPhone r
    /\ Firestore.customerEmail r' = Firestore.customerEmail r
    /\ Firestore.partySize r' = Firestore.partySize r
    /\ Firestore.reservationDate r' = Firestore.reservationDate r
    /\ Firestore.reservationTime r' = Firestore.reservationTime r
    /\ Firestore.specialRequests r' = Firestore.specialRequests r
    /\ Firestore.emailError r' = Firestore.emailError r
    /\ Firestore.emailErrorTimestamp r' = Firestore.emailErrorTimestamp r
    /\ (forall j, j <> i -> Admin.db w' !! j = Admin.db w !! j)
    /\ dom (Admin.db w') = dom (Admin.db w)
    /\ Admin.allReservations (Admin.console w')
       = Admin.allReservations (Admin.console w)
    /\ Admin.filteredReservations (Admin.console w')
       = Admin.filteredReservations (Admin.console w)
    /\ Admin.writes w'
       = Admin.writes w
         ++ [Admin.Update i (Firestore.StatusPatch "confirmed"
                               Firestore.serverTimestamp)].
Proof.
  intros Hr Hpending w'.
  unfold w', Admin.updateReservationStatus, Firestore.update. cbv zeta.
  rewrite Hr. cbn.
  eexists. split; [apply lookup_insert_eq|]. cbn.
  repeat split.
  - intros j Hj. apply lookup_insert_ne. congruence.
  - apply dom_insert_lookup_L. eauto.
Qed.

Lemma confirm_changes_status_and_updatedAt_only_witness :
  exists r',
    Admin.db (Admin.updateReservationStatus (Firestore.Commit 1767940203000)
                "r1" "confirmed" Samples.office) !! "r1" = Some r'
    /\ Firestore.status r' = "confirmed"
    /\ Firestore.updatedAt r' = 1767940203000.
Proof.
  destruct (confirm_changes_status_and_updatedAt_only Samples.office "r1"
              (Admin.doc Samples.rao) 1767940203000)
    as (r' & Hlook & Hst & Hup & _).
  - reflexivity.
  - reflexivity.
  - exists r'. auto.
Defined.

(* ===================================================================== *)
(** * Authentication service *)
(* ===================================================================== *)

(** C10. For a signed-in user whose profile is missing, or cannot be read,
    the listener calls the callback once, with [isAuthenticated] true and
    a user made of [uid], [email] and [displayName] of the identity
    provider and of nothing else. *)
Theorem auth_state_without_profile
    (users : gmap string (gmap string Auth.Value)) (rd : Auth.Read) (u : Auth.User) :
  (rd = Auth.Served /\ users !! Auth.uid u = None) \/ (exists e, rd = Auth.Refused e) ->
  exists m,
    Auth.onAuthStateChanged users rd (Some u)
    = [ Auth.mkAuthState true (Some m) ]
    /\ dom m = ({[ "uid"; "email"; "displayName" ]} : gset string)
    /\ m !! "uid" = Some (Auth.VString (Auth.uid u))
    /\ m !! "email" = Some (Auth.ofNullable (Auth.email u))
    /\ m !! "displayName" = Some (Auth.ofNullable (Auth.displayName u))
    /\ Auth.success (Auth.getUserData users rd (Auth.uid u)) = false
    /\ Auth.data (Auth.getUserData users rd (Auth.uid u)) = None.
Proof.
  intros Hmissing.
  assert (Hdata : Auth.getUserData users rd (Auth.uid u)
                  = Auth.mkUserData false None
                      (Auth.error (Auth.getUserData users rd (Auth.uid u)))).
  { unfold Auth.getUserData.
    destruct Hmissing as [[-> ->]|[e ->]]; reflexivity. }
  eexists. split.
  - unfold Auth.onAuthStateChanged. rewrite Hdata. cbn.
    unfold Auth.merged. cbn. rewrite (left_id_L ∅ (∪)). reflexivity.
  - rewrite Hdata. cbn. rewrite !dom_insert_L, dom_empty_L.
    split; [set_solver|].
    repeat split.
Qed.

Lemma auth_state_without_profile_witness :
  exists m,
    Auth.onAuthStateChanged ∅ Auth.Served (Some Samples.guest)
    = [ Auth.mkAuthState true (Some m) ]
    /\ dom m = ({[ "uid"; "email"; "displayName" ]} : gset string).
Proof.
  destruct (auth_state_without_profile ∅ Auth.Served Samples.guest)
    as (m & Hcall & Hdom & _).
  - left. split; reflexivity.
  - exists m. auto.
Defined.

(* ===================================================================== *)
(** * Further properties of the reservation form *)
(* ===================================================================== *)

Section FormFacts.




Lemma trimStart_empty s : JS.trimStart s = "" <-> Props.blank s = true.
Proof.
  unfold Props.blank. induction s as [|c s IH]; cbn; [tauto|].
  destruct (JS.isWhiteSpace c); cbn; [exact IH|]. split; discriminate.
Qed.

Lemma trimEnd_empty s : JS.trimEnd s = "" <-> Props.blank s = true.
Proof.
  unfold Props.blank. induction s as [|c s IH]; cbn; [tauto|].
  destruct (JS.trimEnd s) as [|c' t].
  - assert (Hs : JS.all JS.isWhiteSpace s = true) by (apply IH; reflexivity).
    rewrite Hs, andb_true_r. destruct (JS.isWhiteSpace c); split; congruence.
  - assert (Hs : JS.all JS.isWhiteSpace s = false).
    { destruct (JS.all JS.isWhiteSpace s); [|reflexivity].
      destruct IH as [_ IH]. discriminate (IH eq_refl). }
    rewrite Hs, andb_false_r. split; discriminate.
Qed.

Lemma blank_trimStart s : Props.blank (JS.trimStart s) = Props.blank s.
Proof.
  unfold Props.blank. induction s as [|c s IH]; cbn; [reflexivity|].
  destruct (JS.isWhiteSpace c) eqn:Hc; cbn; [exact IH|].
  rewrite Hc. reflexivity.
Qed.

Lemma trim_empty s : JS.trim s = "" <-> Props.blank s = true.
Proof. unfold JS.trim. rewrite trimEnd_empty, blank_trimStart. reflexivity. Qed.

Lemma orNull_trim s :
  (Intake.orNull (JS.trim s) = None <-> Props.blank s = true)
  /\ (forall e, Intake.orNull (JS.trim s) = Some e -> e <> "" /\ e = JS.trim s).
Proof.
  unfold Intake.orNull. rewrite <- trim_empty.
  destruct (JS.trim s) as [|c t]; cbn.
  - split; [tauto | discriminate].
  - split; [split; discriminate|]. intros e [= <-]. split; [discriminate|reflexivity].
Qed.

End FormFacts.



(** X2. The object the form writes holds [null], never the empty string,
    for an e-mail or special requests left empty or made of white space;
    what it holds otherwise is the field without the white space around
    it.  The name and the phone are stored trimmed (so a name of white
    space is stored as the empty string, and so is such a phone), the
    party size, the date and the time are stored as the fields hold
    them, and the status is "pending" whatever the form holds. *)
Theorem blank_optional_fields_are_null (f : Intake.Form) :
  (Firestore.customerEmail (Intake.formData f) = None
   <-> Props.blank (Intake.customer_email f) = true)
  /\ (forall e, Firestore.customerEmail (Intake.formData f) = Some e ->
        e <> "" /\ e = JS.trim (Intake.customer_email f))
  /\ (Firestore.specialRequests (Intake.formData f) = None
      <-> Props.blank (Intake.special_requests f) = true)
  /\ (forall e, Firestore.specialRequests (Intake.formData f) = Some e ->
        e <> "" /\ e = JS.trim (Intake.special_requests f))
  /\ (Firestore.customerName (Intake.formData f) = ""
      <-> Props.blank (Intake.customer_name f) = true)
  /\ Firestore.status (Intake.formData f) = "pending"
  /\ Firestore.customerName (Intake.formData f) = JS.trim (Intake.customer_name f)
  /\ Firestore.customerPhone (Intake.formData f) = JS.trim (Intake.customer_phone f)
  /\ (Firestore.customerPhone (Intake.formData f) = ""
      <-> Props.blank (Intake.customer_phone f) = true)
  /\ Firestore.partySize (Intake.formData f) = Intake.party_size f
  /\ Firestore.reservationDate (Intake.formData f) = Intake.reservation_date f
  /\ Firestore.reservationTime (Intake.formData f) = Intake.reservation_time f.
Proof.
  cbn.
  destruct (orNull_trim (Intake.customer_email f)) as [H1 H2].
  destruct (orNull_trim (Intake.special_requests f)) as [H3 H4].
  split; [exact H1|]. split; [exact H2|]. split; [exact H3|]. split; [exact H4|].
  split; [apply trim_empty|]. split; [reflexivity|].
  split; [reflexivity|]. split; [reflexivity|].
  split; [apply trim_empty|]. repeat split.
Qed.

Lemma blank_optional_fields_are_null_witness :
  Firestore.customerEmail (Intake.formData Cases.spaced) = None.
Proof.
  apply (proj1 (blank_optional_fields_are_null Cases.spaced)).
  reflexivity.
Defined.

(** X3. One write at most is on its way, in both versions of the script.
    On a page that was loaded and went through any history, while the
    listener waits for the answer to a write the submit button is
    disabled and no timer that would enable it is pending; a submit then
    changes nothing, and whatever the visitor does and whichever timers
    fire before the platform answers, no further write is sent and the
    button stays disabled. *)
Theorem one_write_in_flight
    (v : Intake.Variant) (env : Intake.Env) (dflt : Intake.Form) (widget : bool)
    (db0 : gmap string (Firestore.Reservation Z))
    (es es' : list Intake.Event)
    (d : Firestore.Reservation Firestore.FieldValue) :
  let w := Intake.run v env es (Intake.mkWorld (Intake.load dflt widget) db0 []) in
  Intake.awaiting (Intake.page w) = Some d ->
  Forall (fun e => Props.local e = true) es' ->
  Intake.submitDisabled (Intake.page w) = true
  /\ Intake.step v env Intake.Submit w = w
  /\ Intake.calls (Intake.run v env es' w) = Intake.calls w
  /\ Intake.awaiting (Intake.page (Intake.run v env es' w)) = Some d
  /\ Intake.submitDisabled (Intake.page (Intake.run v env es' w)) = true.
Proof.
  intros w HA Hes'.
  destruct (run_guarded v env es _ (load_guarded dflt widget db0)) as (G1 & G2 & G3).
  fold w in G1, G2, G3.
  destruct G2 as [HD Hk]; [rewrite HA; eauto|].
  assert (Hin : Props.inFlight d w) by (split; [|split]; assumption).
  destruct (run_inFlight v env d es' w Hes' Hin) as [(HD' & HA' & _) Hc].
  split; [exact HD|]. split; [cbn; rewrite HD; reflexivity|].
  split; [exact Hc|]. split; [exact HA' | exact HD'].
Qed.

Lemma one_write_in_flight_witness :
  Intake.calls
    (Intake.run Intake.InlineMessage Samples.ready
       [Intake.Submit; Intake.Fill Samples.asha; Intake.Submit; Intake.Fire 0%nat]
       (Intake.run Intake.InlineMessage Samples.ready
          [Intake.Fill Samples.asha; Intake.Submit] (Cases.loaded true)))
  = Intake.calls
      (Intake.run Intake.InlineMessage Samples.ready
         [Intake.Fill Samples.asha; Intake.Submit] (Cases.loaded true)).
Proof.
  refine (proj1 (proj2 (proj2
            (one_write_in_flight Intake.InlineMessage Samples.ready Samples.blank
               true ∅ [Intake.Fill Samples.asha; Intake.Submit]
               [Intake.Submit; Intake.Fill Samples.asha; Intake.Submit;
                Intake.Fire 0%nat]
               (Intake.formData Samples.asha) _ _)))).
  - vm_compute. reflexivity.
  - repeat constructor.
Defined.

Section WidgetFacts.
Import Intake.

Variable env : Env.

Lemma Forall_delete_timer (P : Timer -> Prop) (l : list Timer) n :
  Forall P l -> Forall P (base.delete n l).
Proof.
  intros H. apply Forall_forall. intros t Ht.
  rewrite Forall_forall in H. apply H.
  eapply list_elem_of_delete_inv, Ht.
Qed.

Lemma step_widgetless v e w : Props.widgetless w -> Props.widgetless (step v env e w).
Proof.
  intros W. pose proof W as (HW & HI & HT). destruct e as [f| |id a|n|].
  - exact W.
  - cbn. destruct (submitDisabled (page w)); [exact W|].
    unfold onSubmit. destruct (check env _); exact W.
  - cbn. unfold onSettled. destruct (awaiting (page w)) as [d|]; [|exact W].
    destruct (Firestore.add a id d (db w)) as [e|db1]; [exact W|].
    destruct v; unfold Props.widgetless; cbn.
    + split; [exact HW|]. split; [exact HI|].
      apply Forall_app. split; [exact HT | repeat constructor].
    + unfold showSuccessUI. cbn. rewrite HW. cbn. exact W.
  - cbn. destruct (timers (page w) !! n) as [t|] eqn:Hn; [|exact W].
    assert (Ht : Props.isReplaceWidget t = false).
    { rewrite Forall_forall in HT. apply HT. eapply list_elem_of_lookup_2, Hn. }
    destruct t; try discriminate; unfold Props.widgetless; cbn.
    + split; [exact HW|]. split; [exact HI|]. apply Forall_delete_timer, HT.
    + rewrite HW. cbn. split; [exact HW|]. split; [exact HI|].
      apply Forall_delete_timer, HT.
  - unfold Props.widgetless. cbn. rewrite HW. cbn. repeat split. constructor.
Qed.

Lemma run_widgetless v es w : Props.widgetless w -> Props.widgetless (run v env es w).
Proof.
  revert w. induction es as [|e es IH]; intros w Hw; [exact Hw|].
  apply IH, step_widgetless, Hw.
Qed.

Lemma step_silent e w :
  Spec.isReload e = false -> Props.silent w ->
  Props.silent (step SuccessView env e w)
  /\ calls (step SuccessView env e w) = calls w.
Proof.
  intros He S. pose proof S as (W & HM & HD & HA & Hk).
  split; [split; [apply step_widgetless, W|] |].
  - destruct e as [f| |id a|n|]; try discriminate.
    + exact (proj2 S).
    + cbn. rewrite HD. exact (proj2 S).
    + cbn. unfold onSettled. rewrite HA. exact (proj2 S).
    + cbn. destruct (timers (page w) !! n) as [t|] eqn:Hn; [|exact (proj2 S)].
      pose proof (reEnables_fire n t w Hn) as Hfire.
      set (w' := mkWorld (fire t (dropTimer n (page w))) (db w) (calls w)) in *.
      assert (HA' : awaiting (page w') = awaiting (page w)) by apply fire_awaiting.
      rewrite HA'. destruct W as (HW & _ & HT).
      assert (Ht : Props.isReplaceWidget t = false).
      { rewrite Forall_forall in HT. apply HT. eapply list_elem_of_lookup_2, Hn. }
      destruct t; try discriminate; cbn [Props.isReEnable] in Hfire; [lia|].
      assert (HM' : messageHidden (page w') = messageHidden (page w))
        by (unfold w'; cbn; rewrite HW; reflexivity).
      assert (HD' : submitDisabled (page w') = submitDisabled (page w))
        by (unfold w'; cbn; rewrite HW; reflexivity).
      rewrite HM', HD'.
      split; [exact HM|]. split; [exact HD|]. split; [exact HA | lia].
  - destruct e as [f| |id a|n|]; try discriminate; cbn.
    + reflexivity.
    + rewrite HD. reflexivity.
    + unfold onSettled. rewrite HA. reflexivity.
    + destruct (timers (page w) !! n); reflexivity.
Qed.

Lemma run_silent es w :
  Forall (fun e => Spec.isReload e = false) es -> Props.silent w ->
  Props.silent (run SuccessView env es w)
  /\ calls (run SuccessView env es w) = calls w.
Proof.
  intros H. revert w. induction H as [|e es He _ IH]; intros w Hw; [auto|].
  destruct (step_silent e w He Hw) as [Hw' Hc].
  destruct (IH _ Hw') as [Hw'' Hc'].
  split; [exact Hw''|]. rewrite run_cons, Hc'. exact Hc.
Qed.

Lemma step_defaults v e w : defaults (page (step v env e w)) = defaults (page w).
Proof.
  destruct e as [f| |id a|n|]; cbn; try reflexivity.
  - destruct (submitDisabled (page w)); [reflexivity|].
    unfold onSubmit. destruct (check env _); reflexivity.
  - unfold onSettled. destruct (awaiting (page w)) as [d|]; [|reflexivity].
    destruct (Firestore.add a id d (db w)); [reflexivity|].
    destruct v; cbn; [reflexivity|].
    unfold showSuccessUI. cbn. destruct (bookingWidget (page w)); reflexivity.
  - destruct (timers (page w) !! n) as [t|]; [|reflexivity].
    destruct t; cbn; try reflexivity.
    destruct (bookingWidget (page w)) as [[|?]|]; reflexivity.
Qed.

Lemma run_defaults v es w : defaults (page (run v env es w)) = defaults (page w).
Proof.
  revert w. induction es as [|e es IH]; intros w; [reflexivity|].
  rewrite run_cons, IH. apply step_defaults.
Qed.

End WidgetFacts.

(** X4. [showSuccessUI] returns at once on a page without
    [.booking-widget]: in that version of the script, once a write is
    committed the inline message is hidden, the form is reset, no success
    view is ever shown and no timer is started; the button stays disabled,
    so until the page is reset the visitor is told nothing and can send
    nothing. *)
Theorem success_view_needs_the_widget
    (env : Intake.Env) (dflt : Intake.Form)
    (db0 : gmap string (Firestore.Reservation Z))
    (es es' : list Intake.Event)
    (d : Firestore.Reservation Firestore.FieldValue) (id : string) (t : Z) :
  let w := Intake.run Intake.SuccessView env es
             (Intake.mkWorld (Intake.load dflt false) db0 []) in
  let w1 := Intake.step Intake.SuccessView env
              (Intake.Settled id (Firestore.Commit t)) w in
  Intake.awaiting (Intake.page w) = Some d ->
  Forall (fun e => Spec.isReload e = false) es' ->
  Intake.db w1 = <[id := Firestore.stored t d]> (Intake.db w)
  /\ Intake.form (Intake.page w1) = dflt
  /\ Intake.timers (Intake.page w1) = Intake.timers (Intake.page w)
  /\ Intake.messageHidden (Intake.page (Intake.run Intake.SuccessView env es' w1)) = true
  /\ Intake.bookingWidget (Intake.page (Intake.run Intake.SuccessView env es' w1)) = None
  /\ Intake.submitDisabled (Intake.page (Intake.run Intake.SuccessView env es' w1)) = true
  /\ Intake.calls (Intake.run Intake.SuccessView env es' w1) = Intake.calls w.
Proof.
  intros w w1 HA Hes'.
  assert (W : Props.widgetless w).
  { apply run_widgetless. unfold Props.widgetless. cbn. repeat split. constructor. }
  destruct (run_guarded Intake.SuccessView env es _ (load_guarded dflt false db0))
    as (_ & G2 & _).
  fold w in G2. destruct G2 as [HD Hk]; [rewrite HA; eauto|].
  pose proof W as (HW & HI & HT).
  assert (Hdef : Intake.defaults (Intake.page w) = dflt)
    by (unfold w; rewrite run_defaults; reflexivity).
  clearbody w.
  assert (Hw1 : w1 = Intake.mkWorld
                       (Intake.reset (Intake.hideMessage
                                        (Intake.await None (Intake.page w))))
                       (<[id := Firestore.stored t d]> (Intake.db w))
                       (Intake.calls w)).
  { unfold w1. cbn [Intake.step]. unfold Intake.onSettled. rewrite HA.
    cbn [Firestore.add].
    unfold Intake.success, Intake.successView, Intake.showSuccessUI.
    cbn [Intake.bookingWidget Intake.hideMessage Intake.await].
    rewrite HW. reflexivity. }
  clearbody w1.
  assert (S1 : Props.silent w1).
  { rewrite Hw1. unfold Props.silent, Props.widgetless, Props.reEnables. cbn.
    repeat split; assumption. }
  destruct (run_silent env es' w1 Hes' S1) as [((HW' & _) & HM' & HD' & _) Hc].
  split; [rewrite Hw1; reflexivity|].
  split; [rewrite Hw1; cbn; exact Hdef|].
  split; [rewrite Hw1; reflexivity|].
  split; [exact HM'|]. split; [exact HW'|]. split; [exact HD'|].
  rewrite Hc, Hw1. reflexivity.
Qed.

Lemma success_view_needs_the_widget_witness :
  Intake.bookingWidget
    (Intake.page
       (Intake.run Intake.SuccessView Samples.ready
          [Intake.Fire 0%nat; Intake.Submit]
          (Intake.step Intake.SuccessView Samples.ready
             (Intake.Settled "r1" (Firestore.Commit 1767940201000))
             (Intake.run Intake.SuccessView Samples.ready
                [Intake.Fill Samples.asha; Intake.Submit] (Cases.loaded false)))))
  = None.
Proof.
  refine (proj1 (proj2 (proj2 (proj2 (proj2
            (success_view_needs_the_widget Samples.ready Samples.blank ∅
               [Intake.Fill Samples.asha; Intake.Submit]
               [Intake.Fire 0%nat; Intake.Submit]
               (Intake.formData Samples.asha) "r1" 1767940201000 _ _)))))).
  - vm_compute. reflexivity.
  - repeat constructor.
Defined.

(* ===================================================================== *)
(** * Further properties of the notification trigger *)
(* ===================================================================== *)

(** X5. The trigger never creates or deletes a document and never touches
    a document other than the one of the event; of that one it changes
    [emailError] and [emailErrorTimestamp] at most.  It sends one update at
    most, and none at all unless it ends by throwing. *)
Theorem trigger_touches_only_the_error_fields
    (m : Trigger.Mail) (a : Firestore.Answer) (ev : Trigger.Event)
    (db : gmap string (Firestore.Reservation Z)) :
  let out := Trigger.sendReservationEmails m a ev db in
  dom (Trigger.db' out) = dom db
  /\ (forall j r, db !! j = Some r ->
        exists r', Trigger.db' out !! j = Some r'
          /\ (j <> Trigger.reservationId ev -> r' = r)
          /\ Firestore.customerName r' = Firestore.customerName r
          /\ Firestore.customerPhone r' = Firestore.customerPhone r
          /\ Firestore.customerEmail r' = Firestore.customerEmail r
          /\ Firestore.partySize r' = Firestore.partySize r
          /\ Firestore.reservationDate r' = Firestore.reservationDate r
          /\ Firestore.reservationTime r' = Firestore.reservationTime r
          /\ Firestore.specialRequests r' = Firestore.specialRequests r
          /\ Firestore.status r' = Firestore.status r
          /\ Firestore.createdAt r' = Firestore.createdAt r
          /\ Firestore.updatedAt r' = Firestore.updatedAt r)
  /\ (length (Trigger.updates out) <= 1)%nat
  /\ (forall i p, (i, p) ∈ Trigger.updates out ->
        i = Trigger.reservationId ev
        /\ exists text, p = Firestore.EmailErrorPatch text Firestore.serverTimestamp)
  /\ ((forall e, Trigger.result out <> Trigger.Thrown e) ->
      Trigger.db' out = db /\ Trigger.updates out = []).
Proof.
  intros out. unfold out, Trigger.sendReservationEmails.
  assert (Hsame : forall j r, db !! j = Some r ->
            exists r', db !! j = Some r'
              /\ (j <> Trigger.reservationId ev -> r' = r)
              /\ Firestore.customerName r' = Firestore.customerName r
              /\ Firestore.customerPhone r' = Firestore.customerPhone r
              /\ Firestore.customerEmail r' = Firestore.customerEmail r
              /\ Firestore.partySize r' = Firestore.partySize r
              /\ Firestore.reservationDate r' = Firestore.reservationDate r
              /\ Firestore.reservationTime r' = Firestore.reservationTime r
              /\ Firestore.specialRequests r' = Firestore.specialRequests r
              /\ Firestore.status r' = Firestore.status r
              /\ Firestore.createdAt r' = Firestore.createdAt r
              /\ Firestore.updatedAt r' = Firestore.updatedAt r).
  { intros j r Hr. exists r. repeat split; auto. }
  destruct (Trigger.data ev) as [reservation|]; cbn.
  2:{ split; [reflexivity|]. split; [exact Hsame|]. split; [lia|].
      split; [intros i p Hin; inversion Hin | auto]. }
  destruct (Trigger.Promise_all m _) as [error|]; cbn.
  2:{ split; [reflexivity|]. split; [exact Hsame|]. split; [lia|].
      split; [intros i p Hin; inversion Hin | auto]. }
  assert (Hup : forall i p,
            (i, p) ∈ [(Trigger.reservationId ev,
                        Firestore.EmailErrorPatch (JS.message error)
                          Firestore.serverTimestamp)] ->
            i = Trigger.reservationId ev
            /\ exists text, p = Firestore.EmailErrorPatch text Firestore.serverTimestamp).
  { intros i p Hin%list_elem_of_singleton. injection Hin as -> ->. eauto. }
  unfold Firestore.update. destruct a as [t|e]; cbn.
  2:{ split; [reflexivity|]. split; [exact Hsame|]. split; [lia|].
      split; [exact Hup|]. intros H. destruct (H e eq_refl). }
  destruct (db !! Trigger.reservationId ev) as [r0|] eqn:Hr0; cbn.
  2:{ split; [reflexivity|]. split; [exact Hsame|]. split; [lia|].
      split; [exact Hup|]. intros H. destruct (H _ eq_refl). }
  split; [apply dom_insert_lookup_L; eauto|].
  split; [|split; [lia|split; [exact Hup|]]].
  - intros j r Hr. destruct (decide (j = Trigger.reservationId ev)) as [->|Hne].
    + rewrite lookup_insert_eq. eexists. split; [reflexivity|].
      assert (r = r0) as -> by congruence. cbn. repeat split. congruence.
    + rewrite lookup_insert_ne by congruence. exists r. repeat split; auto.
  - intros H. destruct (H _ eq_refl).
Qed.

(** X6. When a dispatch fails and the update that should record it fails
    as well (the platform rejects it, or the document is gone), every
    message was still handed to the mail provider, the collection is
    unchanged, and the error the trigger throws is the one of the update:
    the failure of the dispatch is recorded nowhere. *)
Theorem trigger_update_failure_hides_mail_error
    (m : Trigger.Mail) (a : Firestore.Answer) (id : string)
    (r : Firestore.Reservation Z) (db : gmap string (Firestore.Reservation Z)) :
  (exists msg, msg ∈ Trigger.messages r id /\ Trigger.send m msg <> None) ->
  (db !! id = None \/ exists e, a = Firestore.Reject e) ->
  let out := Trigger.sendReservationEmails m a (Trigger.mkEvent (Some r) id) db in
  Trigger.sent out = Trigger.messages r id
  /\ Trigger.db' out = db
  /\ Trigger.result out
     = Trigger.Thrown (match a with
                       | Firestore.Reject e => e
                       | Firestore.Commit _ => Firestore.notFound
                       end).
Proof.
  intros (msg & Hin & Hfail) Hstore out.
  unfold out, Trigger.sendReservationEmails.
  cbn [Trigger.data Trigger.reservationId].
  destruct (Trigger.Promise_all m (Trigger.messages r id)) as [error|] eqn:Hall.
  2:{ exfalso. apply Hfail. eapply Promise_all_None; eauto. }
  unfold Firestore.update. destruct a as [t|e]; cbn.
  - destruct Hstore as [Hnone|[e [=]]]. rewrite Hnone. auto.
  - auto.
Qed.

Lemma trigger_update_failure_hides_mail_error_witness :
  Trigger.result
    (Trigger.sendReservationEmails Samples.mailDown
       (Firestore.Commit 1767940202000)
       (Trigger.mkEvent (Some (Samples.booking "pending" None)) "r1") ∅)
  = Trigger.Thrown Firestore.notFound.
Proof.
  refine (proj2 (proj2
            (trigger_update_failure_hides_mail_error Samples.mailDown
               (Firestore.Commit 1767940202000) "r1"
               (Samples.booking "pending" None) ∅ _ _))).
  - exists (Trigger.sendManagerNotification "neilbiswas13@gmail.com"
              (Samples.booking "pending" None) "r1").
    split; [right; left | discriminate].
  - left. reflexivity.
Defined.

(** X7. For a document written by the form and committed at any time, the
    trigger sends the customer message exactly when the e-mail field of
    the form held something other than white space, and then to that text
    without the white space around it: it sends three messages then, and
    two otherwise. *)
Theorem customer_mail_iff_email_entered
    (f : Intake.Form) (t : Z) (id : string) :
  let r := Firestore.stored t (Intake.formData f) in
  (Trigger.sendCustomerConfirmation r ∈ Trigger.messages r id
   <-> Props.blank (Intake.customer_email f) = false)
  /\ length (Trigger.messages r id)
     = (if Props.blank (Intake.customer_email f) then 2 else 3)%nat
  /\ (Props.blank (Intake.customer_email f) = false ->
      Trigger.to (Trigger.sendCustomerConfirmation r)
      = Some (JS.trim (Intake.customer_email f)))
  /\ Firestore.status r = "pending"
  /\ Firestore.emailError r = None.
Proof.
  intros r.
  destruct (orNull_trim (Intake.customer_email f)) as [Hnone Hsome].
  assert (Hmail : Firestore.customerEmail r
                  = Intake.orNull (JS.trim (Intake.customer_email f)))
    by reflexivity.
  assert (Hcases :
            (Props.blank (Intake.customer_email f) = true
             /\ Firestore.customerEmail r = None)
            \/ (Props.blank (Intake.customer_email f) = false
                /\ Firestore.customerEmail r
                   = Some (JS.trim (Intake.customer_email f))
                /\ JS.trim (Intake.customer_email f) <> "")).
  { rewrite Hmail.
    remember (Intake.orNull (JS.trim (Intake.customer_email f))) as o eqn:Ho.
    destruct o as [e|].
    - right. destruct (Hsome e eq_refl) as [Hne He]. subst e.
      split; [|split; [reflexivity | exact Hne]].
      destruct (Props.blank (Intake.customer_email f)); [|reflexivity].
      destruct Hnone as [_ Hnone]. discriminate (Hnone eq_refl).
    - left. split; [apply Hnone|]; reflexivity. }
  assert (Hpresent : Trigger.present (Firestore.customerEmail r)
                     = negb (Props.blank (Intake.customer_email f))).
  { destruct Hcases as [[-> ->]|(-> & -> & Hne)]; [reflexivity|].
    cbn. destruct (JS.trim (Intake.customer_email f)); [congruence | reflexivity]. }
  split; [|split; [|split; [|split; reflexivity]]].
  - rewrite customer_in_messages, Hpresent.
    destruct (Props.blank (Intake.customer_email f)); cbn; split; congruence.
  - unfold Trigger.messages. rewrite length_app, Hpresent.
    destruct (Props.blank (Intake.customer_email f)); reflexivity.
  - intros Hb. cbn [Trigger.to Trigger.sendCustomerConfirmation].
    destruct Hcases as [[Hb' _]|(_ & -> & _)]; [congruence | reflexivity].
Qed.

Lemma customer_mail_iff_email_entered_witness :
  Trigger.to (Trigger.sendCustomerConfirmation
                (Firestore.stored 1767940201000 (Intake.formData Cases.withMail)))
  = Some (JS.trim (Intake.customer_email Cases.withMail)).
Proof.
  apply (proj1 (proj2 (proj2
           (customer_mail_iff_email_entered Cases.withMail 1767940201000 "r1")))).
  reflexivity.
Defined.

(* ===================================================================== *)
(** * Further properties of the admin console *)
(* ===================================================================== *)

Section ConsoleFacts.
Import Firestore Admin.

Lemma filter_all_true {A} (p : A -> bool) (l : list A) :
  (forall x, p x = true) -> List.filter p l = l.
Proof.
  intros H. induction l as [|x l IH]; cbn; [reflexivity|].
  rewrite H, IH. reflexivity.
Qed.

Lemma keep_cleared r : keep Dashboard.cleared r = true.
Proof. reflexivity. Qed.

Lemma app_assoc_string a b c : (a +:+ b) +:+ c = a +:+ (b +:+ c).
Proof.
  induction a as [|x a IH]; [reflexivity|].
  rewrite !app_cons, IH. reflexivity.
Qed.

Lemma substring_trans a b c :
  Spec.substring a b -> Spec.substring b c -> Spec.substring a c.
Proof.
  intros (p & s & ->) (p' & s' & ->).
  exists (p' +:+ p), (s +:+ s').
  rewrite !app_assoc_string. reflexivity.
Qed.

Lemma substring_of_empty q : Spec.substring q "" -> q = "".
Proof.
  intros (pre & post & H). destruct pre; [|discriminate].
  destruct q; [reflexivity | discriminate].
Qed.

(** Only two facts about [toLowerCase] are used: it is applied to both
    texts, and it gives the empty string for the empty string alone. *)
Lemma included_narrows st dt q1 q2 r :
  Spec.substring_ci q1 q2 ->
  Spec.included (mkFilters st dt q2) r -> Spec.included (mkFilters st dt q1) r.
Proof.
  unfold Spec.substring_ci.
  intros Hsub (Hs & Hd & Hq). split; [exact Hs|]. split; [exact Hd|].
  cbn [search_input] in *. destruct Hq as [->|Hq].
  - left. apply toLowerCase_empty, substring_of_empty, Hsub.
  - right. unfold Spec.substring_ci in *.
    eapply substring_trans; [exact Hsub | exact Hq].
Qed.

End ConsoleFacts.

(** X8. [clearFilters] shows every reservation again, in the order of
    [allReservations], whatever filters were applied before; the table is
    replaced by the notice of no reservations only when there is none at
    all. *)
Theorem clearing_filters_shows_every_reservation
    (fl : Admin.Filters) (c : Admin.Console) :
  fst (Dashboard.clearFilters (Admin.applyFilters fl c)) = Admin.mkFilters "all" "" ""
  /\ Admin.filteredReservations (snd (Dashboard.clearFilters (Admin.applyFilters fl c)))
     = Admin.allReservations c
  /\ (Dashboard.renderReservations (snd (Dashboard.clearFilters (Admin.applyFilters fl c)))
      = Dashboard.NoReservations
      <-> Admin.allReservations c = [])
  /\ Admin.modal (snd (Dashboard.clearFilters (Admin.applyFilters fl c)))
     = Admin.modal c.
Proof.
  split; [reflexivity|].
  assert (H : Admin.filteredReservations
                (snd (Dashboard.clearFilters (Admin.applyFilters fl c)))
              = Admin.allReservations c).
  { cbn. apply filter_all_true, keep_cleared. }
  split; [exact H|]. split; [|reflexivity].
  unfold Dashboard.renderReservations. rewrite H.
  destruct (Admin.allReservations c); split; congruence.
Qed.

(** X9. Narrowing of the view: with the status and date filters
    unchanged, every reservation shown for a search text is shown for
    each text whose lower-case form occurs in the lower-case form of that
    text (the comparison the console itself makes, so no property of
    [toLowerCase] beyond that is relied on); the view for a status is part
    of the view for "all", the view for a date part of the view for no
    date, and the view for a search text part of the view for none. *)
Theorem longer_search_narrows
    (st dt q1 q2 : string) (c : Admin.Console) (r : Admin.Row) :
  Spec.substring (JS.toLowerCase q1) (JS.toLowerCase q2) ->
  r ∈ Admin.filteredReservations (Admin.applyFilters (Admin.mkFilters st dt q2) c) ->
  r ∈ Admin.filteredReservations (Admin.applyFilters (Admin.mkFilters st dt q1) c)
  /\ r ∈ Admin.filteredReservations (Admin.applyFilters (Admin.mkFilters "all" dt q1) c)
  /\ r ∈ Admin.filteredReservations (Admin.applyFilters (Admin.mkFilters st "" q1) c)
  /\ r ∈ Admin.filteredReservations (Admin.applyFilters (Admin.mkFilters st dt "") c).
Proof.
  intros Hsub Hin. cbn in *.
  rewrite list_elem_of_In, filter_In, <- list_elem_of_In, keep_included in Hin.
  destruct Hin as [Hall Hinc].
  pose proof (included_narrows st dt q1 q2 r Hsub Hinc) as H1.
  rewrite !list_elem_of_In, !filter_In, <- !list_elem_of_In, !keep_included.
  destruct H1 as (Hs & Hd & Hq).
  repeat split; auto; cbn; auto.
Qed.

Lemma longer_search_narrows_witness :
  Samples.rao
  ∈ Admin.filteredReservations
      (Admin.applyFilters (Admin.mkFilters "pending" "" "Ra") Samples.desk).
Proof.
  refine (proj1 (longer_search_narrows "pending" "" "Ra" "rAO 98" Samples.desk
                   Samples.rao _ _)).
  - exists "", "o 98". reflexivity.
  - left.
Defined.

(** X10. The buttons of the modal are made once, when it opens: a later
    snapshot replaces the lists and leaves the modal as it is.  And
    [updateReservationStatus] writes the status it is given over whatever
    status the stored document has by then.  So a button made for a
    reservation still sets its status after the reservation has changed:
    the stored status becomes the one of the button, [updatedAt] the time
    of the commit, and the modal closes. *)
Theorem modal_buttons_outlive_snapshots
    (c : Admin.Console) (i s : string) (ctls : list Admin.Control)
    (ctl : Admin.Control) (snapshot : list Admin.Row)
    (db : gmap string (Firestore.Reservation Z)) (ws : list Admin.Write)
    (r : Firestore.Reservation Z) (accepted : bool) (t : Z) :
  Admin.modal (Admin.showReservationDetails i c) = Some ctls ->
  ctl ∈ ctls ->
  Admin.onclick ctl = Admin.UpdateStatus i s ->
  db !! i = Some r ->
  let c1 := Admin.onSnapshot snapshot (Admin.showReservationDetails i c) in
  let w' := Admin.click accepted (Firestore.Commit t) ctl (Admin.mkWorld c1 db ws) in
  Admin.allReservations c1 = snapshot
  /\ Admin.modal c1 = Some ctls
  /\ (exists r', Admin.db w' !! i = Some r'
        /\ Firestore.status r' = s
        /\ Firestore.updatedAt r' = t
        /\ Firestore.createdAt r' = Firestore.createdAt r)
  /\ Admin.modal (Admin.console w') = None
  /\ Admin.allReservations (Admin.console w') = snapshot.
Proof.
  intros Hmodal Hin Hclick Hr c1 w'.
  split; [reflexivity|]. split; [exact Hmodal|].
  unfold w', Admin.click. rewrite Hclick.
  unfold Admin.updateReservationStatus, Firestore.update. cbn.
  rewrite Hr. cbn. rewrite lookup_insert_eq.
  split; [eexists; split; [reflexivity|]; cbn; auto|].
  split; reflexivity.
Qed.

Lemma modal_buttons_outlive_snapshots_witness :
  exists r',
    Admin.db (Admin.click false (Firestore.Commit 1767940206000)
                Cases.confirmButton Cases.officeCancelled) !! "r1" = Some r'
    /\ Firestore.status r' = "confirmed".
Proof.
  destruct (modal_buttons_outlive_snapshots Samples.desk "r1" "confirmed"
              (Admin.modalActions Samples.rao) Cases.confirmButton
              [Cases.cancelledRao] {[ "r1" := Admin.doc Cases.cancelledRao ]} []
              (Admin.doc Cases.cancelledRao) false 1767940206000)
    as (_ & _ & (r' & Hlook & Hst & _) & _).
  - reflexivity.
  - left.
  - reflexivity.
  - reflexivity.
  - exists r'. split; [exact Hlook | exact Hst].
Defined.

(** X11. When the update of a status fails (the platform rejects it, or no
    document has the identifier), the collection is unchanged, the modal
    stays as it was, the lists are untouched, and the operator gets one
    alert: "Error updating reservation: " followed by the message of the
    error. *)
Theorem status_update_failure_changes_nothing
    (a : Firestore.Answer) (i s : string) (w : Admin.World) :
  (Admin.db w !! i = None \/ exists e, a = Firestore.Reject e) ->
  let w' := Admin.updateReservationStatus a i s w in
  Admin.db w' = Admin.db w
  /\ Admin.modal (Admin.console w') = Admin.modal (Admin.console w)
  /\ Admin.allReservations (Admin.console w') = Admin.allReservations (Admin.console w)
  /\ Admin.filteredReservations (Admin.console w')
     = Admin.filteredReservations (Admin.console w)
  /\ Admin.alerts (Admin.console w')
     = Admin.alerts (Admin.console w)
       ++ ["Error updating reservation: "
           +:+ JS.message (match a with
                           | Firestore.Reject e => e
                           | Firestore.Commit _ => Firestore.notFound
                           end)]
  /\ Admin.writes w'
     = Admin.writes w
       ++ [Admin.Update i (Firestore.StatusPatch s Firestore.serverTimestamp)].
Proof.
  intros Hfail w'. unfold w', Admin.updateReservationStatus, Firestore.update.
  cbv zeta. destruct a as [t|e].
  - destruct Hfail as [Hnone|[e [=]]]. rewrite Hnone. cbn. repeat split.
  - cbn. repeat split.
Qed.

Lemma status_update_failure_changes_nothing_witness :
  Admin.db (Admin.updateReservationStatus (Firestore.Commit 1767940206000)
              "r9" "confirmed" Samples.office)
  = Admin.db Samples.office.
Proof.
  refine (proj1 (status_update_failure_changes_nothing
                   (Firestore.Commit 1767940206000) "r9" "confirmed"
                   Samples.office _)).
  left. reflexivity.
Defined.

(** X12. [deleteReservation] does nothing at all, and sends nothing, when
    the operator declines the dialog.  When the operator accepts and the
    platform commits, the document of that identifier is gone, every
    other document is as before, the modal closes, and the lists of the
    console still hold the reservation (they change with the next
    snapshot only); when the platform rejects, the collection and the
    modal are as before. *)
Theorem delete_asks_first_and_removes_one_document
    (a : Firestore.Answer) (i : string) (w : Admin.World) :
  Admin.deleteReservation false a i w = w
  /\ Admin.writes (Admin.deleteReservation true a i w)
     = Admin.writes w ++ [Admin.Delete i]
  /\ Admin.allReservations (Admin.console (Admin.deleteReservation true a i w))
     = Admin.allReservations (Admin.console w)
  /\ (forall t, a = Firestore.Commit t ->
        Admin.db (Admin.deleteReservation true a i w) !! i = None
        /\ (forall j, j <> i ->
              Admin.db (Admin.deleteReservation true a i w) !! j = Admin.db w !! j)
        /\ dom (Admin.db (Admin.deleteReservation true a i w))
           = dom (Admin.db w) ∖ {[ i ]}
        /\ Admin.modal (Admin.console (Admin.deleteReservation true a i w)) = None)
  /\ (forall e, a = Firestore.Reject e ->
        Admin.db (Admin.deleteReservation true a i w) = Admin.db w
        /\ Admin.modal (Admin.console (Admin.deleteReservation true a i w))
           = Admin.modal (Admin.console w)
        /\ Admin.alerts (Admin.console (Admin.deleteReservation true a i w))
           = Admin.alerts (Admin.console w)
             ++ ["Error deleting reservation: " +:+ JS.message e]).
Proof.
  split; [reflexivity|].
  unfold Admin.deleteReservation, Firestore.delete. cbn [negb].
  destruct a as [t|e]; cbn.
  - split; [reflexivity|]. split; [reflexivity|]. split; [|intros e [=]].
    intros t' _. split; [apply lookup_delete_eq|].
    split; [intros j Hj; apply lookup_delete_ne; congruence|].
    split; [apply dom_delete_L | reflexivity].
  - split; [reflexivity|]. split; [reflexivity|]. split; [intros t [=]|].
    intros e' [= <-]. repeat split.
Qed.

Lemma delete_asks_first_and_removes_one_document_witness :
  Admin.db (Admin.deleteReservation true (Firestore.Commit 1767940206000)
              "r1" Samples.office) !! "r1" = None.
Proof.
  refine (proj1 (proj1 (proj2 (proj2 (proj2
            (delete_asks_first_and_removes_one_document
               (Firestore.Commit 1767940206000) "r1" Samples.office))))
            1767940206000 _)).
  reflexivity.
Defined.

Section StatsFacts.
Import Firestore Admin.

Lemma filter_length_le {A} (p : A -> bool) (l : list A) :
  (length (List.filter p l) <= length l)%nat.
Proof.
  induction l as [|x l IH]; cbn; [lia|]. destruct (p x); cbn; lia.
Qed.

Lemma status_partition (l : list Row) :
  (length (List.filter (fun r => bool_decide (status (doc r) = "pending")) l)
   + length (List.filter (fun r => bool_decide (status (doc r) = "confirmed")) l)
   + length (List.filter Props.otherStatus l))%nat
  = length l.
Proof.
  induction l as [|x l IH]; [reflexivity|]. cbn. unfold Props.otherStatus at 1.
  destruct (decide (status (doc x) = "pending")) as [Hp|Hp].
  - rewrite (bool_decide_eq_true_2 _ Hp).
    assert (Hc : status (doc x) <> "confirmed") by (rewrite Hp; discriminate).
    rewrite (bool_decide_eq_false_2 _ Hc). cbn. lia.
  - rewrite (bool_decide_eq_false_2 _ Hp).
    destruct (decide (status (doc x) = "confirmed")) as [Hc|Hc].
    + rewrite (bool_decide_eq_true_2 _ Hc). cbn. lia.
    + rewrite (bool_decide_eq_false_2 _ Hc). cbn. lia.
Qed.

Lemma afterAuth_snoc us u s :
  Props.afterAuth (us ++ [u]) s = Dashboard.authStateChanged u (Props.afterAuth us s).
Proof. unfold Props.afterAuth. rewrite foldl_app. reflexivity. Qed.

End StatsFacts.

(** X13. The numbers of [updateStats] count [allReservations], not the
    filtered view: filters do not change them.  The total is the pending
    plus the confirmed plus the reservations of any other status
    (cancelled ones among them), and the number for today is the total at
    most. *)
Theorem stats_count_all_reservations
    (today : string) (fl : Admin.Filters) (c : Admin.Console) :
  Dashboard.updateStats today (Admin.applyFilters fl c) = Dashboard.updateStats today c
  /\ (Dashboard.stat_pending (Dashboard.updateStats today c)
      + Dashboard.stat_confirmed (Dashboard.updateStats today c)
      + length (List.filter Props.otherStatus (Admin.allReservations c)))%nat
     = Dashboard.stat_total (Dashboard.updateStats today c)
  /\ (Dashboard.stat_today (Dashboard.updateStats today c)
      <= Dashboard.stat_total (Dashboard.updateStats today c))%nat
  /\ Dashboard.stat_total (Dashboard.updateStats today c)
     = length (Admin.allReservations c).
Proof.
  split; [reflexivity|]. split; [apply status_partition|].
  split; [apply filter_length_le | reflexivity].
Qed.

(** X14. Every change of the authentication state that carries a user
    opens the dashboard and subscribes once more to the collection; a
    sign-out shows the login screen.  No change of the authentication
    state clears the reservations held by the page, and a sign-out leaves
    [currentUser] as it was. *)
Theorem auth_changes_subscribe_and_keep_data
    (us : list (option Auth.User)) (s : Dashboard.Screen) :
  Admin.listeners (Dashboard.console (Props.afterAuth us s))
  = (Admin.listeners (Dashboard.console s) + length (omap id us))%nat
  /\ Admin.allReservations (Dashboard.console (Props.afterAuth us s))
     = Admin.allReservations (Dashboard.console s)
  /\ Admin.filteredReservations (Dashboard.console (Props.afterAuth us s))
     = Admin.filteredReservations (Dashboard.console s)
  /\ Dashboard.currentUser (Props.afterAuth us s)
     = match last (omap id us) with
       | Some u => Some u
       | None => Dashboard.currentUser s
       end
  /\ (forall us' u, us = us' ++ [u] ->
        Dashboard.dashboardShown (Props.afterAuth us s) = bool_decide (is_Some u)
        /\ Dashboard.loginShown (Props.afterAuth us s) = negb (bool_decide (is_Some u))).
Proof.
  split; [|split; [|split; [|split]]].
  - induction us as [|u us IH] using rev_ind; [cbn; lia|].
    rewrite afterAuth_snoc, omap_app, length_app.
    destruct u as [u|]; cbn in *; rewrite IH; lia.
  - induction us as [|u us IH] using rev_ind; [reflexivity|].
    rewrite afterAuth_snoc. destruct u; cbn; exact IH.
  - induction us as [|u us IH] using rev_ind; [reflexivity|].
    rewrite afterAuth_snoc. destruct u; cbn; exact IH.
  - induction us as [|u us IH] using rev_ind; [reflexivity|].
    rewrite afterAuth_snoc, omap_app. destruct u as [u|]; cbn.
    + rewrite last_snoc. reflexivity.
    + rewrite app_nil_r. exact IH.
  - intros us' u ->. rewrite afterAuth_snoc. destruct u; split; reflexivity.
Qed.

Lemma auth_changes_subscribe_and_keep_data_witness :
  Dashboard.dashboardShown
    (Props.afterAuth [Some Samples.guest; None]
       (Dashboard.mkScreen Samples.desk None true false "")) = false.
Proof.
  destruct (auth_changes_subscribe_and_keep_data [Some Samples.guest; None]
              (Dashboard.mkScreen Samples.desk None true false ""))
    as (_ & _ & _ & _ & H).
  destruct (H [Some Samples.guest] None eq_refl) as [Hd _].
  exact Hd.
Defined.

(* ===================================================================== *)
(** * Properties of the authentication service *)
(* ===================================================================== *)

Section GatewayFacts.
Import Auth Gateway.

Lemma newProfile_dom i e n t :
  dom (newProfile i e n t)
  = ({[ "uid"; "email"; "displayName"; "createdAt"; "updatedAt"; "role";
        "reservations"; "preferences" ]} : gset string).
Proof.
  unfold newProfile. rewrite !dom_insert_L, dom_empty_L. set_solver.
Qed.

Lemma lookup_union_cases (a b : gmap string Value) k :
  (a ∪ b) !! k = match a !! k with
                 | Some x => Some x
                 | None => b !! k
                 end.
Proof.
  destruct (a !! k) as [x|] eqn:Ha.
  - apply lookup_union_Some_l, Ha.
  - rewrite lookup_union_r; [reflexivity | exact Ha].
Qed.

End GatewayFacts.

(** X15. When the provider creates the account, sets its name, and the
    platform commits the profile at [t], [signUpUser] reports success with
    the provider's uid and e-mail and the given name; the profile stored
    under the uid holds the uid, the e-mail as typed, the name, both
    timestamps equal to [t], the role "customer", no reservations, e-mail
    notifications on and SMS off, and nothing else; the profiles of others
    are untouched and the new account is signed in. *)
Theorem sign_up_writes_the_default_profile
    (u : Auth.User) (t : Z) (email password name : string) (w : Gateway.World) :
  let r := Gateway.signUpUser (Gateway.Ok u) (Gateway.Ok tt) (Gateway.Ok t)
             email password name w in
  Gateway.success (fst r) = true
  /\ Gateway.user (fst r)
     = Some (Auth.mkUser (Auth.uid u) (Auth.email u) (Some name))
  /\ Gateway.error (fst r) = None
  /\ (exists p,
        Gateway.users (snd r) !! Auth.uid u = Some p
        /\ dom p = ({[ "uid"; "email"; "displayName"; "createdAt"; "updatedAt";
                       "role"; "reservations"; "preferences" ]} : gset string)
        /\ p !! "uid" = Some (Auth.VString (Auth.uid u))
        /\ p !! "email" = Some (Auth.VString email)
        /\ p !! "displayName" = Some (Auth.VString name)
        /\ p !! "createdAt" = Some (Auth.VTimestamp t)
        /\ p !! "updatedAt" = Some (Auth.VTimestamp t)
        /\ p !! "role" = Some (Auth.VString "customer")
        /\ p !! "reservations" = Some (Auth.VArray [])
        /\ p !! "preferences" = Some (Auth.VPreferences true false))
  /\ (forall j, j <> Auth.uid u ->
        Gateway.users (snd r) !! j = Gateway.users w !! j)
  /\ Gateway.currentUser (snd r) = Some (Auth.uid u)
  /\ Gateway.getCurrentUser (snd r)
     = Some (Auth.mkUser (Auth.uid u) (Auth.email u) (Some name)).
Proof.
  cbn. split; [reflexivity|]. split; [reflexivity|]. split; [reflexivity|].
  split; [|split; [|split]].
  - exists (Gateway.newProfile (Auth.uid u) email name t).
    split; [apply lookup_insert_eq|]. split; [apply newProfile_dom|].
    unfold Gateway.newProfile. repeat split.
  - intros j Hj. apply lookup_insert_ne. congruence.
  - reflexivity.
  - unfold Gateway.getCurrentUser. cbn. rewrite lookup_insert_eq. reflexivity.
Qed.

(** X16. [signUpUser] undoes nothing: when the account is created and
    named but the profile write fails, it reports failure with the message
    for the code of that error, while the account exists at the provider,
    is signed in, and has no profile.  Such an account can be
    authenticated but never gets a success from [signInUser], whose update
    of [lastLogin] finds no document. *)
Theorem sign_up_can_leave_an_account_without_profile
    (u : Auth.User) (c : option string) (email password name : string)
    (w : Gateway.World) (written : Gateway.Reply Z) (email' password' : string) :
  Gateway.users w !! Auth.uid u = None ->
  let r := Gateway.signUpUser (Gateway.Ok u) (Gateway.Ok tt) (Gateway.Err c)
             email password name w in
  let r' := Gateway.signInUser (Gateway.Ok (Gateway.withDisplayName name u)) written
              email' password' (snd r) in
  Gateway.success (fst r) = false
  /\ Gateway.error (fst r) = Some (Gateway.getErrorMessage c)
  /\ Gateway.getCurrentUser (snd r) = Some (Gateway.withDisplayName name u)
  /\ Gateway.users (snd r) = Gateway.users w
  /\ Gateway.success (fst r') = false
  /\ Gateway.currentUser (snd r') = Some (Auth.uid u)
  /\ Gateway.users (snd r') = Gateway.users w
  /\ (forall t, written = Gateway.Ok t ->
        Gateway.error (fst r')
        = Some (Gateway.Sentence "An error occurred. Please try again.")).
Proof.
  intros Hnone. cbn.
  split; [reflexivity|]. split; [reflexivity|].
  split; [unfold Gateway.getCurrentUser; cbn; rewrite lookup_insert_eq; reflexivity|].
  split; [reflexivity|].
  unfold Gateway.signInUser, Gateway.update. cbn.
  destruct written as [t|c']; cbn; rewrite ?Hnone; cbn.
  - repeat split. 
  - repeat split. intros t [=].
Qed.

Lemma sign_up_can_leave_an_account_without_profile_witness :
  Gateway.success
    (fst (Gateway.signInUser
            (Gateway.Ok (Gateway.withDisplayName "Asha" Cases.asha))
            (Gateway.Ok 1767940207000) "asha@example.com" "secret1"
            (snd (Gateway.signUpUser (Gateway.Ok Cases.asha) (Gateway.Ok tt)
                    (Gateway.Err (Some "permission-denied"))
                    "asha@example.com" "secret1" "Asha" Cases.nobody))))
  = false.
Proof.
  refine (proj1 (proj2 (proj2 (proj2 (proj2
            (sign_up_can_leave_an_account_without_profile Cases.asha
               (Some "permission-denied") "asha@example.com" "secret1" "Asha"
               Cases.nobody (Gateway.Ok 1767940207000) "asha@example.com"
               "secret1" _)))))).
  reflexivity.
Defined.

(** X17. A sign-in the provider accepts, for an account with a profile,
    and whose update is committed at [t], reports success with the
    provider's user, sets [lastLogin] to [t] in that profile and changes
    no other field and no other profile.  A sign-in the provider refuses
    changes nothing and reports the message for the provider's code. *)
Theorem sign_in_touches_lastLogin_only
    (u : Auth.User) (t : Z) (c : option string) (email password : string)
    (w : Gateway.World) (d : gmap string Auth.Value) :
  Gateway.users w !! Auth.uid u = Some d ->
  let r := Gateway.signInUser (Gateway.Ok u) (Gateway.Ok t) email password w in
  Gateway.success (fst r) = true
  /\ Gateway.user (fst r) = Some u
  /\ Gateway.currentUser (snd r) = Some (Auth.uid u)
  /\ Gateway.accounts (snd r) = Gateway.accounts w
  /\ (exists d',
        Gateway.users (snd r) !! Auth.uid u = Some d'
        /\ d' !! "lastLogin" = Some (Auth.VTimestamp t)
        /\ forall k, k <> "lastLogin" -> d' !! k = d !! k)
  /\ (forall j, j <> Auth.uid u ->
        Gateway.users (snd r) !! j = Gateway.users w !! j)
  /\ Gateway.signInUser (Gateway.Err c) (Gateway.Ok t) email password w
     = (Gateway.failure (Gateway.getErrorMessage c), w).
Proof.
  intros Hd. unfold Gateway.signInUser, Gateway.update. cbn. rewrite Hd. cbn.
  repeat split.
  - eexists. split; [apply lookup_insert_eq|]. split.
    + apply lookup_union_Some_l, lookup_singleton_eq.
    + intros k Hk. rewrite lookup_union_r; [reflexivity|].
      apply lookup_singleton_ne. congruence.
  - intros j Hj. apply lookup_insert_ne. congruence.
Qed.

Lemma sign_in_touches_lastLogin_only_witness :
  Gateway.success
    (fst (Gateway.signInUser (Gateway.Ok Cases.asha) (Gateway.Ok 1767940207000)
            "asha@example.com" "secret1" Cases.member)) = true.
Proof.
  refine (proj1 (sign_in_touches_lastLogin_only Cases.asha 1767940207000 None
                   "asha@example.com" "secret1" Cases.member
                   (Gateway.newProfile "u1" "asha@example.com" "Asha" 1767940200000)
                   _)).
  reflexivity.
Defined.



(** X19. For a signed-in user with a readable profile, the callback is
    called once with a user object in which every field of the profile
    has the value of the profile, also [uid], [email] and [displayName]
    when the profile has them; the provider's three fields fill in what
    the profile lacks.  For a sign-out the callback gets
    [isAuthenticated] false and no user, and the profile is not read. *)
Theorem auth_state_profile_takes_precedence
    (users : gmap string (gmap string Auth.Value)) (rd : Auth.Read)
    (u : Auth.User) (d : gmap string Auth.Value) :
  users !! Auth.uid u = Some d ->
  (exists m,
     Auth.onAuthStateChanged users Auth.Served (Some u)
     = [ Auth.mkAuthState true (Some m) ]
     /\ dom m = dom d ∪ {[ "uid"; "email"; "displayName" ]}
     /\ (forall k x, d !! k = Some x -> m !! k = Some x)
     /\ (d !! "uid" = None -> m !! "uid" = Some (Auth.VString (Auth.uid u)))
     /\ (d !! "email" = None -> m !! "email" = Some (Auth.ofNullable (Auth.email u)))
     /\ (d !! "displayName" = None ->
         m !! "displayName" = Some (Auth.ofNullable (Auth.displayName u))))
  /\ Auth.onAuthStateChanged users rd None = [ Auth.mkAuthState false None ].
Proof.
  intros Hd. split; [|reflexivity].
  eexists. split.
  - unfold Auth.onAuthStateChanged, Auth.getUserData. rewrite Hd. cbn.
    reflexivity.
  - unfold Auth.merged. cbn. split; [|split; [|split; [|split]]].
    + rewrite dom_union_L, !dom_insert_L, dom_empty_L. set_solver.
    + intros k x Hk. apply lookup_union_Some_l, Hk.
    + intros H. rewrite lookup_union_r by exact H. reflexivity.
    + intros H. rewrite lookup_union_r by exact H. reflexivity.
    + intros H. rewrite lookup_union_r by exact H. reflexivity.
Qed.

Lemma auth_state_profile_takes_precedence_witness :
  exists m,
    Auth.onAuthStateChanged (Gateway.users Cases.member) Auth.Served
      (Some Cases.asha)
    = [ Auth.mkAuthState true (Some m) ]
    /\ m !! "displayName" = Some (Auth.VString "Asha").
Proof.
  destruct (auth_state_profile_takes_precedence (Gateway.users Cases.member)
              Auth.Served Cases.asha
              (Gateway.newProfile "u1" "asha@example.com" "Asha" 1767940200000))
    as [(m & Hcall & _ & Hprofile & _) _].
  - reflexivity.
  - exists m. split; [exact Hcall|]. apply Hprofile. reflexivity.
Defined.

Section MessageFacts.
Import Gateway.

Lemma errorMessages_NoDup : NoDup (errorMessages.*1).
Proof. apply (bool_decide_unpack _). vm_compute. exact I. Qed.

Lemma errorMessages_truthy code m :
  (code, m) ∈ errorMessages -> JS.truthy m = true.
Proof.
  unfold errorMessages. rewrite !elem_of_cons, elem_of_nil.
  intros H. repeat (destruct H as [H|H]; [injection H as -> ->; reflexivity|]).
  destruct H.
Qed.

Lemma getErrorMessage_nonempty (c : option string) :
  getErrorMessage c <> Sentence "".
Proof.
  unfold getErrorMessage. destruct c as [code|]; [|discriminate].
  destruct (_ !! code) as [m|] eqn:Hm.
  - destruct (JS.truthy m) eqn:Ht; [|discriminate].
    destruct m; [discriminate | discriminate].
  - destruct (bool_decide _); discriminate.
Qed.

End MessageFacts.

(** X20. [getErrorMessage] gives each of the nine codes of its table the
    sentence of that code.  For the name of a property that every object
    inherits ("constructor", "toString", "__proto__" and the like) it
    gives that property, not a sentence.  Every other code, and an error
    without code, gets the generic sentence; so the errors of the document
    store ("not-found", "permission-denied") are shown as the generic
    sentence.  It never gives the empty string. *)
Theorem error_messages_fall_back_to_generic (c : option string) :
  Gateway.getErrorMessage c <> Gateway.Sentence ""
  /\ (forall code m, c = Some code -> (code, m) ∈ Gateway.errorMessages ->
        Gateway.getErrorMessage c = Gateway.Sentence m)
  /\ (forall code, c = Some code -> code ∈ Gateway.objectPrototype ->
        Gateway.getErrorMessage c = Gateway.Inherited code)
  /\ (forall code, c = Some code -> code ∉ Gateway.errorMessages.*1 ->
        code ∉ Gateway.objectPrototype ->
        Gateway.getErrorMessage c
        = Gateway.Sentence "An error occurred. Please try again.")
  /\ (c = None ->
      Gateway.getErrorMessage c
      = Gateway.Sentence "An error occurred. Please try again.")
  /\ Gateway.getErrorMessage (Some "not-found")
     = Gateway.Sentence "An error occurred. Please try again."
  /\ Gateway.getErrorMessage (Some "permission-denied")
     = Gateway.Sentence "An error occurred. Please try again.".
Proof.
  pose (T := list_to_map Gateway.errorMessages : gmap string string).
  assert (Hdef : forall code, Gateway.getErrorMessage (Some code)
                 = match T !! code with
                   | Some m => if JS.truthy m then Gateway.Sentence m
                               else Gateway.Sentence Gateway.genericMessage
                   | None => if bool_decide (code ∈ Gateway.objectPrototype)
                             then Gateway.Inherited code
                             else Gateway.Sentence Gateway.genericMessage
                   end) by reflexivity.
  split; [apply getErrorMessage_nonempty|].
  split; [|split; [|split; [|split; [|split]]]].
  - intros code m -> Hin. rewrite Hdef. unfold T.
    rewrite (elem_of_list_to_map_1 (M:=gmap string) _ _ _ errorMessages_NoDup Hin).
    rewrite (errorMessages_truthy _ _ Hin). reflexivity.
  - intros code -> Hin. rewrite Hdef.
    assert (Hout : T !! code = None).
    { unfold Gateway.objectPrototype in Hin.
      rewrite !elem_of_cons, elem_of_nil in Hin.
      repeat (destruct Hin as [->|Hin]; [reflexivity|]). destruct Hin. }
    rewrite Hout, (bool_decide_eq_true_2 _ Hin). reflexivity.
  - intros code -> Hout Hown. rewrite Hdef. unfold T.
    rewrite (not_elem_of_list_to_map_1 (M:=gmap string) _ _ Hout).
    rewrite (bool_decide_eq_false_2 _ Hown). reflexivity.
  - intros ->. reflexivity.
  - reflexivity.
  - reflexivity.
Qed.

Lemma error_messages_fall_back_to_generic_witness :
  Gateway.getErrorMessage (Some "auth/wrong-password")
  = Gateway.Sentence "Incorrect password. Please try again."
  /\ Gateway.getErrorMessage (Some "constructor") = Gateway.Inherited "constructor".
Proof.
  split.
  - refine (proj1 (proj2 (error_messages_fall_back_to_generic
                            (Some "auth/wrong-password")))
              "auth/wrong-password" _ eq_refl _).
    unfold Gateway.errorMessages. rewrite !elem_of_cons.
    do 6 right. left. reflexivity.
  - refine (proj1 (proj2 (proj2 (error_messages_fall_back_to_generic
                                   (Some "constructor"))))
              "constructor" eq_refl _).
    left.
Defined.

(* ===================================================================== *)
(** * Properties of the forms of the home page *)
(* ===================================================================== *)

(** X21. The login form calls [signInUser] only when both fields hold
    something.  For an account without a profile the provider's
    acceptance is of no use: the form shows the generic error and enables
    the button again, although the account is signed in by then.  For an
    account with a profile the form shows "Welcome back!", is reset, and
    leaves its button disabled. *)
Theorem login_form_reports_what_signInUser_returns
    (signedIn : Gateway.Reply Auth.User) (u : Auth.User) (t : Z)
    (p : Site.LoginPage) (box : Site.MessageBox) (w : Gateway.World) :
  Site.loginMessage p = Some box ->
  (Site.login_email (Site.loginForm p) = ""
   \/ Site.login_password (Site.loginForm p) = "" ->
   Site.handleLoginSubmit signedIn (Gateway.Ok t) p w
   = (Site.mkLoginPage (Site.loginForm p) (Site.loginDefaults p)
        (Site.loginDisabled p) (Site.loginText p)
        (Some (Site.mkMessageBox (Gateway.Sentence "Please enter both email and password.")
                 "form-message error" "block"))
        (Site.signInCalls p), w))
  /\ (Site.login_email (Site.loginForm p) <> "" ->
      Site.login_password (Site.loginForm p) <> "" ->
      let r := Site.handleLoginSubmit (Gateway.Ok u) (Gateway.Ok t) p w in
      Site.signInCalls (fst r)
      = Site.signInCalls p
        ++ [(Site.login_email (Site.loginForm p),
             Site.login_password (Site.loginForm p))]
      /\ Gateway.currentUser (snd r) = Some (Auth.uid u)
      /\ (Gateway.users w !! Auth.uid u = None ->
          Site.loginMessage (fst r)
          = Some (Site.mkMessageBox (Gateway.Sentence "An error occurred. Please try again.")
                    "form-message error" "block")
          /\ Site.loginDisabled (fst r) = false
          /\ Site.loginText (fst r) = "Sign In"
          /\ Site.loginForm (fst r) = Site.loginForm p
          /\ Gateway.users (snd r) = Gateway.users w)
      /\ (is_Some (Gateway.users w !! Auth.uid u) ->
          Site.loginMessage (fst r)
          = Some (Site.mkMessageBox (Gateway.Sentence "Welcome back!") "form-message success" "block")
          /\ Site.loginDisabled (fst r) = true
          /\ Site.loginText (fst r) = "Signing In..."
          /\ Site.loginForm (fst r) = Site.loginDefaults p)).
Proof.
  intros Hbox. unfold Site.handleLoginSubmit. cbv zeta. split.
  - intros Hblank.
    assert (Hb : negb (JS.truthy (Site.login_email (Site.loginForm p)))
                 || negb (JS.truthy (Site.login_password (Site.loginForm p)))
                 = true).
    { destruct Hblank as [-> | ->]; [reflexivity | apply orb_true_r]. }
    rewrite Hb, Hbox. reflexivity.
  - intros He Hp.
    apply truthy_nonempty in He. apply truthy_nonempty in Hp.
    rewrite He, Hp. cbn [negb orb].
    unfold Gateway.signInUser, Gateway.update. cbn.
    destruct (Gateway.users w !! Auth.uid u) as [d|] eqn:Hd; cbn; rewrite Hbox; cbn.
    + split; [reflexivity|]. split; [reflexivity|].
      split; [intros [=] | intros _; repeat split].
    + split; [reflexivity|]. split; [reflexivity|].
      split; [intros _; repeat split | intros [? [=]]].
Qed.

Lemma login_form_reports_what_signInUser_returns_witness :
  Site.loginDisabled
    (fst (Site.handleLoginSubmit (Gateway.Ok Cases.asha) (Gateway.Ok 1767940207000)
            (Cases.loginPage "asha@example.com" "secret1") Cases.orphan))
  = false.
Proof.
  destruct (login_form_reports_what_signInUser_returns (Gateway.Ok Cases.asha)
              Cases.asha 1767940207000
              (Cases.loginPage "asha@example.com" "secret1")
              (Site.mkMessageBox (Gateway.Sentence "") "form-message" "none") Cases.orphan)
    as [_ H].
  - reflexivity.
  - destruct H as (_ & _ & Horphan & _); [discriminate | discriminate |].
    destruct Horphan as (_ & Hd & _); [reflexivity | exact Hd].
Defined.

Lemma merged_without_profile (u : Auth.User) :
  Auth.merged u None !! "displayName" = Some (Auth.ofNullable (Auth.displayName u))
  /\ Auth.merged u None !! "email" = Some (Auth.ofNullable (Auth.email u))
  /\ Auth.merged u None !! "role" = None.
Proof.
  unfold Auth.merged. cbn [default]. rewrite (left_id_L ∅ (∪)).
  split; [|split].
  - rewrite lookup_insert_ne by discriminate.
    rewrite lookup_insert_ne by discriminate.
    apply lookup_insert_eq.
  - rewrite lookup_insert_ne by discriminate.
    apply lookup_insert_eq.
  - rewrite !lookup_insert_ne by discriminate. apply lookup_empty.
Qed.

(** X22. The profile card shows "Administrator" only for a user object
    whose [role] is the string "admin"; as the provider's fields have no
    role, a signed-in user whose profile is missing or unreadable is shown
    as "Member", under the provider's name or "Guest" when it has none.
    On a page without the login container, and for a sign-out, the
    callback leaves the page alone. *)
Theorem profile_card_role_comes_from_the_profile
    (users : gmap string (gmap string Auth.Value)) (rd : Auth.Read)
    (u : Auth.User) (e : string) :
  Auth.email u = Some e ->
  (forall st card, st ∈ Auth.onAuthStateChanged users rd (Some u) ->
     Site.authStateCallback true st = Site.Shown card ->
     (Site.userRole card = "Administrator"
      <-> rd = Auth.Served
          /\ exists d, users !! Auth.uid u = Some d
                       /\ d !! "role" = Some (Auth.VString "admin")))
  /\ ((rd = Auth.Served /\ users !! Auth.uid u = None) \/ (exists x, rd = Auth.Refused x) ->
      map (Site.authStateCallback true) (Auth.onAuthStateChanged users rd (Some u))
      = [ Site.Shown
            (Site.mkCard
               (match Auth.displayName u with
                | Some n => if JS.truthy n then Auth.VString n else Auth.VString "Guest"
                | None => Auth.VString "Guest"
                end)
               (Some (Auth.VString e)) "Member") ])
  /\ map (Site.authStateCallback false) (Auth.onAuthStateChanged users rd (Some u))
     = [ Site.Untouched ]
  /\ map (Site.authStateCallback true) (Auth.onAuthStateChanged users rd None)
     = [ Site.Untouched ].
Proof.
  intros He. split; [|split; [|split; reflexivity]].
  - intros st card Hst Hshown.
    unfold Auth.onAuthStateChanged in Hst.
    apply list_elem_of_singleton in Hst. subst st.
    unfold Site.authStateCallback in Hshown. cbn in Hshown.
    destruct (negb _ && negb _); [discriminate|].
    injection Hshown as <-. cbn.
    assert (Hrole : Auth.merged u (Auth.data (Auth.getUserData users rd (Auth.uid u)))
                      !! "role"
                    = default ∅ (Auth.data (Auth.getUserData users rd (Auth.uid u)))
                        !! "role").
    { unfold Auth.merged. rewrite lookup_union_cases.
      destruct (default ∅ _ !! "role"); reflexivity. }
    rewrite Hrole. unfold Auth.getUserData.
    destruct rd as [|x]; cbn.
    + destruct (users !! Auth.uid u) as [d|] eqn:Hd; cbn.
      * unfold Site.isAdmin.
        destruct (d !! "role") as [[s| | | | |]|] eqn:Hr;
          try (split; [discriminate | intros (_ & d' & [= <-] & H); congruence]).
        destruct (decide (s = "admin")) as [->|Hs].
        -- split; [eauto | reflexivity].
        -- rewrite (bool_decide_eq_false_2 _ Hs).
           split; [discriminate | intros (_ & d' & [= <-] & H); congruence].
      * split; [discriminate | intros (_ & d' & [=] & _)].
    + split; [discriminate | intros ([=] & _)].
  - intros Hmissing.
    assert (Hdata : Auth.data (Auth.getUserData users rd (Auth.uid u)) = None).
    { unfold Auth.getUserData. destruct Hmissing as [[-> ->]|[x ->]]; reflexivity. }
    unfold Auth.onAuthStateChanged. rewrite Hdata.
    unfold Site.authStateCallback.
    cbn [map negb Auth.isAuthenticated Auth.user].
    destruct (merged_without_profile u) as (-> & -> & ->).
    rewrite He. cbn.
    destruct (Auth.displayName u) as [n|]; cbn;
      [destruct (JS.truthy n) eqn:Hn; cbn|]; reflexivity.
Qed.

Lemma profile_card_role_comes_from_the_profile_witness :
  map (Site.authStateCallback true)
    (Auth.onAuthStateChanged (Gateway.users Cases.orphan) Auth.Served
       (Some (Gateway.withDisplayName "Asha" Cases.asha)))
  = [ Site.Shown (Site.mkCard (Auth.VString "Asha")
                    (Some (Auth.VString "asha@example.com")) "Member") ].
Proof.
  destruct (profile_card_role_comes_from_the_profile (Gateway.users Cases.orphan)
              Auth.Served (Gateway.withDisplayName "Asha" Cases.asha)
              "asha@example.com" eq_refl)
    as (_ & Hmissing & _).
  apply Hmissing. left. split; reflexivity.
Defined.

(** X23. The sign-up form calls [signUpUser], and so changes accounts,
    session or profiles, only for a password of at least six characters
    that was typed the same twice; a mismatch is reported before the
    length, and a refused form keeps its fields and its button. *)
Theorem sign_up_form_guards_the_password
    (created : Gateway.Reply Auth.User) (named : Gateway.Reply unit)
    (written : Gateway.Reply Z) (p : Site.SignupPage) (box : Site.MessageBox)
    (w : Gateway.World) :
  Site.signupMessage p = Some box ->
  let f := Site.signupForm p in
  let r := Site.signupSubmit created named written p w in
  (Site.signUpCalls (fst r) <> Site.signUpCalls p \/ snd r <> w ->
   Site.signup_password f = Site.signup_password_confirm f
   /\ (6 <= String.length (Site.signup_password f))%nat)
  /\ (Site.signup_password f = Site.signup_password_confirm f ->
      (6 <= String.length (Site.signup_password f))%nat ->
      Site.signUpCalls (fst r)
      = Site.signUpCalls p
        ++ [(Site.signup_email f, Site.signup_password f, Site.signup_name f)]
      /\ snd r = snd (Gateway.signUpUser created named written
                        (Site.signup_email f) (Site.signup_password f)
                        (Site.signup_name f) w))
  /\ (Site.signup_password f <> Site.signup_password_confirm f ->
      r = (Site.mkSignupPage f (Site.signupDefaults p) (Site.signupDisabled p)
             (Site.signupText p)
             (Some (Site.mkMessageBox (Gateway.Sentence "Passwords do not match.")
                      "form-message error" "block"))
             (Site.modalShown p) (Site.closing p) (Site.signUpCalls p), w))
  /\ (Site.signup_password f = Site.signup_password_confirm f ->
      (String.length (Site.signup_password f) < 6)%nat ->
      r = (Site.mkSignupPage f (Site.signupDefaults p) (Site.signupDisabled p)
             (Site.signupText p)
             (Some (Site.mkMessageBox (Gateway.Sentence "Password must be at least 6 characters.")
                      "form-message error" "block"))
             (Site.modalShown p) (Site.closing p) (Site.signUpCalls p), w)).
Proof.
  intros Hbox f r. subst f r. unfold Site.signupSubmit. cbv zeta.
  destruct (decide (Site.signup_password (Site.signupForm p)
                    = Site.signup_password_confirm (Site.signupForm p)))
    as [Heq|Hne].
  - rewrite (bool_decide_eq_true_2 _ Heq). cbn [negb].
    destruct (Nat.ltb_spec (String.length (Site.signup_password (Site.signupForm p))) 6)
      as [Hshort|Hlong].
    + split; [|split; [|split]].
      * cbn. intros [H|H]; contradiction.
      * intros _ H. lia.
      * intros H. contradiction.
      * intros _ _. rewrite Hbox. reflexivity.
    + split; [|split; [|split]].
      * intros _. split; [exact Heq | exact Hlong].
      * intros _ _.
        destruct (Gateway.signUpUser _ _ _ _ _ _ _) as [result w'].
        destruct (Gateway.success result); split; reflexivity.
      * intros H. contradiction.
      * intros _ H. lia.
  - rewrite (bool_decide_eq_false_2 _ Hne). cbn [negb].
    split; [|split; [|split]].
    + cbn. intros [H|H]; contradiction.
    + intros H. contradiction.
    + intros _. rewrite Hbox. reflexivity.
    + intros H. contradiction.
Qed.

Lemma sign_up_form_guards_the_password_witness :
  Site.signupSubmit (Gateway.Ok Cases.asha) (Gateway.Ok tt) (Gateway.Ok 1767940200000)
    (Cases.signupPage "Asha" "asha@example.com" "abc" "abcdef") Cases.nobody
  = (Site.mkSignupPage (Site.mkSignupForm "Asha" "asha@example.com" "abc" "abcdef")
       (Site.mkSignupForm "" "" "" "") false "Create Account"
       (Some (Site.mkMessageBox (Gateway.Sentence "Passwords do not match.")
                "form-message error" "block"))
       true false [], Cases.nobody).
Proof.
  destruct (sign_up_form_guards_the_password (Gateway.Ok Cases.asha) (Gateway.Ok tt)
              (Gateway.Ok 1767940200000)
              (Cases.signupPage "Asha" "asha@example.com" "abc" "abcdef")
              (Site.mkMessageBox (Gateway.Sentence "") "form-message" "none") Cases.nobody eq_refl)
    as (_ & _ & Hmismatch & _).
  apply Hmismatch. discriminate.
Defined.

(** X24. Every result of the authentication service either succeeded and
    carries no error, or failed and carries a text that is not empty and
    no user: the forms never show an undefined or empty error.  A failed
    sign-out leaves the session as it was; a sign-out that the provider
    accepts closes the session and keeps accounts and profiles. *)
Theorem service_results_are_success_or_error_text
    (created signedIn : Gateway.Reply Auth.User) (named done : Gateway.Reply unit)
    (written : Gateway.Reply Z) (email password name uid : string)
    (data : gmap string Auth.Value) (w : Gateway.World) (r : Gateway.Result) :
  r ∈ [ fst (Gateway.signUpUser created named written email password name w);
        fst (Gateway.signInUser signedIn written email password w);
        fst (Gateway.signOutUser done w);
        fst (Gateway.updateUserProfile written uid data w);
        Gateway.resetPassword done email ] ->
  ((Gateway.success r = true /\ Gateway.error r = None)
   \/ (Gateway.success r = false /\ Gateway.user r = None
       /\ exists m, Gateway.error r = Some m /\ m <> Gateway.Sentence ""
                    /\ Site.errorText r = m))
  /\ (Gateway.success (fst (Gateway.signOutUser done w)) = false ->
      snd (Gateway.signOutUser done w) = w)
  /\ (Gateway.success (fst (Gateway.signOutUser done w)) = true ->
      Gateway.getCurrentUser (snd (Gateway.signOutUser done w)) = None
      /\ Gateway.accounts (snd (Gateway.signOutUser done w)) = Gateway.accounts w
      /\ Gateway.users (snd (Gateway.signOutUser done w)) = Gateway.users w).
Proof.
  intros Hr. split; [|split].
  - assert (Hfail : forall c,
              Gateway.success (Gateway.failure (Gateway.getErrorMessage c)) = false
              /\ Gateway.user (Gateway.failure (Gateway.getErrorMessage c)) = None
              /\ exists m, Gateway.error (Gateway.failure (Gateway.getErrorMessage c))
                           = Some m /\ m <> Gateway.Sentence ""
                           /\ Site.errorText (Gateway.failure (Gateway.getErrorMessage c))
                              = m).
    { intros c. split; [reflexivity|]. split; [reflexivity|].
      eexists. split; [reflexivity|]. split; [apply getErrorMessage_nonempty|].
      reflexivity. }
    rewrite !elem_of_cons, elem_of_nil in Hr.
    destruct Hr as [->|[->|[->|[->|[->|[]]]]]].
    + unfold Gateway.signUpUser.
      destruct created as [u|c]; [|right; apply Hfail].
      destruct named as [[]|c]; [|right; apply Hfail].
      destruct written as [t|c]; [|right; apply Hfail].
      left. split; reflexivity.
    + unfold Gateway.signInUser.
      destruct signedIn as [u|c]; [|right; apply Hfail].
      unfold Gateway.update.
      destruct written as [t|c]; [|right; apply Hfail].
      cbn. destruct (Gateway.users w !! Auth.uid u); [|right; apply Hfail].
      left. split; reflexivity.
    + unfold Gateway.signOutUser. destruct done as [[]|c].
      * left. split; reflexivity.
      * right. split; [reflexivity|]. split; [reflexivity|].
        eexists. split; [reflexivity|]. split; [discriminate | reflexivity].
    + unfold Gateway.updateUserProfile.
      destruct (Gateway.update written uid _ (Gateway.users w)).
      * right. split; [reflexivity|]. split; [reflexivity|].
        eexists. split; [reflexivity|]. split; [discriminate | reflexivity].
      * left. split; reflexivity.
    + unfold Gateway.resetPassword. destruct done as [[]|c]; [|right; apply Hfail].
      left. split; reflexivity.
  - destruct done as [[]|c]; [discriminate | reflexivity].
  - destruct done as [[]|c]; [|discriminate]. intros _. repeat split.
Qed.

Lemma service_results_are_success_or_error_text_witness :
  Gateway.getCurrentUser (snd (Gateway.signOutUser (Gateway.Ok tt) Cases.orphan)) = None.
Proof.
  destruct (service_results_are_success_or_error_text
              (Gateway.Ok Cases.asha) (Gateway.Ok Cases.asha) (Gateway.Ok tt)
              (Gateway.Ok tt) (Gateway.Ok 1767940200000)
              "asha@example.com" "secret1" "Asha" "u1" ∅ Cases.orphan
              (fst (Gateway.signOutUser (Gateway.Ok tt) Cases.orphan)))
    as (_ & _ & Hout).
  - rewrite !elem_of_cons. right. right. left. reflexivity.
  - destruct Hout as [H _]; [reflexivity | exact H].
Defined.
